(** * SIGED back end: a shallow embedding of the Express route handlers

    The development follows the three controllers of the back end
    (authController with the notes controller and the JWT middleware,
    aplicativosController, mailController, aiController).  A handler is a
    computation over a [world] holding the five tables, the uuid supply,
    the clock, the schedule of failing external calls and the log of
    everything handed to the database, the mail transport and the
    generative-text client.

    Conventions.
    - Text is [string] (bytes).  [toLowerCase], [UPPER] and [trim] are
      modelled on the ASCII range; other bytes are left alone.
    - SQL texts are written with their white space collapsed.
    - The schema is not part of the sources: a table is a bag of rows and
      the only checks are the ones the handlers make themselves. *)

From Stdlib Require Import String Ascii List ZArith Lia DecimalString DecimalNat
  Permutation.
From stdpp Require Import base list strings option.

#[local] Set Warnings "-clear-no-such-hyp".

Local Open Scope string_scope.
Local Open Scope nat_scope.

(** ** JavaScript values *)

Module Js.

(** The scalar values a request field or a result cell can carry. *)
Inductive value : Type :=
| Undefined
| Null
| Bool (b : bool)
| Num (n : Z)
| Str (s : string).

#[global] Instance value_eq_dec : EqDecision value.
Proof. solve_decision. Defined.

(** [!v] *)
Definition falsy (v : value) : bool :=
  match v with
  | Undefined | Null => true
  | Bool b => negb b
  | Num n => Z.eqb n 0
  | Str s => bool_decide (s = "")
  end.

Definition truthy (v : value) : bool := negb (falsy v).

(** [a === b] and [a !== b]: no coercion. *)
Definition strict_eq (a b : value) : bool := bool_decide (a = b).
Definition strict_ne (a b : value) : bool := negb (strict_eq a b).

(** [a || b] *)
Definition or (a b : value) : value := if truthy a then a else b.

(** Decimal text of a number, as [String(n)] prints an integer. *)
Definition decimal (n : Z) : string := NilEmpty.string_of_int (Z.to_int n).

(** The decimal text of a count or of a serial number. *)
Definition decimal_nat (n : nat) : string := NilEmpty.string_of_uint (Nat.to_uint n).

(** [String(v)], as a template literal interpolates it. *)
Definition to_string (v : value) : string :=
  match v with
  | Undefined => "undefined"
  | Null => "null"
  | Bool true => "true"
  | Bool false => "false"
  | Num n => decimal n
  | Str s => s
  end.

(** [Number(v)] on the values the handlers compare: a string of decimal
    digits converts to its number (the empty string to 0); any other
    text is NaN, here [None]. *)
Definition to_number (v : value) : option Z :=
  match v with
  | Undefined => None
  | Null => Some 0%Z
  | Bool b => Some (if b then 1 else 0)%Z
  | Num n => Some n
  | Str s => (λ d, Z.of_nat (Nat.of_uint d)) <$> NilEmpty.uint_of_string s
  end.

(** [a <= k] and [a > k] against a number literal: the left operand is
    converted to a number, and a comparison with NaN is false. *)
Definition le_num (a : value) (k : Z) : bool :=
  match to_number a with Some n => Z.leb n k | None => false end.
Definition gt_num (a : value) (k : Z) : bool :=
  match to_number a with Some n => Z.ltb k n | None => false end.

(** Response bodies. *)
#[warnings="-register-all"] Inductive json : Type :=
| JVal (v : value)
| JArr (items : list json)
| JObj (fields : list (string * json)).

Definition jstr (s : string) : json := JVal (Str s).

(** [o.k] on an object literal or a parsed body. *)
Fixpoint get {A} (k : string) (o : list (string * A)) : option A :=
  match o with
  | [] => None
  | (k', v) :: o' => if String.eqb k k' then Some v else get k o'
  end.

End Js.

(** ** Text operations used by the handlers *)

Module Text.

Definition lt_sign : ascii := "<"%char.
Definition gt_sign : ascii := ">"%char.
Definition line_feed : ascii := ascii_of_nat 10.

(** [s.includes(c)] for a one-character needle. *)
Fixpoint includes (c : ascii) (s : string) : bool :=
  match s with
  | EmptyString => false
  | String a s' => Ascii.eqb a c || includes c s'
  end.

(** [s.split(sep)] for a one-character separator. *)
Fixpoint split (sep : ascii) (s : string) : list string :=
  match s with
  | EmptyString => [EmptyString]
  | String a s' =>
      if Ascii.eqb a sep then EmptyString :: split sep s'
      else match split sep s' with
           | [] => [String a EmptyString]
           | p :: ps => String a p :: ps
           end
  end.

Definition lower_char (a : ascii) : ascii :=
  let n := nat_of_ascii a in
  if (65 <=? n) && (n <=? 90) then ascii_of_nat (n + 32) else a.

Definition upper_char (a : ascii) : ascii :=
  let n := nat_of_ascii a in
  if (97 <=? n) && (n <=? 122) then ascii_of_nat (n - 32) else a.

Fixpoint map_chars (f : ascii → ascii) (s : string) : string :=
  match s with
  | EmptyString => EmptyString
  | String a s' => String (f a) (map_chars f s')
  end.

(** [s.toLowerCase()] and SQL [UPPER(s)], on the letters a to z: the
    source compares the results with bearer and with AVANCE only, and no
    other character folds into a letter of these two words. *)
Definition toLowerCase : string → string := map_chars lower_char.
Definition upper : string → string := map_chars upper_char.

(** Text is held as the bytes of its UTF-8 encoding.  These are the
    characters [trim()] strips, the WhiteSpace and LineTerminator code
    points of ECMAScript, each as the bytes that encode it:
    U+0009 to U+000D, U+0020, U+00A0, U+1680, U+2000 to U+200A, U+2028,
    U+2029, U+202F, U+205F, U+3000 and U+FEFF. *)
Definition white_space : list (list nat) :=
  [[9]; [10]; [11]; [12]; [13]; [32];
   [194; 160];
   [225; 154; 128];
   [226; 128; 128]; [226; 128; 129]; [226; 128; 130]; [226; 128; 131];
   [226; 128; 132]; [226; 128; 133]; [226; 128; 134]; [226; 128; 135];
   [226; 128; 136]; [226; 128; 137]; [226; 128; 138];
   [226; 128; 168]; [226; 128; 169];
   [226; 128; 175];
   [226; 129; 159];
   [227; 128; 128];
   [239; 187; 191]].

Fixpoint starts_with (bytes : list nat) (s : string) : bool :=
  match bytes, s with
  | [], _ => true
  | n :: bytes', String a s' => (nat_of_ascii a =? n) && starts_with bytes' s'
  | _ :: _, EmptyString => false
  end.

(** The number of bytes of the white-space character [s] starts with;
    0 if it starts with none. *)
Definition space_width (s : string) : nat :=
  match List.find (λ bytes, starts_with bytes s) white_space with
  | Some bytes => length bytes
  | None => 0
  end.

(** Is [s], after the [skip] bytes that end the white-space character
    being read, white space only? *)
Fixpoint blank_from (skip : nat) (s : string) : bool :=
  match s with
  | EmptyString => true
  | String a s' =>
      match skip with
      | S k => blank_from k s'
      | O =>
          match space_width s with
          | S k => blank_from k s'
          | O => false
          end
      end
  end.

(** [s.trim()] is the empty string exactly for blank text. *)
Definition blank (s : string) : bool := blank_from 0 s.

Fixpoint trim_start_from (skip : nat) (s : string) : string :=
  match s with
  | EmptyString => EmptyString
  | String a s' =>
      match skip with
      | S k => trim_start_from k s'
      | O =>
          match space_width s with
          | S k => trim_start_from k s'
          | O => s
          end
      end
  end.

Definition trim_start (s : string) : string := trim_start_from 0 s.

Fixpoint trim_end (s : string) : string :=
  match s with
  | EmptyString => EmptyString
  | String a s' => if blank s then EmptyString else String a (trim_end s')
  end.

Definition trim (s : string) : string := trim_end (trim_start s).

(** The match of [<[^>]*>] whose [<] has just been read: the number of
    characters before the first [>], if there is one. *)
Fixpoint tag_length (s : string) : option nat :=
  match s with
  | EmptyString => None
  | String a s' => if Ascii.eqb a gt_sign then Some 0 else S <$> tag_length s'
  end.

(** [s.replace(/<[^>]*>/g, '')]: scan from the left; at a [<] that
    starts a match drop the whole match and go on after it; [skip]
    counts the characters of the current match still to drop. *)
Fixpoint replace_tags (skip : nat) (s : string) : string :=
  match s with
  | EmptyString => EmptyString
  | String a s' =>
      match skip with
      | S k => replace_tags k s'
      | O =>
          if Ascii.eqb a lt_sign then
            match tag_length s' with
            | Some k => replace_tags (S k) s'
            | None => String a (replace_tags 0 s')
            end
          else String a (replace_tags 0 s')
      end
  end.

Definition strip_tags (s : string) : string := replace_tags 0 s.

(** [s.replace(/\n/g, '<br>')] *)
Fixpoint nl2br (s : string) : string :=
  match s with
  | EmptyString => EmptyString
  | String a s' =>
      if Ascii.eqb a line_feed then "<br>" +:+ nl2br s' else String a (nl2br s')
  end.

(** Does the regular expression [<[^>]*>] match somewhere in [s]? *)
Fixpoint has_tag (s : string) : bool :=
  match s with
  | EmptyString => false
  | String a s' =>
      (Ascii.eqb a lt_sign && bool_decide (is_Some (tag_length s'))) || has_tag s'
  end.

End Text.


(** ** The relational store *)

Module Db.

(** A column value: [None] is SQL NULL, anything else is kept as text. *)
Definition sql_value := option string.

(** SQL [a = b] in a WHERE or ON clause: NULL is equal to nothing. *)
Definition sql_eq (a b : sql_value) : bool :=
  match a, b with
  | Some x, Some y => bool_decide (x = y)
  | _, _ => false
  end.

Record usuario := Usuario {
  u_id : sql_value; u_nombre : sql_value;
  u_email : sql_value; u_contrasena : sql_value }.

Record aplicativo_base := AplicativoBase {
  ab_id : sql_value; ab_nombre : sql_value;
  ab_url : sql_value; ab_categoria : sql_value }.

Record plantilla_base := PlantillaBase {
  pb_id : sql_value; pb_novedad : sql_value; pb_nota_publica : sql_value;
  pb_nota_interna : sql_value; pb_nota_avances : sql_value;
  pb_plantilla : sql_value }.

(** A row of [aplicativos_rel] or of [notas_despacho_rel]: [r_base_id]
    is [aplicativo_base_id], respectively [plantilla_id]. *)
Record relacion := Relacion {
  r_id : sql_value; r_usuario_id : sql_value;
  r_base_id : sql_value; r_creado_en : nat }.

Record database := Database {
  usuarios : list usuario;
  aplicativos_base : list aplicativo_base;
  aplicativos_rel : list relacion;
  plantillas_base : list plantilla_base;
  notas_despacho_rel : list relacion }.

#[global] Instance usuario_eq_dec : EqDecision usuario.
Proof. solve_decision. Defined.
#[global] Instance aplicativo_base_eq_dec : EqDecision aplicativo_base.
Proof. solve_decision. Defined.
#[global] Instance plantilla_base_eq_dec : EqDecision plantilla_base.
Proof. solve_decision. Defined.
#[global] Instance relacion_eq_dec : EqDecision relacion.
Proof. solve_decision. Defined.

(** What the driver hands back. *)
Inductive cell : Type :=
| CNull
| CText (s : string)
| CInt8 (n : nat)      (* a bigint, such as a COUNT *)
| CTime (t : nat).     (* a timestamp *)

Definition row := list (string * cell).

Record result := Result { rows : list row; rowCount : nat }.

Definition cell_of (v : sql_value) : cell :=
  match v with None => CNull | Some s => CText s end.

Definition selected (rs : list row) : result := Result rs (length rs).
Definition affected (n : nat) : result := Result [] n.

(** *** ORDER BY *)

Section Sorting.
Context {A : Type} (le : A → A → bool).

Fixpoint insert_sorted (x : A) (l : list A) : list A :=
  match l with
  | [] => [x]
  | y :: l' => if le x y then x :: l else y :: insert_sorted x l'
  end.

Fixpoint sort_by (l : list A) : list A :=
  match l with
  | [] => []
  | x :: l' => insert_sorted x (sort_by l')
  end.
End Sorting.

(** Ascending text order with NULL last. *)
Definition text_compare (a b : sql_value) : comparison :=
  match a, b with
  | None, None => Eq
  | None, Some _ => Gt
  | Some _, None => Lt
  | Some x, Some y => String.compare x y
  end.

Definition asc (a b : sql_value) : bool :=
  match text_compare a b with Gt => false | _ => true end.

(** [ORDER BY k1 ASC, k2 ASC] *)
Definition asc2 (a1 a2 b1 b2 : sql_value) : bool :=
  match text_compare a1 b1 with
  | Lt => true
  | Gt => false
  | Eq => asc a2 b2
  end.

Definition newest_first (a b : relacion) : bool := r_creado_en b <=? r_creado_en a.

(** *** GROUP BY with a COUNT *)

Section Grouping.
Context {K : Type} `{EqDecision K}.

Fixpoint bump (k : K) (c : nat) (acc : list (K * nat)) : list (K * nat) :=
  match acc with
  | [] => [(k, c)]
  | (k', n) :: acc' =>
      if decide (k = k') then (k', n + c) :: acc' else (k', n) :: bump k c acc'
  end.

(** Each joined line carries its grouping key and whether the counted
    column is non-NULL on it. *)
Definition group_count (l : list (K * bool)) : list (K * nat) :=
  fold_left (λ acc (kb : K * bool), bump (fst kb) (if snd kb then 1 else 0) acc) l [].
End Grouping.

(** SQL [TRIM(s) != ''], which trims spaces only. *)
Fixpoint all_spaces (s : string) : bool :=
  match s with
  | EmptyString => true
  | String a s' => Ascii.eqb a " "%char && all_spaces s'
  end.

(** [UPPER(v) IN ('AVANCE')]; NULL makes it unknown, which selects
    nothing, also under NOT. *)
Definition upper_is_avance (v : sql_value) : option bool :=
  match v with
  | None => None
  | Some s => Some (bool_decide (Text.upper s = "AVANCE"))
  end.

(** *** The statements of the source *)

Inductive stmt : Type :=
| SelAplicativosDeUsuario | SelUsuarioPorId | InsAplicativoBase
| InsAplicativoRel | SelAplicativoBasePorId | SelAplicativoRel
| SelRelacionInfoAplicativo | DelAplicativoRel | DelAplicativoBase
| SelAplicativosDisponibles
| CountAplicativosBase | CountPlantillasBase | InsPlantillaBase
| SelIdsAplicativosBase | SelIdsPlantillasBase | InsNotaRel
| SelUsuarioPorEmail | InsUsuario | SelCredenciales | SelContrasena
| UpdContrasena
| SelNotasDeUsuario | SelNotasAvancesDeUsuario | SelPlantillaBasePorId
| SelNotaRel | UpdPlantilla | SelRelacionInfoNota | DelNotaRel
| DelPlantillaBase | UpdLimpiarAvances | SelPlantillaNombre
| DelNotaRelPorPlantilla | SelPlantillasDisponibles
| SelPlantillasIncorrectas.

#[global] Instance stmt_eq_dec : EqDecision stmt.
Proof. solve_decision. Defined.

Definition text (s : stmt) : string :=
  match s with
  | SelAplicativosDeUsuario =>
      "SELECT ar.id, ab.nombre, ab.url, ab.categoria, ar.creado_en FROM aplicativos_rel ar INNER JOIN aplicativos_base ab ON ar.aplicativo_base_id = ab.id WHERE ar.usuario_id = $1 ORDER BY ar.creado_en DESC"
  | SelUsuarioPorId => "SELECT id FROM usuarios WHERE id = $1"
  | InsAplicativoBase =>
      "INSERT INTO aplicativos_base (id, nombre, url, categoria) VALUES ($1, $2, $3, $4)"
  | InsAplicativoRel =>
      "INSERT INTO aplicativos_rel (id, usuario_id, aplicativo_base_id, creado_en) VALUES ($1, $2, $3, NOW())"
  | SelAplicativoBasePorId => "SELECT id FROM aplicativos_base WHERE id = $1"
  | SelAplicativoRel =>
      "SELECT id FROM aplicativos_rel WHERE usuario_id = $1 AND aplicativo_base_id = $2"
  | SelRelacionInfoAplicativo =>
      "SELECT ar.id as relacion_id, ar.usuario_id, ar.aplicativo_base_id, ab.nombre, COUNT(ar2.id) as total_usuarios_con_este_aplicativo FROM aplicativos_rel ar INNER JOIN aplicativos_base ab ON ar.aplicativo_base_id = ab.id LEFT JOIN aplicativos_rel ar2 ON ab.id = ar2.aplicativo_base_id WHERE ar.id = $1 GROUP BY ar.id, ar.usuario_id, ar.aplicativo_base_id, ab.nombre"
  | DelAplicativoRel => "DELETE FROM aplicativos_rel WHERE id = $1"
  | DelAplicativoBase => "DELETE FROM aplicativos_base WHERE id = $1"
  | SelAplicativosDisponibles =>
      "SELECT id, nombre, url, categoria FROM aplicativos_base ORDER BY categoria ASC, nombre ASC"
  | CountAplicativosBase => "SELECT COUNT(*) FROM aplicativos_base"
  | CountPlantillasBase => "SELECT COUNT(*) FROM plantillas_base"
  | InsPlantillaBase =>
      "INSERT INTO plantillas_base (id, novedad, nota_publica, nota_interna, nota_avances, plantilla) VALUES ($1, $2, $3, $4, $5, $6)"
  | SelIdsAplicativosBase =>
      "SELECT id FROM aplicativos_base ORDER BY categoria ASC, nombre ASC"
  | SelIdsPlantillasBase => "SELECT id FROM plantillas_base ORDER BY id ASC"
  | InsNotaRel =>
      "INSERT INTO notas_despacho_rel (id, usuario_id, plantilla_id, creado_en) VALUES ($1, $2, $3, NOW())"
  | SelUsuarioPorEmail => "SELECT id FROM usuarios WHERE email = $1"
  | InsUsuario =>
      "INSERT INTO usuarios (id, nombre, email, contraseña) VALUES ($1, $2, $3, $4)"
  | SelCredenciales =>
      "SELECT id, nombre, email, contraseña FROM usuarios WHERE email = $1"
  | SelContrasena => "SELECT contraseña FROM usuarios WHERE email = $1"
  | UpdContrasena => "UPDATE usuarios SET contraseña = $1 WHERE email = $2"
  | SelNotasDeUsuario =>
      "SELECT ndr.id, ndr.plantilla_id, pb.novedad, pb.nota_publica, pb.nota_interna, pb.nota_avances, pb.plantilla, ndr.creado_en FROM notas_despacho_rel ndr INNER JOIN plantillas_base pb ON ndr.plantilla_id = pb.id WHERE ndr.usuario_id = $1 ORDER BY ndr.creado_en DESC"
  | SelNotasAvancesDeUsuario =>
      "SELECT ndr.id, ndr.plantilla_id, pb.novedad, pb.nota_avances, ndr.creado_en FROM notas_despacho_rel ndr INNER JOIN plantillas_base pb ON ndr.plantilla_id = pb.id WHERE ndr.usuario_id = $1 AND pb.nota_avances IS NOT NULL AND TRIM(pb.nota_avances) != '' ORDER BY ndr.creado_en DESC"
  | SelPlantillaBasePorId => "SELECT id FROM plantillas_base WHERE id = $1"
  | SelNotaRel =>
      "SELECT id FROM notas_despacho_rel WHERE usuario_id = $1 AND plantilla_id = $2"
  | UpdPlantilla =>
      "UPDATE plantillas_base SET novedad = $1, nota_publica = $2, nota_interna = $3, nota_avances = $4, plantilla = $5 WHERE id = $6"
  | SelRelacionInfoNota =>
      "SELECT ndr.id as relacion_id, ndr.plantilla_id, pb.novedad, pb.nota_publica, pb.nota_interna, pb.nota_avances, pb.plantilla, COUNT(ndr2.id) as total_usuarios_con_esta_plantilla FROM notas_despacho_rel ndr INNER JOIN plantillas_base pb ON ndr.plantilla_id = pb.id LEFT JOIN notas_despacho_rel ndr2 ON pb.id = ndr2.plantilla_id WHERE ndr.id = $1 GROUP BY ndr.id, ndr.plantilla_id, pb.novedad, pb.nota_publica, pb.nota_interna, pb.nota_avances, pb.plantilla"
  | DelNotaRel => "DELETE FROM notas_despacho_rel WHERE id = $1"
  | DelPlantillaBase => "DELETE FROM plantillas_base WHERE id = $1"
  | UpdLimpiarAvances => "UPDATE plantillas_base SET nota_avances = NULL WHERE id = $1"
  | SelPlantillaNombre => "SELECT id, novedad FROM plantillas_base WHERE id = $1"
  | DelNotaRelPorPlantilla => "DELETE FROM notas_despacho_rel WHERE plantilla_id = $1"
  | SelPlantillasDisponibles =>
      "SELECT id, novedad, nota_publica, nota_interna, nota_avances, plantilla FROM plantillas_base WHERE UPPER(novedad) NOT IN ('AVANCE') ORDER BY novedad ASC"
  | SelPlantillasIncorrectas =>
      "SELECT pb.id, pb.novedad, COUNT(ndr.id) as total_usuarios FROM plantillas_base pb LEFT JOIN notas_despacho_rel ndr ON pb.id = ndr.plantilla_id WHERE UPPER(pb.novedad) IN ('AVANCE') GROUP BY pb.id, pb.novedad"
  end.

(** *** Joins *)

(** [rels r INNER JOIN bases b ON r.base_id = b.id] *)
Definition join {B} (b_id : B → sql_value)
    (rels : list relacion) (bases : list B) : list (relacion * B) :=
  flat_map (λ r, map (pair r)
              (List.filter (λ b, sql_eq (r_base_id r) (b_id b)) bases)) rels.

(** [x LEFT JOIN rels r2 ON id = r2.base_id], keeping for each line
    whether [r2.id] is non-NULL (what [COUNT(r2.id)] counts). *)
Definition left_join_counted {X} (id : sql_value) (x : X)
    (rels : list relacion) : list (X * bool) :=
  match List.filter (λ r2, sql_eq id (r_base_id r2)) rels with
  | [] => [(x, false)]
  | ms => map (λ r2, (x, bool_decide (is_Some (r_id r2)))) ms
  end.

(** The relation-info query of the two delete handlers, before its
    columns are named: the lines for relation [id], grouped by [key]. *)
Definition relacion_info {B K} `{EqDecision K} (b_id : B → sql_value)
    (key : relacion → B → K) (rels : list relacion) (bases : list B)
    (id : sql_value) : list (K * nat) :=
  group_count
    (flat_map (λ p : relacion * B,
                 left_join_counted (b_id (snd p)) (key (fst p) (snd p)) rels)
              (join b_id (List.filter (λ r, sql_eq (r_id r) id) rels) bases)).

(** *** Execution *)

Definition arg (i : nat) (a : list sql_value) : sql_value := nth i a None.

Definition set_usuarios (l : list usuario) (d : database) : database :=
  Database l (aplicativos_base d) (aplicativos_rel d)
           (plantillas_base d) (notas_despacho_rel d).
Definition set_aplicativos_base (l : list aplicativo_base) (d : database) : database :=
  Database (usuarios d) l (aplicativos_rel d)
           (plantillas_base d) (notas_despacho_rel d).
Definition set_aplicativos_rel (l : list relacion) (d : database) : database :=
  Database (usuarios d) (aplicativos_base d) l
           (plantillas_base d) (notas_despacho_rel d).
Definition set_plantillas_base (l : list plantilla_base) (d : database) : database :=
  Database (usuarios d) (aplicativos_base d) (aplicativos_rel d)
           l (notas_despacho_rel d).
Definition set_notas_despacho_rel (l : list relacion) (d : database) : database :=
  Database (usuarios d) (aplicativos_base d) (aplicativos_rel d)
           (plantillas_base d) l.

Definition id_row (v : sql_value) : row := [("id", cell_of v)].

Definition aplicativo_row (ab : aplicativo_base) : row :=
  [("id", cell_of (ab_id ab)); ("nombre", cell_of (ab_nombre ab));
   ("url", cell_of (ab_url ab)); ("categoria", cell_of (ab_categoria ab))].

Definition plantilla_row (pb : plantilla_base) : row :=
  [("id", cell_of (pb_id pb)); ("novedad", cell_of (pb_novedad pb));
   ("nota_publica", cell_of (pb_nota_publica pb));
   ("nota_interna", cell_of (pb_nota_interna pb));
   ("nota_avances", cell_of (pb_nota_avances pb));
   ("plantilla", cell_of (pb_plantilla pb))].

Definition by_categoria_nombre (x y : aplicativo_base) : bool :=
  asc2 (ab_categoria x) (ab_nombre x) (ab_categoria y) (ab_nombre y).

Definition has_avances (pb : plantilla_base) : bool :=
  match pb_nota_avances pb with
  | None => false
  | Some s => negb (all_spaces s)
  end.

(** [DELETE FROM t WHERE col = v]: what stays, and how many rows went. *)
Definition delete_where {A} (col : A → sql_value) (v : sql_value)
    (t : list A) : list A * nat :=
  (List.filter (λ x, negb (sql_eq (col x) v)) t,
   length (List.filter (λ x, sql_eq (col x) v) t)).

(** [UPDATE t SET ... WHERE col = v] *)
Definition update_where {A} (col : A → sql_value) (v : sql_value)
    (f : A → A) (t : list A) : list A * nat :=
  (map (λ x, if sql_eq (col x) v then f x else x) t,
   length (List.filter (λ x, sql_eq (col x) v) t)).

Definition exec (s : stmt) (a : list sql_value) (now : nat)
    (d : database) : result * database :=
  match s with
  | SelAplicativosDeUsuario =>
      let lines :=
        join ab_id (List.filter (λ r, sql_eq (r_usuario_id r) (arg 0 a))
                                (aplicativos_rel d)) (aplicativos_base d) in
      (selected
         (map (λ p : relacion * aplicativo_base,
                 [("id", cell_of (r_id (fst p)));
                  ("nombre", cell_of (ab_nombre (snd p)));
                  ("url", cell_of (ab_url (snd p)));
                  ("categoria", cell_of (ab_categoria (snd p)));
                  ("creado_en", CTime (r_creado_en (fst p)))])
              (sort_by (λ x y, newest_first (fst x) (fst y)) lines)), d)
  | SelUsuarioPorId =>
      (selected (map (λ u, id_row (u_id u))
                     (List.filter (λ u, sql_eq (u_id u) (arg 0 a)) (usuarios d))), d)
  | InsAplicativoBase =>
      (affected 1,
       set_aplicativos_base
         (aplicativos_base d ++
            [AplicativoBase (arg 0 a) (arg 1 a) (arg 2 a) (arg 3 a)]) d)
  | InsAplicativoRel =>
      (affected 1,
       set_aplicativos_rel
         (aplicativos_rel d ++ [Relacion (arg 0 a) (arg 1 a) (arg 2 a) now]) d)
  | SelAplicativoBasePorId =>
      (selected (map (λ b, id_row (ab_id b))
                     (List.filter (λ b, sql_eq (ab_id b) (arg 0 a))
                                  (aplicativos_base d))), d)
  | SelAplicativoRel =>
      (selected (map (λ r, id_row (r_id r))
                     (List.filter (λ r, sql_eq (r_usuario_id r) (arg 0 a)
                                        && sql_eq (r_base_id r) (arg 1 a))
                                  (aplicativos_rel d))), d)
  | SelRelacionInfoAplicativo =>
      (selected
         (map (λ g : (sql_value * sql_value * sql_value * sql_value) * nat,
                 let '(rid, uid, bid, nombre) := fst g in
                 [("relacion_id", cell_of rid); ("usuario_id", cell_of uid);
                  ("aplicativo_base_id", cell_of bid); ("nombre", cell_of nombre);
                  ("total_usuarios_con_este_aplicativo", CInt8 (snd g))])
              (relacion_info ab_id
                 (λ r b, (r_id r, r_usuario_id r, r_base_id r, ab_nombre b))
                 (aplicativos_rel d) (aplicativos_base d) (arg 0 a))), d)
  | DelAplicativoRel =>
      let '(t, n) := delete_where r_id (arg 0 a) (aplicativos_rel d) in
      (affected n, set_aplicativos_rel t d)
  | DelAplicativoBase =>
      let '(t, n) := delete_where ab_id (arg 0 a) (aplicativos_base d) in
      (affected n, set_aplicativos_base t d)
  | SelAplicativosDisponibles =>
      (selected (map aplicativo_row
                     (sort_by by_categoria_nombre (aplicativos_base d))), d)
  | CountAplicativosBase =>
      (selected [[("count", CInt8 (length (aplicativos_base d)))]], d)
  | CountPlantillasBase =>
      (selected [[("count", CInt8 (length (plantillas_base d)))]], d)
  | InsPlantillaBase =>
      (affected 1,
       set_plantillas_base
         (plantillas_base d ++
            [PlantillaBase (arg 0 a) (arg 1 a) (arg 2 a)
                           (arg 3 a) (arg 4 a) (arg 5 a)]) d)
  | SelIdsAplicativosBase =>
      (selected (map (λ b, id_row (ab_id b))
                     (sort_by by_categoria_nombre (aplicativos_base d))), d)
  | SelIdsPlantillasBase =>
      (selected (map (λ b, id_row (pb_id b))
                     (sort_by (λ x y, asc (pb_id x) (pb_id y))
                              (plantillas_base d))), d)
  | InsNotaRel =>
      (affected 1,
       set_notas_despacho_rel
         (notas_despacho_rel d ++ [Relacion (arg 0 a) (arg 1 a) (arg 2 a) now]) d)
  | SelUsuarioPorEmail =>
      (selected (map (λ u, id_row (u_id u))
                     (List.filter (λ u, sql_eq (u_email u) (arg 0 a))
                                  (usuarios d))), d)
  | InsUsuario =>
      (affected 1,
       set_usuarios
         (usuarios d ++ [Usuario (arg 0 a) (arg 1 a) (arg 2 a) (arg 3 a)]) d)
  | SelCredenciales =>
      (selected
         (map (λ u, [("id", cell_of (u_id u)); ("nombre", cell_of (u_nombre u));
                     ("email", cell_of (u_email u));
                     ("contraseña", cell_of (u_contrasena u))])
              (List.filter (λ u, sql_eq (u_email u) (arg 0 a)) (usuarios d))), d)
  | SelContrasena =>
      (selected
         (map (λ u, [("contraseña", cell_of (u_contrasena u))])
              (List.filter (λ u, sql_eq (u_email u) (arg 0 a)) (usuarios d))), d)
  | UpdContrasena =>
      let '(t, n) :=
        update_where u_email (arg 1 a)
          (λ u, Usuario (u_id u) (u_nombre u) (u_email u) (arg 0 a))
          (usuarios d) in
      (affected n, set_usuarios t d)
  | SelNotasDeUsuario =>
      let lines :=
        join pb_id (List.filter (λ r, sql_eq (r_usuario_id r) (arg 0 a))
                                (notas_despacho_rel d)) (plantillas_base d) in
      (selected
         (map (λ p : relacion * plantilla_base,
                 [("id", cell_of (r_id (fst p)));
                  ("plantilla_id", cell_of (r_base_id (fst p)));
                  ("novedad", cell_of (pb_novedad (snd p)));
                  ("nota_publica", cell_of (pb_nota_publica (snd p)));
                  ("nota_interna", cell_of (pb_nota_interna (snd p)));
                  ("nota_avances", cell_of (pb_nota_avances (snd p)));
                  ("plantilla", cell_of (pb_plantilla (snd p)));
                  ("creado_en", CTime (r_creado_en (fst p)))])
              (sort_by (λ x y, newest_first (fst x) (fst y)) lines)), d)
  | SelNotasAvancesDeUsuario =>
      let lines :=
        List.filter (λ p : relacion * plantilla_base, has_avances (snd p))
          (join pb_id (List.filter (λ r, sql_eq (r_usuario_id r) (arg 0 a))
                                   (notas_despacho_rel d)) (plantillas_base d)) in
      (selected
         (map (λ p : relacion * plantilla_base,
                 [("id", cell_of (r_id (fst p)));
                  ("plantilla_id", cell_of (r_base_id (fst p)));
                  ("novedad", cell_of (pb_novedad (snd p)));
                  ("nota_avances", cell_of (pb_nota_avances (snd p)));
                  ("creado_en", CTime (r_creado_en (fst p)))])
              (sort_by (λ x y, newest_first (fst x) (fst y)) lines)), d)
  | SelPlantillaBasePorId =>
      (selected (map (λ b, id_row (pb_id b))
                     (List.filter (λ b, sql_eq (pb_id b) (arg 0 a))
                                  (plantillas_base d))), d)
  | SelNotaRel =>
      (selected (map (λ r, id_row (r_id r))
                     (List.filter (λ r, sql_eq (r_usuario_id r) (arg 0 a)
                                        && sql_eq (r_base_id r) (arg 1 a))
                                  (notas_despacho_rel d))), d)
  | UpdPlantilla =>
      let '(t, n) :=
        update_where pb_id (arg 5 a)
          (λ b, PlantillaBase (pb_id b) (arg 0 a) (arg 1 a)
                              (arg 2 a) (arg 3 a) (arg 4 a))
          (plantillas_base d) in
      (affected n, set_plantillas_base t d)
  | SelRelacionInfoNota =>
      (selected
         (map (λ g : (sql_value * sql_value * sql_value * sql_value
                      * sql_value * sql_value * sql_value) * nat,
                 let '(rid, pid, nov, pub, int, ava, pla) := fst g in
                 [("relacion_id", cell_of rid); ("plantilla_id", cell_of pid);
                  ("novedad", cell_of nov); ("nota_publica", cell_of pub);
                  ("nota_interna", cell_of int); ("nota_avances", cell_of ava);
                  ("plantilla", cell_of pla);
                  ("total_usuarios_con_esta_plantilla", CInt8 (snd g))])
              (relacion_info pb_id
                 (λ r b, (r_id r, r_base_id r, pb_novedad b, pb_nota_publica b,
                          pb_nota_interna b, pb_nota_avances b, pb_plantilla b))
                 (notas_despacho_rel d) (plantillas_base d) (arg 0 a))), d)
  | DelNotaRel =>
      let '(t, n) := delete_where r_id (arg 0 a) (notas_despacho_rel d) in
      (affected n, set_notas_despacho_rel t d)
  | DelPlantillaBase =>
      let '(t, n) := delete_where pb_id (arg 0 a) (plantillas_base d) in
      (affected n, set_plantillas_base t d)
  | UpdLimpiarAvances =>
      let '(t, n) :=
        update_where pb_id (arg 0 a)
          (λ b, PlantillaBase (pb_id b) (pb_novedad b) (pb_nota_publica b)
                              (pb_nota_interna b) None (pb_plantilla b))
          (plantillas_base d) in
      (affected n, set_plantillas_base t d)
  | SelPlantillaNombre =>
      (selected
         (map (λ b, [("id", cell_of (pb_id b)); ("novedad", cell_of (pb_novedad b))])
              (List.filter (λ b, sql_eq (pb_id b) (arg 0 a)) (plantillas_base d))), d)
  | DelNotaRelPorPlantilla =>
      let '(t, n) := delete_where r_base_id (arg 0 a) (notas_despacho_rel d) in
      (affected n, set_notas_despacho_rel t d)
  | SelPlantillasDisponibles =>
      (selected
         (map plantilla_row
              (sort_by (λ x y, asc (pb_novedad x) (pb_novedad y))
                 (List.filter
                    (λ b, bool_decide (upper_is_avance (pb_novedad b) = Some false))
                    (plantillas_base d)))), d)
  | SelPlantillasIncorrectas =>
      (selected
         (map (λ g : (sql_value * sql_value) * nat,
                 [("id", cell_of (fst (fst g))); ("novedad", cell_of (snd (fst g)));
                  ("total_usuarios", CInt8 (snd g))])
              (group_count
                 (flat_map
                    (λ b, left_join_counted (pb_id b) (pb_id b, pb_novedad b)
                                            (notas_despacho_rel d))
                    (List.filter
                       (λ b, bool_decide (upper_is_avance (pb_novedad b) = Some true))
                       (plantillas_base d))))), d)
  end.

End Db.

(** ** The process: environment, world and effects *)

Record error := Error { name : string; message : string }.

Inductive outcome (A : Type) : Type :=
| Ok (a : A)
| Throw (e : error).
Arguments Ok {A} a.
Arguments Throw {A} e.

(** The [{ id, email }] object that is signed into a token. *)
Record payload := Payload { p_id : Js.value; p_email : Js.value }.

(** The jsonwebtoken package: [sign(payload, secret, { expiresIn })] and
    [verify(token, secret)], which returns the decoded payload or throws
    an error named TokenExpiredError, JsonWebTokenError or
    NotBeforeError.  Both read the clock. *)
Class JwtLib := {
  jwt_sign : payload → string → nat → string → string;
  jwt_verify : string → string → nat → outcome payload }.

(** [process.env] and the set-up of the connection pool.  The module that
    creates the pool is not part of the sources; node-postgres hands a
    bigint (every COUNT) over as text unless the pool is set up to parse
    it, which [int8_as_number] records. *)
Record config := Config {
  env : list (string * string);
  int8_as_number : bool }.

Definition getenv (c : config) (k : string) : Js.value :=
  match Js.get k (env c) with Some v => Js.Str v | None => Js.Undefined end.

(** A statement as the pool receives it: its text and the bound values. *)
Record query := Query { q_text : string; q_values : list Js.value }.

Record attachment := Attachment {
  filename : string; content : string; contentType : string }.

Record mail := Mail {
  m_from : Js.value; m_to : Js.value; m_cc : Js.value; m_subject : Js.value;
  m_text : string; m_html : string; m_attachments : list attachment }.

Inductive part : Type :=
| TextPart (t : string)
| InlineData (data mimeType : Js.value).

Record ai_request := AiRequest {
  ai_key : string; ai_model : string;
  ai_contents : list part; ai_system : string }.

Record world := World {
  cfg : config;
  db : Db.database;
  next_uuid : nat;               (* the supply behind uuidv4() *)
  clock : nat;                   (* NOW() *)
  faults : list bool;            (* one flag per external call: true = it fails *)
  ai_answers : list (option string);
  sql_log : list query;
  outbox : list mail;
  ai_log : list ai_request }.

Definition M (A : Type) : Type := world → outcome A * world.

#[global] Instance M_ret : MRet M := λ A a w, (Ok a, w).
#[global] Instance M_bind : MBind M := λ A B f m w,
  match m w with
  | (Ok a, w') => f a w'
  | (Throw e, w') => (Throw e, w')
  end.

Definition throw {A} (e : error) : M A := λ w, (Throw e, w).

(** [try { m } catch (error) { h error }] *)
Definition try_catch {A} (m : M A) (h : error → M A) : M A := λ w,
  match m w with
  | (Ok a, w') => (Ok a, w')
  | (Throw e, w') => h e w'
  end.

(** [for (const x of l) { f x }] *)
Fixpoint for_each {A} (l : list A) (f : A → M unit) : M unit :=
  match l with
  | [] => mret tt
  | x :: l' => f x ≫= λ _, for_each l' f
  end.

(** [await Promise.all(ms)]: every call is made; the first rejection is
    what the await throws. *)
Fixpoint promise_all {A} (ms : list (M A)) : M (list A) := λ w,
  match ms with
  | [] => (Ok [], w)
  | m :: ms' =>
      match m w with
      | (Ok a, w1) =>
          match promise_all ms' w1 with
          | (Ok l, w2) => (Ok (a :: l), w2)
          | (Throw e, w2) => (Throw e, w2)
          end
      | (Throw e, w1) => (Throw e, snd (promise_all ms' w1))
      end
  end.

(** *** World updates *)

Definition set_db (d : Db.database) (w : world) : world :=
  World (cfg w) d (next_uuid w) (clock w) (faults w) (ai_answers w)
        (sql_log w) (outbox w) (ai_log w).
Definition set_next_uuid (n : nat) (w : world) : world :=
  World (cfg w) (db w) n (clock w) (faults w) (ai_answers w)
        (sql_log w) (outbox w) (ai_log w).
Definition set_clock (n : nat) (w : world) : world :=
  World (cfg w) (db w) (next_uuid w) n (faults w) (ai_answers w)
        (sql_log w) (outbox w) (ai_log w).
Definition set_faults (f : list bool) (w : world) : world :=
  World (cfg w) (db w) (next_uuid w) (clock w) f (ai_answers w)
        (sql_log w) (outbox w) (ai_log w).
Definition set_ai_answers (a : list (option string)) (w : world) : world :=
  World (cfg w) (db w) (next_uuid w) (clock w) (faults w) a
        (sql_log w) (outbox w) (ai_log w).
Definition set_sql_log (l : list query) (w : world) : world :=
  World (cfg w) (db w) (next_uuid w) (clock w) (faults w) (ai_answers w)
        l (outbox w) (ai_log w).
Definition set_outbox (l : list mail) (w : world) : world :=
  World (cfg w) (db w) (next_uuid w) (clock w) (faults w) (ai_answers w)
        (sql_log w) l (ai_log w).
Definition set_ai_log (l : list ai_request) (w : world) : world :=
  World (cfg w) (db w) (next_uuid w) (clock w) (faults w) (ai_answers w)
        (sql_log w) (outbox w) l.

(** Does the next external call fail?  The flag is consumed; a schedule
    that has run out means no further failure. *)
Definition next_fault (w : world) : bool := hd false (faults w).

Definition fails_now (w : world) : bool * world :=
  (next_fault w, set_faults (tl (faults w)) w).

(** *** The pool *)

(** How node-postgres turns a bound value into text. *)
Definition bind_value (v : Js.value) : Db.sql_value :=
  match v with
  | Js.Undefined | Js.Null => None
  | _ => Some (Js.to_string v)
  end.

(** How a result cell reaches the handler. *)
Definition js_of_cell (c : config) (x : Db.cell) : Js.value :=
  match x with
  | Db.CNull => Js.Null
  | Db.CText s => Js.Str s
  | Db.CInt8 n =>
      if int8_as_number c then Js.Num (Z.of_nat n)
      else Js.Str (Js.decimal_nat n)
  | Db.CTime t => Js.Num (Z.of_nat t)
  end.

Definition record := list (string * Js.value).

Record result := Result { rows : list record; rowCount : nat }.

Definition js_of_result (c : config) (r : Db.result) : result :=
  Result (map (map (λ kc : string * Db.cell, (fst kc, js_of_cell c (snd kc))))
              (Db.rows r))
         (Db.rowCount r).

Definition db_error : error := Error "error" "the database rejected the statement".

(** [await pool.query(text, values)]: the statement is logged as sent,
    then either fails without effect or runs against the tables. *)
Definition logged (s : Db.stmt) (values : list Js.value) (w : world) : world :=
  set_sql_log (sql_log w ++ [Query (Db.text s) values]) w.

Definition pool_query (s : Db.stmt) (values : list Js.value) : M result := λ w,
  let '(bad, w1) := fails_now (logged s values w) in
  if bad then (Throw db_error, w1)
  else
    let '(r, d) := Db.exec s (map bind_value values) (clock w1) (db w1) in
    (Ok (js_of_result (cfg w1) r), set_clock (S (clock w1)) (set_db d w1)).

(** [uuidv4()] *)
Definition uuidv4 : M string := λ w,
  (Ok ("uuid-" +:+ Js.decimal_nat (next_uuid w)),
   set_next_uuid (S (next_uuid w)) w).

(** [o.k] for a field that may be missing. *)
Definition field (o : record) (k : string) : Js.value :=
  default Js.Undefined (Js.get k o).

(** *** Requests and responses *)

Record file := File { originalname : string; buffer : string; mimetype : string }.

Record request := Request {
  body : record;
  params : record;
  query_string : record;
  authorization : option string; (* req.headers.authorization *)
  files : list file;
  usuario : option payload }.    (* req.usuario, set by the middleware *)

Record response := Response { status : nat; json_body : Js.json }.

(** [res.status(n).json(o)]; [res.json(o)] is status 200. *)
Definition respond (n : nat) (o : Js.json) : M response := mret (Response n o).

Definition mensaje (s : string) : Js.json := Js.JObj [("mensaje", Js.jstr s)].

Definition rows_json (rs : list record) : Js.json :=
  Js.JArr (map (λ r : record,
             Js.JObj (map (λ kv : string * Js.value, (fst kv, Js.JVal (snd kv))) r)) rs).

Definition type_error : error := Error "TypeError" "cannot read properties of undefined".

(** [r.rows[0]] where the source reads it without checking the length. *)
Definition first_row (r : result) : M record :=
  match rows r with
  | [] => throw type_error
  | x :: _ => mret x
  end.

Definition error_body (m : string) (e : error) : Js.json :=
  Js.JObj [("mensaje", Js.jstr m); ("error", Js.jstr (message e))].

(** [{ mensaje, error }] with the error object itself: its message is not
    an enumerable property, so the serialised object does not carry it. *)
Definition error_object_body (m : string) (e : error) : Js.json :=
  Js.JObj [("mensaje", Js.jstr m); ("error", Js.JObj [])].

(** ** aplicativosController *)

Module Aplicativos.

Definition obtenerAplicativos (req : request) : M response :=
  let usuario_id := field (query_string req) "usuario_id" in
  try_catch
    (resultado ← pool_query Db.SelAplicativosDeUsuario [usuario_id];
     respond 200 (rows_json (rows resultado)))
    (λ _, respond 500 (mensaje "Error al obtener aplicativos")).

Definition agregarAplicativo (req : request) : M response :=
  let usuario_id := field (body req) "usuario_id" in
  let nombre := field (body req) "nombre" in
  let url := field (body req) "url" in
  let categoria := field (body req) "categoria" in
  if Js.falsy usuario_id || Js.falsy nombre then
    respond 400 (mensaje "Se requieren usuario_id y nombre como mínimo")
  else
    try_catch
      (usuarioExiste ← pool_query Db.SelUsuarioPorId [usuario_id];
       if length (rows usuarioExiste) =? 0 then
         respond 404 (mensaje "Usuario no encontrado")
       else
         aplicativoId ← uuidv4;
         _ ← pool_query Db.InsAplicativoBase
               [Js.Str aplicativoId; nombre; Js.or url (Js.Str "");
                Js.or categoria (Js.Str "Personalizado")];
         relacionId ← uuidv4;
         _ ← pool_query Db.InsAplicativoRel
               [Js.Str relacionId; usuario_id; Js.Str aplicativoId];
         respond 201
           (Js.JObj [("mensaje", Js.jstr "Aplicativo personalizado creado exitosamente");
                     ("id", Js.jstr relacionId);
                     ("aplicativo_base_id", Js.jstr aplicativoId)]))
      (λ e, respond 500 (error_body "Error al agregar aplicativo personalizado" e)).

Definition asignarAplicativo (req : request) : M response :=
  let usuario_id := field (body req) "usuario_id" in
  let aplicativo_base_id := field (body req) "aplicativo_base_id" in
  if Js.falsy usuario_id || Js.falsy aplicativo_base_id then
    respond 400 (mensaje "Se requieren usuario_id y aplicativo_base_id")
  else
    try_catch
      (usuarioExiste ← pool_query Db.SelUsuarioPorId [usuario_id];
       if length (rows usuarioExiste) =? 0 then
         respond 404 (mensaje "Usuario no encontrado")
       else
         aplicativoExiste ← pool_query Db.SelAplicativoBasePorId [aplicativo_base_id];
         if length (rows aplicativoExiste) =? 0 then
           respond 404 (mensaje "Aplicativo base no encontrado")
         else
           relacionExiste ← pool_query Db.SelAplicativoRel [usuario_id; aplicativo_base_id];
           if 0 <? length (rows relacionExiste) then
             respond 409 (mensaje "El aplicativo ya está agregado para este usuario")
           else
             id ← uuidv4;
             _ ← pool_query Db.InsAplicativoRel [Js.Str id; usuario_id; aplicativo_base_id];
             respond 201
               (Js.JObj [("mensaje", Js.jstr "Aplicativo asignado exitosamente");
                         ("id", Js.jstr id)]))
      (λ e, respond 500 (error_body "Error al asignar aplicativo" e)).

Definition eliminarAplicativo (req : request) : M response :=
  let id := field (params req) "id" in
  if Js.falsy id then
    respond 400 (mensaje "Se requiere el ID del aplicativo")
  else
    try_catch
      (relacionInfo ← pool_query Db.SelRelacionInfoAplicativo [id];
       match rows relacionInfo with
       | [] => respond 404 (mensaje "Aplicativo no encontrado para este usuario")
       | info :: _ =>
           let esAplicativoPersonalizado :=
             Js.strict_eq (field info "total_usuarios_con_este_aplicativo") (Js.Num 1) in
           resultRelacion ← pool_query Db.DelAplicativoRel [id];
           if rowCount resultRelacion =? 0 then
             respond 404 (mensaje "No se pudo eliminar la relación del aplicativo")
           else
             _ ← (if esAplicativoPersonalizado
                  then _ ← pool_query Db.DelAplicativoBase [field info "aplicativo_base_id"];
                       mret tt
                  else mret tt);
             respond 200
               (Js.JObj [("mensaje", Js.jstr "Aplicativo eliminado correctamente");
                         ("aplicativo_eliminado", Js.JVal (Js.Bool esAplicativoPersonalizado));
                         ("aplicativo_nombre", Js.JVal (field info "nombre"))])
       end)
      (λ e, respond 500 (error_body "Error al eliminar aplicativo" e)).

Definition obtenerAplicativosDisponibles (req : request) : M response :=
  try_catch
    (resultado ← pool_query Db.SelAplicativosDisponibles [];
     respond 200 (rows_json (rows resultado)))
    (λ e, respond 500 (error_body "Error al obtener aplicativos disponibles" e)).

End Aplicativos.

(** ** authController *)

Module Auth.

Definition aplicativosDefecto : list (string * string * string) :=
  [("Gmail", "https://mail.google.com", "Correo");
   ("Google Drive", "https://drive.google.com", "Almacenamiento");
   ("Google Calendar", "https://calendar.google.com", "Calendario");
   ("Microsoft Office", "https://office.com", "Productividad");
   ("WhatsApp Web", "https://web.whatsapp.com", "Comunicación")].

Definition plantillasDefecto : list (string * string * string * string * string) :=
  [("Bienvenida", "...", "...", "...", "Plantilla de bienvenida para nuevos usuarios");
   ("Nota General", "...", "...", "...", "Plantilla general para uso diario");
   ("Recordatorio", "...", "...", "...", "Plantilla para recordatorios importantes")].

(** The four utilities catch only to log and throw the error again, so
    they are the bodies of their [try] blocks. *)
Definition crearAplicativosBasePorDefecto : M unit :=
  aplicativosExistentes ← pool_query Db.CountAplicativosBase [];
  fila ← first_row aplicativosExistentes;
  if Js.gt_num (field fila "count") 0 then mret tt
  else
    for_each aplicativosDefecto
      (λ aplicativo,
         let '(nombre, url, categoria) := aplicativo in
         id ← uuidv4;
         _ ← pool_query Db.InsAplicativoBase
               [Js.Str id; Js.Str nombre; Js.Str url; Js.Str categoria];
         mret tt).

Definition crearPlantillasBasePorDefecto : M unit :=
  plantillasExistentes ← pool_query Db.CountPlantillasBase [];
  fila ← first_row plantillasExistentes;
  if Js.gt_num (field fila "count") 0 then mret tt
  else
    for_each plantillasDefecto
      (λ plantilla,
         let '(novedad, nota_publica, nota_interna, nota_avances, texto) := plantilla in
         id ← uuidv4;
         _ ← pool_query Db.InsPlantillaBase
               [Js.Str id; Js.Str novedad; Js.Str nota_publica; Js.Str nota_interna;
                Js.Str nota_avances; Js.Str texto];
         mret tt).

Definition asignarAplicativosPorDefecto (usuario_id : Js.value) : M unit :=
  _ ← crearAplicativosBasePorDefecto;
  aplicativosResult ← pool_query Db.SelIdsAplicativosBase [];
  if length (rows aplicativosResult) =? 0 then mret tt
  else
    for_each (rows aplicativosResult)
      (λ aplicativo,
         relacionId ← uuidv4;
         _ ← pool_query Db.InsAplicativoRel
               [Js.Str relacionId; usuario_id; field aplicativo "id"];
         mret tt).

Definition asignarPlantillasPorDefecto (usuario_id : Js.value) : M unit :=
  _ ← crearPlantillasBasePorDefecto;
  plantillasResult ← pool_query Db.SelIdsPlantillasBase [];
  if length (rows plantillasResult) =? 0 then mret tt
  else
    for_each (rows plantillasResult)
      (λ plantilla,
         relacionId ← uuidv4;
         _ ← pool_query Db.InsNotaRel
               [Js.Str relacionId; usuario_id; field plantilla "id"];
         mret tt).

Section WithJwt.
Context `{!JwtLib}.

(** [jwt.sign(p, JWT_SECRET, { expiresIn: "8h" })]; the package throws
    when the secret has no value. *)
Definition sign (p : payload) : M string := λ w,
  let JWT_SECRET := getenv (cfg w) "KEY" in
  if Js.falsy JWT_SECRET then
    (Throw (Error "Error" "secretOrPrivateKey must have a value"), w)
  else (Ok (jwt_sign p (Js.to_string JWT_SECRET) (clock w) "8h"), w).

Definition registrarUsuario (req : request) : M response :=
  let nombre := field (body req) "nombre" in
  let email := field (body req) "email" in
  let contrasena := field (body req) "contraseña" in
  try_catch
    (existe ← pool_query Db.SelUsuarioPorEmail [email];
     if 0 <? length (rows existe) then
       respond 400 (mensaje "El correo ya está registrado")
     else
       id ← uuidv4;
       _ ← pool_query Db.InsUsuario [Js.Str id; nombre; email; contrasena];
       _ ← try_catch
             (_ ← asignarPlantillasPorDefecto (Js.Str id);
              asignarAplicativosPorDefecto (Js.Str id))
             (λ _, mret tt);
       token ← sign (Payload (Js.Str id) email);
       respond 201
         (Js.JObj [("mensaje", Js.jstr "Registro exitoso");
                   ("usuario", Js.JObj [("id", Js.jstr id); ("nombre", Js.JVal nombre);
                                        ("email", Js.JVal email)]);
                   ("token", Js.jstr token)]))
    (λ _, respond 500 (mensaje "Error en el servidor")).

Definition loginUsuario (req : request) : M response :=
  let email := field (body req) "email" in
  let contrasena := field (body req) "contraseña" in
  try_catch
    (resultado ← pool_query Db.SelCredenciales [email];
     match rows resultado with
     | [] => respond 401 (mensaje "Credenciales incorrectas")
     | usuario :: _ =>
         if Js.strict_ne (field usuario "contraseña") contrasena then
           respond 401 (mensaje "Credenciales incorrectas")
         else
           token ← sign (Payload (field usuario "id") (field usuario "email"));
           respond 200
             (Js.JObj [("mensaje", Js.jstr "Inicio de sesión exitoso");
                       ("usuario",
                        Js.JObj [("id", Js.JVal (field usuario "id"));
                                 ("nombre", Js.JVal (field usuario "nombre"));
                                 ("email", Js.JVal (field usuario "email"))]);
                       ("token", Js.jstr token)])
     end)
    (λ _, respond 500 (mensaje "Error en el servidor")).

(** [const { email } = req.usuario] stands before the [try]: without the
    middleware the handler throws. *)
Definition cambiarContrasena (req : request) : M response :=
  let actual := field (body req) "actual" in
  let nueva := field (body req) "nueva" in
  match usuario req with
  | None => throw type_error
  | Some u =>
      let email := p_email u in
      try_catch
        (resultado ← pool_query Db.SelContrasena [email];
         match rows resultado with
         | [] => respond 401 (mensaje "Contraseña actual incorrecta")
         | fila :: _ =>
             if Js.strict_ne (field fila "contraseña") actual then
               respond 401 (mensaje "Contraseña actual incorrecta")
             else
               _ ← pool_query Db.UpdContrasena [nueva; email];
               respond 200 (mensaje "Contraseña actualizada correctamente")
         end)
        (λ _, respond 500 (mensaje "Error en el servidor"))
  end.

Definition recuperarContrasena (req : request) : M response :=
  let email := field (body req) "email" in
  let nueva := field (body req) "nueva" in
  try_catch
    (resultado ← pool_query Db.SelUsuarioPorEmail [email];
     if length (rows resultado) =? 0 then
       respond 404 (mensaje "Usuario no encontrado")
     else
       _ ← pool_query Db.UpdContrasena [nueva; email];
       respond 200 (mensaje "Contraseña cambiada correctamente"))
    (λ _, respond 500 (mensaje "Error en el servidor")).

Definition asignarContenidoDefecto (req : request) : M response :=
  let usuario_id := field (body req) "usuario_id" in
  if Js.falsy usuario_id then respond 400 (mensaje "Se requiere usuario_id")
  else
    try_catch
      (usuarioExiste ← pool_query Db.SelUsuarioPorId [usuario_id];
       if length (rows usuarioExiste) =? 0 then
         respond 404 (mensaje "Usuario no encontrado")
       else
         _ ← asignarPlantillasPorDefecto usuario_id;
         _ ← asignarAplicativosPorDefecto usuario_id;
         respond 200 (mensaje "Contenido por defecto asignado exitosamente al usuario"))
      (λ e, respond 500 (error_body "Error al asignar contenido por defecto" e)).

(** *** The middleware and the protected routes *)

Definition set_usuario (p : payload) (req : request) : request :=
  Request (body req) (params req) (query_string req) (authorization req)
          (files req) (Some p).

(** A middleware either answers or calls [next] with the request. *)
Inductive passage : Type :=
| Answered (r : response)
| Next (req : request).

Definition verificarToken (req : request) : M passage := λ w,
  match authorization req with
  | None => (Ok (Answered (Response 401 (mensaje "Token no proporcionado"))), w)
  | Some authHeader =>
      if bool_decide (authHeader = "") then
        (Ok (Answered (Response 401 (mensaje "Token no proporcionado"))), w)
      else
        let formato :=
          Answered (Response 401
            (mensaje "Formato de token inválido (Esperado: Bearer <token>)")) in
        match Text.split " "%char authHeader with
        | [esquema; token] =>
            if negb (bool_decide (Text.toLowerCase esquema = "bearer")) then
              (Ok formato, w)
            else
              let JWT_SECRET := getenv (cfg w) "KEY" in
              if Js.falsy JWT_SECRET then
                (Ok (Answered (Response 500
                       (mensaje "Error de configuración del servidor"))), w)
              else
                match jwt_verify token (Js.to_string JWT_SECRET) (clock w) with
                | Ok decoded => (Ok (Next (set_usuario decoded req)), w)
                | Throw e =>
                    if bool_decide (name e = "TokenExpiredError") then
                      (Ok (Answered (Response 401 (mensaje "Token expirado"))), w)
                    else if bool_decide (name e = "JsonWebTokenError") then
                      (Ok (Answered (Response 403
                             (mensaje "Token inválido (Firma o formato incorrecto)"))), w)
                    else
                      (Ok (Answered (Response 403 (mensaje "Token inválido"))), w)
                end
        | _ => (Ok formato, w)
        end
  end.

(** [router.put(path, verificarToken, handler)]: the handler runs only if
    the middleware called [next]. *)
Definition protegida (handler : request → M response) (req : request) : M response :=
  p ← verificarToken req;
  match p with
  | Answered r => mret r
  | Next req' => handler req'
  end.

Definition ruta_cambiar_contrasena : request → M response :=
  protegida cambiarContrasena.
Definition ruta_asignar_contenido_defecto : request → M response :=
  protegida asignarContenidoDefecto.

End WithJwt.

End Auth.

(** ** notasController *)

Module Notas.

Definition obtenerNotas (req : request) : M response :=
  let usuario_id := field (params req) "usuario_id" in
  try_catch
    (result ← pool_query Db.SelNotasDeUsuario [usuario_id];
     respond 200 (rows_json (rows result)))
    (λ e, respond 500 (error_object_body "Error al obtener las notas" e)).

Definition obtenerNotasAvances (req : request) : M response :=
  let usuario_id := field (params req) "usuario_id" in
  try_catch
    (result ← pool_query Db.SelNotasAvancesDeUsuario [usuario_id];
     respond 200 (rows_json (rows result)))
    (λ e, respond 500 (error_object_body "Error al obtener notas de avances" e)).

Definition nombresIncorrectos : list Js.value :=
  [Js.Str "AVANCE"; Js.Str "avance"; Js.Str "Avance"].

(** [l.includes(v)] on an array of strings. *)
Definition includes (l : list Js.value) (v : Js.value) : bool :=
  existsb (Js.strict_eq v) l.

Definition nombre_no_valido : Js.json :=
  Js.JObj
    [("mensaje", Js.jstr "El nombre 'AVANCE' no es válido para una plantilla base. Use un nombre descriptivo.");
     ("sugerencias",
      Js.JArr [Js.jstr "Reporte de Avances"; Js.jstr "Seguimiento de Proyecto";
               Js.jstr "Actualización de Estado"])].

Definition agregarNota (req : request) : M response :=
  let usuario_id := field (body req) "usuario_id" in
  let novedad := field (body req) "novedad" in
  let nota_publica := field (body req) "nota_publica" in
  let nota_interna := field (body req) "nota_interna" in
  let nota_avances := field (body req) "nota_avances" in
  let plantilla := field (body req) "plantilla" in
  if Js.falsy usuario_id || Js.falsy novedad then
    respond 400 (mensaje "Se requieren usuario_id y novedad como mínimo")
  else if includes nombresIncorrectos novedad then
    respond 400 nombre_no_valido
  else
    try_catch
      (usuarioExiste ← pool_query Db.SelUsuarioPorId [usuario_id];
       if length (rows usuarioExiste) =? 0 then
         respond 404 (mensaje "Usuario no encontrado")
       else
         plantillaId ← uuidv4;
         _ ← pool_query Db.InsPlantillaBase
               [Js.Str plantillaId; novedad; Js.or nota_publica (Js.Str "");
                Js.or nota_interna (Js.Str ""); Js.or nota_avances (Js.Str "");
                Js.or plantilla (Js.Str "")];
         relacionId ← uuidv4;
         _ ← pool_query Db.InsNotaRel [Js.Str relacionId; usuario_id; Js.Str plantillaId];
         respond 201
           (Js.JObj [("mensaje", Js.jstr "Nota personalizada creada exitosamente");
                     ("id", Js.jstr relacionId);
                     ("plantilla_id", Js.jstr plantillaId)]))
      (λ e, respond 500 (error_body "Error al agregar nota personalizada" e)).

Definition asignarNota (req : request) : M response :=
  let usuario_id := field (body req) "usuario_id" in
  let plantilla_id := field (body req) "plantilla_id" in
  if Js.falsy usuario_id || Js.falsy plantilla_id then
    respond 400 (mensaje "Se requieren usuario_id y plantilla_id")
  else
    try_catch
      (resultados ← promise_all
         [pool_query Db.SelUsuarioPorId [usuario_id];
          pool_query Db.SelPlantillaBasePorId [plantilla_id];
          pool_query Db.SelNotaRel [usuario_id; plantilla_id]];
       match resultados with
       | [usuarioExiste; plantillaExiste; relacionExiste] =>
           if length (rows usuarioExiste) =? 0 then
             respond 404 (mensaje "Usuario no encontrado")
           else if length (rows plantillaExiste) =? 0 then
             respond 404 (mensaje "Plantilla base no encontrada")
           else if 0 <? length (rows relacionExiste) then
             respond 409 (mensaje "La nota ya está agregada para este usuario")
           else
             id ← uuidv4;
             _ ← pool_query Db.InsNotaRel [Js.Str id; usuario_id; plantilla_id];
             respond 201
               (Js.JObj [("mensaje", Js.jstr "Nota asignada exitosamente");
                         ("id", Js.jstr id)])
       | _ => throw type_error
       end)
      (λ e, respond 500 (error_body "Error al asignar nota" e)).

Definition modificarPlantilla (req : request) : M response :=
  let id := field (params req) "id" in
  let novedad := field (body req) "novedad" in
  let nota_publica := field (body req) "nota_publica" in
  let nota_interna := field (body req) "nota_interna" in
  let nota_avances := field (body req) "nota_avances" in
  let plantilla := field (body req) "plantilla" in
  try_catch
    (result ← pool_query Db.UpdPlantilla
                [novedad; nota_publica; nota_interna; nota_avances; plantilla; id];
     if rowCount result =? 0 then
       respond 404 (mensaje "Plantilla no encontrada o no se modificó nada")
     else
       respond 200
         (Js.JObj [("mensaje", Js.jstr "Plantilla actualizada correctamente");
                   ("filas_afectadas", Js.JVal (Js.Num (Z.of_nat (rowCount result))));
                   ("plantilla_id", Js.JVal id)]))
    (λ e, respond 500 (error_object_body "Error al modificar plantilla" e)).

(** [v?.trim()] on a text column: undefined for NULL. *)
Definition opt_trim (v : Js.value) : Js.value :=
  match v with
  | Js.Str s => Js.Str (Text.trim s)
  | _ => Js.Undefined
  end.

(** [a && b] and [!a] as values. *)
Definition and (a b : Js.value) : Js.value := if Js.truthy a then b else a.
Definition not (a : Js.value) : Js.value := Js.Bool (Js.falsy a).

Definition esNotaAvancesPura (info : record) : Js.value :=
  and (and (and (opt_trim (field info "nota_avances"))
                (not (opt_trim (field info "nota_publica"))))
           (not (opt_trim (field info "nota_interna"))))
      (not (opt_trim (field info "plantilla"))).

Definition esPlantillaPersonalizada (info : record) : Js.value :=
  Js.or (Js.Bool (Js.le_num (field info "total_usuarios_con_esta_plantilla") 1))
        (esNotaAvancesPura info).

Definition eliminarNota (req : request) : M response :=
  let id := field (params req) "id" in
  if Js.falsy id then respond 400 (mensaje "Se requiere el ID de la nota")
  else
    try_catch
      (relacionInfo ← pool_query Db.SelRelacionInfoNota [id];
       match rows relacionInfo with
       | [] => respond 404 (mensaje "Nota no encontrada")
       | info :: _ =>
           let personalizada := esPlantillaPersonalizada info in
           resultRelacion ← pool_query Db.DelNotaRel [id];
           if rowCount resultRelacion =? 0 then
             respond 404 (mensaje "No se pudo eliminar la relación de la nota")
           else
             _ ← (if Js.truthy personalizada
                  then _ ← pool_query Db.DelPlantillaBase [field info "plantilla_id"];
                       mret tt
                  else mret tt);
             respond 200
               (Js.JObj [("mensaje", Js.jstr "Nota eliminada correctamente");
                         ("plantilla_eliminada", Js.JVal personalizada);
                         ("plantilla_nombre", Js.JVal (field info "novedad"))])
       end)
      (λ e, respond 500 (error_body "Error al eliminar nota" e)).

Definition limpiarNotaAvances (req : request) : M response :=
  let id := field (params req) "id" in
  try_catch
    (result ← pool_query Db.UpdLimpiarAvances [id];
     if rowCount result =? 0 then respond 404 (mensaje "Plantilla no encontrada")
     else respond 200 (mensaje "Nota de avances eliminada correctamente"))
    (λ e, respond 500 (error_object_body "Error al limpiar nota de avances" e)).

Definition eliminarPlantillaAdicional (req : request) : M response :=
  let id := field (params req) "id" in
  if Js.falsy id then respond 400 (mensaje "Se requiere el ID de la plantilla")
  else
    try_catch
      (plantillaExiste ← pool_query Db.SelPlantillaNombre [id];
       match rows plantillaExiste with
       | [] => respond 404 (mensaje "Plantilla no encontrada")
       | plantilla :: _ =>
           resultRelaciones ← pool_query Db.DelNotaRelPorPlantilla [id];
           _ ← pool_query Db.DelPlantillaBase [id];
           respond 200
             (Js.JObj [("mensaje", Js.jstr "Plantilla eliminada completamente");
                       ("plantilla_nombre", Js.JVal (field plantilla "novedad"));
                       ("relaciones_eliminadas",
                        Js.JVal (Js.Num (Z.of_nat (rowCount resultRelaciones))))])
       end)
      (λ e, respond 500 (error_body "Error al eliminar plantilla" e)).

Definition obtenerPlantillasDisponibles (req : request) : M response :=
  try_catch
    (result ← pool_query Db.SelPlantillasDisponibles [];
     respond 200 (rows_json (rows result)))
    (λ e, respond 500 (error_body "Error al obtener plantillas disponibles" e)).

Definition limpiarPlantillasIncorrectas (req : request) : M response :=
  try_catch
    (plantillasIncorrectas ← pool_query Db.SelPlantillasIncorrectas [];
     if length (rows plantillasIncorrectas) =? 0 then
       respond 200
         (Js.JObj [("mensaje", Js.jstr "No hay plantillas con nombres incorrectos");
                   ("plantillas_eliminadas", Js.JVal (Js.Num 0))])
     else
       _ ← for_each (rows plantillasIncorrectas)
             (λ plantilla,
                _ ← pool_query Db.DelNotaRelPorPlantilla [field plantilla "id"];
                _ ← pool_query Db.DelPlantillaBase [field plantilla "id"];
                mret tt);
       let plantillasEliminadas := length (rows plantillasIncorrectas) in
       respond 200
         (Js.JObj
            [("mensaje", Js.jstr ("Se eliminaron " +:+ Js.decimal_nat plantillasEliminadas
                                  +:+ " plantillas con nombres incorrectos"));
             ("plantillas_eliminadas", Js.JVal (Js.Num (Z.of_nat plantillasEliminadas)));
             ("detalles",
              Js.JArr (map (λ p : record,
                          Js.JObj [("nombre", Js.JVal (field p "novedad"));
                                   ("usuarios_afectados", Js.JVal (field p "total_usuarios"))])
                        (rows plantillasIncorrectas)))]))
    (λ e, respond 500 (error_body "Error al limpiar plantillas incorrectas" e)).

End Notas.

(** ** mailController *)

Module Mail.

Record transport := Transport {
  host : Js.value; port : Js.value; secure : bool;
  auth_user : Js.value; auth_pass : Js.value }.

(** [nodemailer.createTransport({ host, port, secure, auth })] *)
Definition createTransport (c : config) : transport :=
  Transport (getenv c "SMTP_HOST") (getenv c "SMTP_PORT")
            (Js.strict_eq (getenv c "SMTP_SECURE") (Js.Str "true"))
            (getenv c "SMTP_USER") (getenv c "SMTP_PASS").

(** [await transporter.sendMail(mailOptions)]: the message is handed to
    the transport, which delivers it or fails. *)
Definition sendMail (t : transport) (m : mail) : M string := λ w,
  let w1 := set_outbox (outbox w ++ [m]) w in
  let '(bad, w2) := fails_now w1 in
  if bad then (Throw (Error "Error" "the transport could not deliver the message"), w2)
  else (Ok ("message-" +:+ Js.decimal_nat (length (outbox w))), w2).

(** [mensaje.includes(...)] and [mensaje.replace(...)] exist on strings
    only: another truthy value makes the call throw a TypeError. *)
Definition as_text (v : Js.value) : M string :=
  match v with
  | Js.Str s => mret s
  | _ => throw (Error "TypeError" "mensaje.includes is not a function")
  end.

Definition isHTML (texto : string) : bool :=
  Text.includes Text.lt_sign texto && Text.includes Text.gt_sign texto.

Definition enviarCorreo (req : request) : M response :=
  try_catch
    (let para := field (body req) "para" in
     let cc := field (body req) "cc" in
     let asunto := field (body req) "asunto" in
     let mensaje := field (body req) "mensaje" in
     if Js.falsy para || Js.falsy asunto || Js.falsy mensaje then
       respond 400
         (Js.JObj [("success", Js.JVal (Js.Bool false));
                   ("message", Js.jstr "Los campos para, asunto y mensaje son requeridos")])
     else
       c ← (λ w, (Ok (cfg w), w));
       let transporter := createTransport c in
       let attachments :=
         map (λ f, Attachment (originalname f) (buffer f) (mimetype f)) (files req) in
       texto ← as_text mensaje;
       let mailOptions :=
         Mail (getenv c "SMTP_USER") para (Js.or cc Js.Undefined) asunto
              (if isHTML texto then Text.strip_tags texto else texto)
              (if isHTML texto then texto else Text.nl2br texto)
              attachments in
       messageId ← sendMail transporter mailOptions;
       respond 200
         (Js.JObj [("success", Js.JVal (Js.Bool true));
                   ("message", Js.jstr "Correo enviado exitosamente");
                   ("messageId", Js.jstr messageId)]))
    (λ e,
       respond 500
         (Js.JObj [("success", Js.JVal (Js.Bool false));
                   ("message", Js.jstr "Error interno del servidor al enviar el correo");
                   ("error", Js.jstr (message e))])).

(** *** verificarConfiguracion *)

Definition requiredEnvVars : list string :=
  ["SMTP_HOST"; "SMTP_PORT"; "SMTP_USER"; "SMTP_PASS"].

(** [await transporter.verify()]: the transport connects and
    authenticates, or fails. *)
Definition verify (t : transport) : M unit := λ w,
  let '(bad, w1) := fails_now w in
  if bad then (Throw (Error "Error" "the transport could not be verified"), w1)
  else (Ok tt, w1).

Definition verificarConfiguracion (req : request) : M response :=
  try_catch
    (c ← (λ w, (Ok (cfg w), w));
     let missingVars :=
       List.filter (λ varName, Js.falsy (getenv c varName)) requiredEnvVars in
     if 0 <? length missingVars then
       respond 400
         (Js.JObj [("success", Js.JVal (Js.Bool false));
                   ("message",
                    Js.jstr "Configuración incompleta: Faltan variables de entorno SMTP");
                   ("missingVariables", Js.JArr (map Js.jstr missingVars))])
     else
       let transporter := createTransport c in
       _ ← verify transporter;
       respond 200
         (Js.JObj [("success", Js.JVal (Js.Bool true));
                   ("message",
                    Js.jstr "Configuración de correo verificada correctamente")]))
    (λ e,
       respond 500
         (Js.JObj [("success", Js.JVal (Js.Bool false));
                   ("message",
                    Js.jstr "Error al verificar la configuración del correo (Verifique host/puerto/credenciales)");
                   ("error", Js.jstr (message e))])).

End Mail.

(** ** aiController *)

Module Ai.

(** What loading the module leaves behind: the client [ai], built with
    the key.  The two handlers are exports of the loaded module. *)
Record loaded := Loaded { ai : string }.

(** The top level of the module. *)
Definition load (c : config) : outcome loaded :=
  let apiKey := getenv c "GEMINI_API_KEY" in
  if Js.falsy apiKey then
    Throw (Error "Error" "GEMINI_API_KEY is missing. Check your .env file.")
  else Ok (Loaded (Js.to_string apiKey)).

Definition model : string := "gemini-2.5-flash-preview-09-2025".

Definition comillas : string := String (ascii_of_nat 34) EmptyString.

(** [await ai.models.generateContent(...)] followed by
    [response.candidates?.[0]?.content?.parts?.[0]?.text]. *)
Definition generateContent (m : loaded) (contents : list part)
    (systemInstruction : string) : M (option string) := λ w,
  let w1 := set_ai_log (ai_log w ++ [AiRequest (ai m) model contents systemInstruction]) w in
  let '(bad, w2) := fails_now w1 in
  if bad then (Throw (Error "Error" "the generative-text service failed"), w2)
  else
    match ai_answers w2 with
    | [] => (Ok None, w2)
    | r :: rs => (Ok r, set_ai_answers rs w2)
    end.

(** [text || fallback] *)
Definition or_default (t : option string) (fallback : string) : string :=
  match t with
  | Some s => if bool_decide (s = "") then fallback else s
  | None => fallback
  end.

Definition corrector : string :=
  "Eres un corrector de estilo y ortografía profesional. Corrige únicamente los errores gramaticales, ortográficos y de puntuación del texto proporcionado. No añadas contenido nuevo ni cambies el significado. Devuelve solo el texto corregido.".

Definition redactor : string :=
  "Eres un asistente de redacción experto. Pulirás y mejorarás el texto proporcionado, asegurando claridad, cohesión y un tono profesional o adecuado para una nota rápida. No lo hagas excesivamente largo. Devuelve solo el texto mejorado.".

Definition transcriptor : string :=
  "Eres un asistente de transcripción y corrección. Tu tarea es: 1. Transcribir con precisión todo el texto que encuentres en la imagen. 2. Una vez transcrito, corrige inmediatamente los errores ortográficos, gramaticales y de puntuación del texto. **3. Devuelve *SOLO* el texto final**, corregido y transcrito, sin añadir preámbulos, explicaciones o comentarios adicionales.".

Definition mejorarTextoChatGPT (m : loaded) (req : request) : M response :=
  let texto := field (body req) "texto" in
  let modo := field (body req) "modo" in
  if Js.falsy texto then
    respond 400
      (Js.JObj [("error", Js.jstr ("El campo " +:+ comillas +:+ "texto" +:+ comillas
                                   +:+ " es obligatorio."))])
  else
    try_catch
      (let '(systemInstruction, userPrompt) :=
         if Js.strict_eq modo (Js.Str "corregir_ortografia") then
           (corrector,
            "Corrige este texto: " +:+ comillas +:+ Js.to_string texto +:+ comillas)
         else
           (redactor,
            "Mejora y pule este texto: " +:+ comillas +:+ Js.to_string texto +:+ comillas) in
       text ← generateContent m [TextPart userPrompt] systemInstruction;
       let improvedText := or_default text "No se pudo generar una respuesta." in
       respond 200 (Js.JObj [("textoMejorado", Js.jstr (Text.trim improvedText))]))
      (λ e,
         respond 500
           (Js.JObj [("error", Js.jstr "Fallo en el servicio de IA. Intenta de nuevo.");
                     ("details", Js.jstr (message e))])).

Definition extraerTextoImagen (m : loaded) (req : request) : M response :=
  let base64Image := field (body req) "base64Image" in
  let mimeType := field (body req) "mimeType" in
  if Js.falsy base64Image || Js.falsy mimeType then
    respond 400
      (Js.JObj [("error", Js.jstr "Faltan campos: base64Image y mimeType son obligatorios.")])
  else
    try_catch
      (let imagePart := InlineData base64Image mimeType in
       let userPrompt :=
         "Extrae y corrige el texto de esta imagen. Si no hay texto, indica 'No se pudo extraer texto relevante'." in
       text ← generateContent m [imagePart; TextPart userPrompt] transcriptor;
       let extractedAndCorrectedText :=
         or_default text "No se pudo extraer texto relevante." in
       respond 200
         (Js.JObj [("textoMejorado", Js.jstr (Text.trim extractedAndCorrectedText))]))
      (λ e,
         respond 500
           (Js.JObj [("error", Js.jstr "Fallo en el servicio de IA al procesar la imagen.");
                     ("details", Js.jstr (message e))])).

End Ai.

(** ** The route handlers *)

Module Rutas.

Inductive handler : Type :=
| ObtenerAplicativos | AgregarAplicativo | AsignarAplicativo | EliminarAplicativo
| ObtenerAplicativosDisponibles
| RegistrarUsuario | LoginUsuario | CambiarContrasena | RecuperarContrasena
| AsignarContenidoDefecto
| ObtenerNotas | ObtenerNotasAvances | AgregarNota | AsignarNota
| ModificarPlantilla | EliminarNota | LimpiarNotaAvances
| EliminarPlantillaAdicional | ObtenerPlantillasDisponibles
| LimpiarPlantillasIncorrectas
| EnviarCorreo | MejorarTextoChatGPT | ExtraerTextoImagen.

(** The statements of the default assignment. *)
Definition sentencias_defecto : list Db.stmt :=
  [Db.CountPlantillasBase; Db.InsPlantillaBase; Db.SelIdsPlantillasBase; Db.InsNotaRel;
   Db.CountAplicativosBase; Db.InsAplicativoBase; Db.SelIdsAplicativosBase;
   Db.InsAplicativoRel].

(** The statements written in the body of each handler and of the
    utilities it calls. *)
Definition sentencias (h : handler) : list Db.stmt :=
  match h with
  | ObtenerAplicativos => [Db.SelAplicativosDeUsuario]
  | AgregarAplicativo => [Db.SelUsuarioPorId; Db.InsAplicativoBase; Db.InsAplicativoRel]
  | AsignarAplicativo =>
      [Db.SelUsuarioPorId; Db.SelAplicativoBasePorId; Db.SelAplicativoRel;
       Db.InsAplicativoRel]
  | EliminarAplicativo =>
      [Db.SelRelacionInfoAplicativo; Db.DelAplicativoRel; Db.DelAplicativoBase]
  | ObtenerAplicativosDisponibles => [Db.SelAplicativosDisponibles]
  | RegistrarUsuario => Db.SelUsuarioPorEmail :: Db.InsUsuario :: sentencias_defecto
  | LoginUsuario => [Db.SelCredenciales]
  | CambiarContrasena => [Db.SelContrasena; Db.UpdContrasena]
  | RecuperarContrasena => [Db.SelUsuarioPorEmail; Db.UpdContrasena]
  | AsignarContenidoDefecto => Db.SelUsuarioPorId :: sentencias_defecto
  | ObtenerNotas => [Db.SelNotasDeUsuario]
  | ObtenerNotasAvances => [Db.SelNotasAvancesDeUsuario]
  | AgregarNota => [Db.SelUsuarioPorId; Db.InsPlantillaBase; Db.InsNotaRel]
  | AsignarNota =>
      [Db.SelUsuarioPorId; Db.SelPlantillaBasePorId; Db.SelNotaRel; Db.InsNotaRel]
  | ModificarPlantilla => [Db.UpdPlantilla]
  | EliminarNota => [Db.SelRelacionInfoNota; Db.DelNotaRel; Db.DelPlantillaBase]
  | LimpiarNotaAvances => [Db.UpdLimpiarAvances]
  | EliminarPlantillaAdicional =>
      [Db.SelPlantillaNombre; Db.DelNotaRelPorPlantilla; Db.DelPlantillaBase]
  | ObtenerPlantillasDisponibles => [Db.SelPlantillasDisponibles]
  | LimpiarPlantillasIncorrectas =>
      [Db.SelPlantillasIncorrectas; Db.DelNotaRelPorPlantilla; Db.DelPlantillaBase]
  | EnviarCorreo | MejorarTextoChatGPT | ExtraerTextoImagen => []
  end.

Section WithJwt.
Context `{!JwtLib}.

(** The handler as the router mounts it; [ia] is the loaded aiController. *)
Definition run (ia : Ai.loaded) (h : handler) : request → M response :=
  match h with
  | ObtenerAplicativos => Aplicativos.obtenerAplicativos
  | AgregarAplicativo => Aplicativos.agregarAplicativo
  | AsignarAplicativo => Aplicativos.asignarAplicativo
  | EliminarAplicativo => Aplicativos.eliminarAplicativo
  | ObtenerAplicativosDisponibles => Aplicativos.obtenerAplicativosDisponibles
  | RegistrarUsuario => Auth.registrarUsuario
  | LoginUsuario => Auth.loginUsuario
  | CambiarContrasena => Auth.ruta_cambiar_contrasena
  | RecuperarContrasena => Auth.recuperarContrasena
  | AsignarContenidoDefecto => Auth.ruta_asignar_contenido_defecto
  | ObtenerNotas => Notas.obtenerNotas
  | ObtenerNotasAvances => Notas.obtenerNotasAvances
  | AgregarNota => Notas.agregarNota
  | AsignarNota => Notas.asignarNota
  | ModificarPlantilla => Notas.modificarPlantilla
  | EliminarNota => Notas.eliminarNota
  | LimpiarNotaAvances => Notas.limpiarNotaAvances
  | EliminarPlantillaAdicional => Notas.eliminarPlantillaAdicional
  | ObtenerPlantillasDisponibles => Notas.obtenerPlantillasDisponibles
  | LimpiarPlantillasIncorrectas => Notas.limpiarPlantillasIncorrectas
  | EnviarCorreo => Mail.enviarCorreo
  | MejorarTextoChatGPT => Ai.mejorarTextoChatGPT ia
  | ExtraerTextoImagen => Ai.extraerTextoImagen ia
  end.

End WithJwt.

End Rutas.

(** ** Observing a run *)

(** What a run answered, if it did not throw. *)
Definition answered {A} (x : outcome A * world) : option A :=
  match fst x with
  | Ok a => Some a
  | Throw _ => None
  end.

(** The world a run ends in. *)
Definition after {A} (x : outcome A * world) : world := snd x.

(** ** Sample data for the worked instances *)

Module Sample.

(** A stand-in for the jsonwebtoken package: the token spells out what
    was signed, and three fixed tokens verify, have expired, or are not
    valid yet. *)
Definition toy_jwt : JwtLib :=
  {| jwt_sign p secret now ttl :=
       "jwt(" +:+ Js.to_string (p_id p) +:+ "," +:+ Js.to_string (p_email p)
       +:+ ")/" +:+ secret;
     jwt_verify token secret now :=
       if bool_decide (token = "valid") then
         Ok (Payload (Js.Str "u1") (Js.Str "ana@example.com"))
       else if bool_decide (token = "expired") then
         Throw (Error "TokenExpiredError" "jwt expired")
       else if bool_decide (token = "early") then
         Throw (Error "NotBeforeError" "jwt not active")
       else Throw (Error "JsonWebTokenError" "invalid signature") |}.

Definition conf : config :=
  Config [("KEY", "s3cret"); ("GEMINI_API_KEY", "g-key");
          ("SMTP_USER", "siged@example.com")] true.

(** The same process with the pool left as node-postgres sets it up. *)
Definition conf_text : config := Config (env conf) false.

Definition conf_sin_claves : config := Config [] true.

Definition start (c : config) (d : Db.database) (f : list bool) : world :=
  World c d 0 0 f [] [] [] [].

Definition vacia : Db.database := Db.Database [] [] [] [] [].

Definition ana : Db.usuario :=
  Db.Usuario (Some "u1") (Some "Ana") (Some "ana@example.com") (Some "clave").

Definition solo_ana : Db.database := Db.Database [ana] [] [] [] [].

Definition gmail : Db.aplicativo_base :=
  Db.AplicativoBase (Some "a1") (Some "Gmail") (Some "https://mail.google.com")
                    (Some "Correo").

(** A template that holds only a note of progress. *)
Definition seguimiento : Db.plantilla_base :=
  Db.PlantillaBase (Some "p1") (Some "Seguimiento") (Some "") (Some "")
                   (Some "avance del turno") (Some "").

Definition enlace (id usuario base : string) (t : nat) : Db.relacion :=
  Db.Relacion (Some id) (Some usuario) (Some base) t.

(** Ana alone uses gmail and seguimiento. *)
Definition propio : Db.database :=
  Db.Database [ana] [gmail] [enlace "r1" "u1" "a1" 0]
              [seguimiento] [enlace "n1" "u1" "p1" 1].

(** A second user shares both. *)
Definition compartido : Db.database :=
  Db.Database [ana] [gmail] [enlace "r1" "u1" "a1" 0; enlace "r2" "u2" "a1" 2]
              [seguimiento] [enlace "n1" "u1" "p1" 1; enlace "n2" "u2" "p1" 3].

Definition solicitud (b : record) : request := Request b [] [] None [] None.

Definition login_ana : request :=
  solicitud [("email", Js.Str "ana@example.com"); ("contraseña", Js.Str "clave")].
Definition nota_aVance : request :=
  solicitud [("usuario_id", Js.Str "u1"); ("novedad", Js.Str "aVance")].

Definition registro_luz : request :=
  solicitud [("nombre", Js.Str "Luz"); ("email", Js.Str "luz@example.com");
             ("contraseña", Js.Str "abc")].

(** An authenticated call of the maintenance route for user u1. *)
Definition contenido_para_ana : request :=
  Request [("usuario_id", Js.Str "u1")] [] [] (Some "Bearer valid") [] None.

Definition con_id (id : string) : request :=
  Request [] [("id", Js.Str id)] [] None [] None.
Definition con_cabecera (h : string) : request :=
  Request [] [] [] (Some h) [] None.

(** The no-break space U+00A0 and the byte order mark U+FEFF, in UTF-8. *)
Definition nbsp : string := String (ascii_of_nat 194) (String (ascii_of_nat 160) "").
Definition bom : string :=
  String (ascii_of_nat 239) (String (ascii_of_nat 187) (String (ascii_of_nat 191) "")).

(** A template with a note of progress whose public note is one no-break
    space, used by two users. *)
Definition casi_pura : Db.plantilla_base :=
  Db.PlantillaBase (Some "p1") (Some "Turno") (Some nbsp) (Some "") (Some "listo")
                   (Some "").
Definition casi_pura_compartida : Db.database :=
  Db.Database [ana] [] [] [casi_pura]
              [enlace "n1" "u1" "p1" 1; enlace "n2" "u2" "p1" 3].

End Sample.

(** * Properties *)

(** ** Text *)

Module TextFacts.
Import Text.

(** [c] occurs in [s]. *)
Definition occurs (c : ascii) (s : string) : Prop :=
  ∃ before after, s = before +:+ String c after.

Lemma includes_occurs c s : includes c s = true ↔ occurs c s.
Proof.
  induction s as [|a s IH]; simpl.
  - split; [discriminate|]. intros ([|? ?] & after & E); discriminate.
  - rewrite orb_true_iff, IH. split.
    + intros [E | (before & after & ->)].
      * apply Ascii.eqb_eq in E as ->. by exists EmptyString, s.
      * by exists (String a before), after.
    + intros ([|b before] & after & E); simpl in E; injection E as -> ->.
      * left. apply Ascii.eqb_refl.
      * right. by exists before, after.
Qed.

Lemma tag_length_none s : tag_length s = None ↔ includes gt_sign s = false.
Proof.
  induction s as [|a s IH]; simpl; [done|].
  destruct (Ascii.eqb a gt_sign); simpl; [split; discriminate|].
  rewrite <- IH. destruct (tag_length s); simpl; split; congruence.
Qed.

(** Replacing never brings in a character that was not there. *)
Lemma replace_tags_keeps_absent c s :
  includes c s = false → ∀ k, includes c (replace_tags k s) = false.
Proof.
  induction s as [|a s IH]; simpl; [done|].
  intros E k. apply orb_false_iff in E as [Ea Es].
  destruct k as [|k]; [|by apply IH].
  destruct (Ascii.eqb a lt_sign).
  - destruct (tag_length s); [by apply IH|]. simpl. by rewrite Ea, IH.
  - simpl. by rewrite Ea, IH.
Qed.

Lemma replace_tags_no_tag s : ∀ k, has_tag (replace_tags k s) = false.
Proof.
  induction s as [|a s IH]; simpl; [done|].
  intros [|k]; [|apply IH].
  destruct (Ascii.eqb a lt_sign) eqn:Ea.
  - destruct (tag_length s) as [n|] eqn:En; [apply IH|].
    simpl. rewrite IH, orb_false_r, Ea. simpl.
    apply tag_length_none in En.
    pose proof (replace_tags_keeps_absent _ _ En 0) as E0.
    apply tag_length_none in E0 as ->.
    apply bool_decide_eq_false. by intros [? ?].
  - simpl. by rewrite Ea, IH.
Qed.

(** After [strip_tags] the regular expression matches nowhere. *)
Lemma strip_tags_no_tag s : has_tag (strip_tags s) = false.
Proof. apply replace_tags_no_tag. Qed.

(** Text in which it matches nowhere is left as it is. *)
Lemma strip_tags_id s : has_tag s = false → strip_tags s = s.
Proof.
  unfold strip_tags. induction s as [|a s IH]; simpl; [done|].
  intros E. apply orb_false_iff in E as [Ea Es].
  destruct (Ascii.eqb a lt_sign); simpl in Ea.
  - destruct (tag_length s); [|by rewrite IH].
    apply bool_decide_eq_false in Ea. destruct Ea. by eexists.
  - by rewrite IH.
Qed.

Lemma tag_length_first t b :
  includes gt_sign t = false → tag_length (t +:+ String gt_sign b) = Some (String.length t).
Proof.
  induction t as [|a t IH]; simpl.
  - done.
  - intros E. apply orb_false_iff in E as [-> E]. by rewrite IH.
Qed.

Lemma replace_tags_skip t u k :
  replace_tags (String.length t + k) (t +:+ u) = replace_tags k u.
Proof. induction t as [|a t IH]; simpl; [done|]. apply IH. Qed.

(** The first tag of a text is dropped whole, what is before it is kept,
    and the same is done with what follows: with [strip_tags_id] this
    says what text [strip_tags] gives. *)
Lemma strip_tags_first a t b :
  includes lt_sign a = false → includes gt_sign t = false →
  strip_tags (a +:+ String lt_sign (t +:+ String gt_sign b)) = a +:+ strip_tags b.
Proof.
  intros Ha Ht. unfold strip_tags.
  induction a as [|c a IH]; simpl.
  - rewrite tag_length_first by done.
    change (t +:+ String gt_sign b) with (t +:+ (String gt_sign "" +:+ b)).
    replace (S (String.length t)) with (String.length (t +:+ String gt_sign "") + 0).
    + rewrite <- (replace_tags_skip (t +:+ String gt_sign "") b 0). f_equal.
      clear. induction t as [|x t IH]; simpl; [done|]. by rewrite IH.
    + clear. induction t as [|x t IH]; simpl; [done|]. by rewrite IH.
  - simpl in Ha. apply orb_false_iff in Ha as [-> Ha]. by rewrite IH.
Qed.

Lemma includes_app c s t : includes c (s +:+ t) = includes c s || includes c t.
Proof. induction s as [|a s IH]; simpl; [done|]. by rewrite IH, orb_assoc. Qed.

(** [nl2br] leaves no line feed. *)
Lemma nl2br_no_line_feed s : includes line_feed (nl2br s) = false.
Proof.
  induction s as [|a s IH]; simpl; [done|].
  destruct (Ascii.eqb a line_feed) eqn:E.
  - by rewrite includes_app, IH.
  - simpl. by rewrite E, IH.
Qed.

Lemma split_not_nil sep s : split sep s ≠ [].
Proof.
  destruct s as [|a s]; simpl; [done|].
  destruct (Ascii.eqb a sep); [done|]. by destruct (split sep s).
Qed.

(** [nl2br] puts [<br>] between the lines of the text: every line feed
    is replaced and nothing else is touched. *)
Lemma nl2br_lines s : nl2br s = String.concat "<br>" (split line_feed s).
Proof.
  induction s as [|a s IH]; simpl; [done|].
  pose proof (split_not_nil line_feed s) as Hne.
  destruct (Ascii.eqb a line_feed).
  - rewrite IH. by destruct (split line_feed s).
  - rewrite IH. destruct (split line_feed s) as [|p ps]; [done|].
    by destruct ps.
Qed.

(** [trim()] strips the no-break space, the byte order mark and the
    line ends as it strips blanks, and no other byte. *)
Example trim_unicode :
  trim (Sample.nbsp +:+ " Hola, señor. " +:+ Sample.bom +:+ String line_feed "")
  = "Hola, señor."
  ∧ blank (Sample.nbsp +:+ Sample.bom +:+ " ") = true
  ∧ trim "ñ" = "ñ"
  ∧ trim (String (ascii_of_nat 194) "") = String (ascii_of_nat 194) "".
Proof. vm_compute. by repeat split. Qed.

(** Text without a line feed is left as it is. *)
Lemma nl2br_id s : includes line_feed s = false → nl2br s = s.
Proof.
  induction s as [|a s IH]; simpl; [done|].
  intros E. apply orb_false_iff in E as [-> Es]. by rewrite IH.
Qed.

End TextFacts.

(** ** mailController *)

Module MailFacts.
Import Text TextFacts.

(** C7, as the code has it.  enviarCorreo answers 400 and hands nothing
    to the transport when para, asunto or mensaje is absent.  When the
    three are present and mensaje is a text, exactly one message is
    handed over; the text is taken for HTML exactly when it contains
    both a [<] and a [>]; then the HTML part is the text itself and the
    plain part is the text with every match of the tag pattern removed:
    the first tag is dropped whole, what is before it is kept, the same
    is done with what follows, and no tag is left; otherwise the plain
    part is the text itself
    and the HTML part is the lines of the text with [<br>] in the place
    of every line feed between them.  When mensaje is present but not a
    text, the handler answers 500 and hands nothing over. *)
Theorem enviarCorreo_message (req : request) (w : world) :
  let para := field (body req) "para" in
  let asunto := field (body req) "asunto" in
  let mensaje := field (body req) "mensaje" in
  (Js.falsy para || Js.falsy asunto || Js.falsy mensaje = true →
   ∃ o, Mail.enviarCorreo req w = (Ok (Response 400 o), w)) ∧
  (∀ texto,
     Js.truthy para = true → Js.truthy asunto = true →
     mensaje = Js.Str texto → texto ≠ "" →
     ∃ r w' m,
       Mail.enviarCorreo req w = (Ok r, w') ∧
       outbox w' = (outbox w ++ [m])%list ∧
       m_to m = para ∧ m_subject m = asunto ∧
       (Mail.isHTML texto = true ↔ occurs lt_sign texto ∧ occurs gt_sign texto) ∧
       (Mail.isHTML texto = true →
        m_html m = texto ∧ m_text m = strip_tags texto ∧ has_tag (m_text m) = false ∧
        (has_tag texto = false → m_text m = texto) ∧
        (∀ a t b, texto = a +:+ String lt_sign (t +:+ String gt_sign b) →
                  includes lt_sign a = false → includes gt_sign t = false →
                  m_text m = a +:+ strip_tags b)) ∧
       (Mail.isHTML texto = false →
        m_text m = texto ∧
        m_html m = String.concat "<br>" (split line_feed texto) ∧
        includes line_feed (m_html m) = false)) ∧
  (Js.truthy para = true → Js.truthy asunto = true → Js.truthy mensaje = true →
   (∀ texto, mensaje ≠ Js.Str texto) →
   ∃ o, Mail.enviarCorreo req w = (Ok (Response 500 o), w)).
Proof.
  intros para asunto mensaje. split_and!.
  - intros E. unfold Mail.enviarCorreo, try_catch, respond.
    fold para asunto mensaje. rewrite E. by eexists.
  - intros texto Hp Ha Hm Ht.
    assert (Js.falsy para || Js.falsy asunto || Js.falsy mensaje = false) as E.
    { unfold Js.truthy in Hp, Ha. apply negb_true_iff in Hp, Ha.
      rewrite Hp, Ha, Hm. simpl. by apply bool_decide_eq_false. }
    set (m := Mail (getenv (cfg w) "SMTP_USER") para
                (Js.or (field (body req) "cc") Js.Undefined) asunto
                (if Mail.isHTML texto then strip_tags texto else texto)
                (if Mail.isHTML texto then texto else nl2br texto)
                (map (λ f, Attachment (originalname f) (buffer f) (mimetype f))
                     (files req))).
    assert (∃ r w', Mail.enviarCorreo req w = (Ok r, w')
                    ∧ outbox w' = (outbox w ++ [m])%list) as (r & w' & Er & Eo).
    { unfold Mail.enviarCorreo, try_catch. fold para asunto mensaje.
      rewrite E, Hm. unfold mbind, M_bind, Mail.as_text, mret, M_ret,
        Mail.sendMail, fails_now, next_fault, respond. simpl.
      destruct (faults w) as [|[|] fs]; simpl; eauto. }
    exists r, w', m. split_and!; try done.
    + unfold Mail.isHTML. rewrite andb_true_iff, !includes_occurs. tauto.
    + simpl. intros ->. split_and!; try done.
      * apply strip_tags_no_tag.
      * apply strip_tags_id.
      * intros a t b ->. apply strip_tags_first.
    + simpl. intros ->. split_and!; try done.
      * apply nl2br_lines.
      * apply nl2br_no_line_feed.
  - intros Hp Ha Hm Hno.
    unfold Js.truthy in Hp, Ha, Hm. apply negb_true_iff in Hp, Ha, Hm.
    unfold Mail.enviarCorreo, try_catch. fold para asunto mensaje.
    rewrite Hp, Ha, Hm. unfold mbind, M_bind, Mail.as_text, respond, mret, M_ret.
    cbn [orb].
    destruct mensaje as [| |b|n|texto]; try (by eexists).
    by destruct (Hno texto).
Qed.

(** C7 as worded fails when mensaje is present but is not a text: the
    number 5 is sent as mensaje, the handler answers 500 and no message
    reaches the transport. *)
Lemma enviarCorreo_number_message :
  status <$> answered
      (Mail.enviarCorreo
         (Sample.solicitud [("para", Js.Str "turno@example.com");
                            ("asunto", Js.Str "Cierre"); ("mensaje", Js.Num 5)])
         (Sample.start Sample.conf Sample.vacia [])) = Some 500
  ∧ outbox (after
      (Mail.enviarCorreo
         (Sample.solicitud [("para", Js.Str "turno@example.com");
                            ("asunto", Js.Str "Cierre"); ("mensaje", Js.Num 5)])
         (Sample.start Sample.conf Sample.vacia []))) = [].
Proof. vm_compute. by split. Qed.

End MailFacts.

(** ** aiController *)

Module AiFacts.

(** C10. Loading aiController throws when GEMINI_API_KEY is unset.  A
    loaded module exists only if the key is present, and its client was
    built with that key.  With a loaded module, a request without texto,
    respectively without base64Image or mimeType, is answered 400 and the
    world is left as it was: nothing is sent to the generative-text
    service. *)
Theorem aiController_needs_key (c : config) :
  (getenv c "GEMINI_API_KEY" = Js.Undefined → ∃ e, Ai.load c = Throw e) ∧
  (∀ m, Ai.load c = Ok m →
     (∃ k, getenv c "GEMINI_API_KEY" = Js.Str k ∧ k ≠ "" ∧ Ai.ai m = k) ∧
     ∀ req w,
       (Js.falsy (field (body req) "texto") = true →
        ∃ o, Ai.mejorarTextoChatGPT m req w = (Ok (Response 400 o), w)) ∧
       (Js.falsy (field (body req) "base64Image")
        || Js.falsy (field (body req) "mimeType") = true →
        ∃ o, Ai.extraerTextoImagen m req w = (Ok (Response 400 o), w))).
Proof.
  split.
  - intros E. unfold Ai.load. rewrite E. simpl. by eexists.
  - intros m Hm. split.
    + unfold Ai.load, getenv in *.
      destruct (Js.get "GEMINI_API_KEY" (env c)) as [k|]; simpl in Hm; [|done].
      case_bool_decide; simpl in Hm; [done|].
      injection Hm as <-. by exists k.
    + intros req w. split; intros E.
      * unfold Ai.mejorarTextoChatGPT. rewrite E. by eexists.
      * unfold Ai.extraerTextoImagen. rewrite E. by eexists.
Qed.

(** With the key present the handlers do reach the service. *)
Example mejorarTexto_calls_service :
  ∃ m r w',
    Ai.load Sample.conf = Ok m ∧
    Ai.mejorarTextoChatGPT m (Sample.solicitud [("texto", Js.Str "ola")])
      (World Sample.conf Sample.vacia 0 0 [] [Some " Hola "] [] [] []) = (Ok r, w') ∧
    r = Response 200 (Js.JObj [("textoMejorado", Js.jstr "Hola")]) ∧
    length (ai_log w') = 1.
Proof. by eexists _, _, _. Qed.

End AiFacts.

(** ** The JWT middleware *)

Module MiddlewareFacts.
Section WithJwt.
Context `{!JwtLib}.

(** The header has the form the middleware accepts. *)
Definition bearer (h esquema token : string) : Prop :=
  Text.split " "%char h = [esquema; token] ∧ Text.toLowerCase esquema = "bearer".

Lemma verificarToken_total req w : ∃ p, Auth.verificarToken req w = (Ok p, w).
Proof.
  unfold Auth.verificarToken.
  repeat (case_match; try case_bool_decide; simpl; eauto).
Qed.

(** C5. verificarToken calls next only when the Authorization header is
    present, splits at the space into exactly two parts the first of
    which is bearer in any casing, and the token verifies against the
    configured secret; the request it passes on has req.usuario set to
    the decoded payload and is otherwise the request it received, and
    the protected handler runs on that request.  Whenever these
    conditions hold it does call next.  A missing header, a header of
    another form and an expired token are answered 401, an invalid
    signature 403; whenever the middleware answers, a protected route
    gives that answer whatever its handler is, so the handler does not
    run. *)
Theorem verificarToken_gate (handler : request → M response)
    (req : request) (w : world) :
  (∀ req' w', Auth.verificarToken req w = (Ok (Auth.Next req'), w') →
     ∃ h esquema token secreto decoded,
       authorization req = Some h ∧ bearer h esquema token ∧
       getenv (cfg w) "KEY" = Js.Str secreto ∧ secreto ≠ "" ∧
       jwt_verify token secreto (clock w) = Ok decoded ∧
       usuario req' = Some decoded ∧
       body req' = body req ∧ params req' = params req ∧
       query_string req' = query_string req ∧
       authorization req' = authorization req ∧ files req' = files req ∧
       w' = w ∧
       Auth.protegida handler req w = handler req' w) ∧
  (∀ h esquema token secreto decoded,
     authorization req = Some h → bearer h esquema token →
     getenv (cfg w) "KEY" = Js.Str secreto → secreto ≠ "" →
     jwt_verify token secreto (clock w) = Ok decoded →
     ∃ req', Auth.verificarToken req w = (Ok (Auth.Next req'), w)
             ∧ usuario req' = Some decoded
             ∧ Auth.protegida handler req w = handler req' w) ∧
  (authorization req = None →
   ∃ o, Auth.verificarToken req w = (Ok (Auth.Answered (Response 401 o)), w)) ∧
  (∀ h, authorization req = Some h →
        (¬ ∃ esquema token, bearer h esquema token) →
   ∃ o, Auth.verificarToken req w = (Ok (Auth.Answered (Response 401 o)), w)) ∧
  (∀ h esquema token secreto e,
     authorization req = Some h → bearer h esquema token →
     getenv (cfg w) "KEY" = Js.Str secreto → secreto ≠ "" →
     jwt_verify token secreto (clock w) = Throw e →
     (name e = "TokenExpiredError" →
      ∃ o, Auth.verificarToken req w = (Ok (Auth.Answered (Response 401 o)), w)) ∧
     (name e = "JsonWebTokenError" →
      ∃ o, Auth.verificarToken req w = (Ok (Auth.Answered (Response 403 o)), w))) ∧
  (∀ r w', Auth.verificarToken req w = (Ok (Auth.Answered r), w') →
     Auth.protegida handler req w = (Ok r, w')).
Proof.
  split_and!.
  - intros req' w' E.
    assert (Auth.protegida handler req w = handler req' w') as Hp
      by (unfold Auth.protegida, mbind, M_bind; by rewrite E).
    revert E. unfold Auth.verificarToken, bearer, getenv.
    destruct (authorization req) as [h|] eqn:Ea; [|done].
    case_bool_decide; [done|].
    destruct (Text.split " " h) as [|esquema [|token [|? ?]]] eqn:Es; try done.
    case_bool_decide; simpl; [|done].
    destruct (Js.get "KEY" (env (cfg w))) as [secreto|]; simpl; [|done].
    case_bool_decide; simpl; [done|].
    destruct (jwt_verify token secreto (clock w)) as [decoded|e] eqn:Ev.
    + intros [= <- <-]. exists h, esquema, token, secreto, decoded.
      by split_and!.
    + repeat (case_bool_decide; try done).
  - intros h esquema token secreto decoded E [Es El] Ek Hs Ev.
    assert (h ≠ "") as Hh by (intros ->; discriminate).
    assert (Auth.verificarToken req w
            = (Ok (Auth.Next (Auth.set_usuario decoded req)), w)) as E0.
    { unfold Auth.verificarToken.
      rewrite E, Es, El, Ek. simpl. rewrite Ev.
      rewrite !bool_decide_eq_false_2 by done. reflexivity. }
    exists (Auth.set_usuario decoded req). split_and!; try done.
    unfold Auth.protegida, mbind, M_bind. by rewrite E0.
  - intros E. unfold Auth.verificarToken. rewrite E. by eexists.
  - intros h E Hno. unfold Auth.verificarToken. rewrite E.
    case_bool_decide; [by eexists|].
    destruct (Text.split " " h) as [|esquema [|token [|? ?]]] eqn:Es;
      try by eexists.
    case_bool_decide; simpl; [|by eexists].
    destruct Hno. by exists esquema, token.
  - intros h esquema token secreto e E [Es El] Ek Hs Ev.
    assert (h ≠ "") as Hh by (intros ->; discriminate).
    unfold Auth.verificarToken.
    rewrite E, Es, El, Ek. simpl. rewrite Ev.
    rewrite !bool_decide_eq_false_2 by done. simpl.
    split; intros ->; simpl; by eexists.
  - intros r w' E. unfold Auth.protegida, mbind, M_bind. by rewrite E.
Qed.

End WithJwt.
End MiddlewareFacts.

(** ** One statement at a time *)

Module Steps.

(** The world once statement [s] has run. *)
Definition ran (s : Db.stmt) (values : list Js.value) (w : world) : world :=
  set_clock (S (clock w))
    (set_db (snd (Db.exec s (map bind_value values) (clock w) (db w)))
       (set_faults (tl (faults w)) (logged s values w))).

(** The world once statement [s] has failed. *)
Definition failed (s : Db.stmt) (values : list Js.value) (w : world) : world :=
  set_faults (tl (faults w)) (logged s values w).

(** What the handler gets back from [s]. *)
Definition answer (s : Db.stmt) (values : list Js.value) (w : world) : result :=
  js_of_result (cfg w) (fst (Db.exec s (map bind_value values) (clock w) (db w))).

Lemma pool_query_ok s values w :
  next_fault w = false →
  pool_query s values w = (Ok (answer s values w), ran s values w).
Proof.
  intros E. unfold pool_query, fails_now, answer, ran.
  change (next_fault (logged s values w)) with (next_fault w). rewrite E.
  simpl. by destruct (Db.exec _ _ _ _).
Qed.

Lemma pool_query_fail s values w :
  next_fault w = true →
  pool_query s values w = (Throw db_error, failed s values w).
Proof.
  intros E. unfold pool_query, fails_now, failed.
  change (next_fault (logged s values w)) with (next_fault w). by rewrite E.
Qed.

Lemma pool_query_cases s values w :
  pool_query s values w = (Ok (answer s values w), ran s values w)
  ∨ pool_query s values w = (Throw db_error, failed s values w).
Proof.
  destruct (next_fault w) eqn:E;
    [right; by apply pool_query_fail | left; by apply pool_query_ok].
Qed.

Lemma bind_ok {A B} (m : M A) (f : A → M B) w a w1 :
  m w = (Ok a, w1) → (m ≫= f) w = f a w1.
Proof. intros E. unfold mbind, M_bind. by rewrite E. Qed.

Lemma bind_throw {A B} (m : M A) (f : A → M B) w e w1 :
  m w = (Throw e, w1) → (m ≫= f) w = (Throw e, w1).
Proof. intros E. unfold mbind, M_bind. by rewrite E. Qed.

Lemma try_ok {A} (m : M A) h w a w1 :
  m w = (Ok a, w1) → try_catch m h w = (Ok a, w1).
Proof. intros E. unfold try_catch. by rewrite E. Qed.

Lemma try_throw {A} (m : M A) h w e w1 :
  m w = (Throw e, w1) → try_catch m h w = h e w1.
Proof. intros E. unfold try_catch. by rewrite E. Qed.

Lemma next_fault_ran s values w : next_fault (ran s values w) = hd false (tl (faults w)).
Proof. done. Qed.

Lemma faults_nil_next w : faults w = [] → next_fault w = false.
Proof. unfold next_fault. by intros ->. Qed.

Lemma faults_nil_ran s values w : faults w = [] → faults (ran s values w) = [].
Proof. simpl. by intros ->. Qed.

End Steps.

(** ** loginUsuario *)

Module LoginFacts.
Import Steps.

(** The rows the credentials query returns, in table order. *)
Definition candidatos (email : Js.value) (w : world) : list Db.usuario :=
  List.filter (λ u, Db.sql_eq (Db.u_email u) (bind_value email)) (Db.usuarios (db w)).

(** A text column as the handler reads it. *)
Definition leido (v : Db.sql_value) : Js.value :=
  match v with None => Js.Null | Some s => Js.Str s end.

Definition carries_token (r : response) (t : string) : Prop :=
  ∃ fields, json_body r = Js.JObj fields ∧ Js.get "token" fields = Some (Js.jstr t).

Lemma leido_cell c v : js_of_cell c (Db.cell_of v) = leido v.
Proof. by destruct v. Qed.

Section WithJwt.
Context `{!JwtLib}.

Lemma loginUsuario_answer req w :
  next_fault w = false →
  Auth.loginUsuario req w =
    match candidatos (field (body req) "email") w with
    | [] => (Ok (Response 401 (mensaje "Credenciales incorrectas")),
             ran Db.SelCredenciales [field (body req) "email"] w)
    | u :: _ =>
        if Js.strict_ne (leido (Db.u_contrasena u)) (field (body req) "contraseña")
        then (Ok (Response 401 (mensaje "Credenciales incorrectas")),
              ran Db.SelCredenciales [field (body req) "email"] w)
        else
          try_catch
            (token ← Auth.sign (Payload (leido (Db.u_id u)) (leido (Db.u_email u)));
             respond 200
               (Js.JObj [("mensaje", Js.jstr "Inicio de sesión exitoso");
                         ("usuario",
                          Js.JObj [("id", Js.JVal (leido (Db.u_id u)));
                                   ("nombre", Js.JVal (leido (Db.u_nombre u)));
                                   ("email", Js.JVal (leido (Db.u_email u)))]);
                         ("token", Js.jstr token)]))
            (λ _, respond 500 (mensaje "Error en el servidor"))
            (ran Db.SelCredenciales [field (body req) "email"] w)
    end.
Proof.
  intros E. unfold Auth.loginUsuario, try_catch at 1, mbind at 1, M_bind at 1.
  rewrite pool_query_ok by done. unfold answer, candidatos. simpl.
  destruct (List.filter _ _) as [|u us]; simpl; [done|].
  rewrite !leido_cell.
  destruct (Js.strict_ne _ _); [done|]. reflexivity.
Qed.


(** C4, as the code has it.  When the SELECT does not fail and the JWT
    secret is configured, loginUsuario answers 200 with a token signed
    for the row's id and email exactly when the first row returned for
    the submitted email holds a contraseña strictly equal to the
    submitted one (a plain comparison of the stored text, no hashing);
    otherwise it answers 401 with mensaje Credenciales incorrectas, which
    carries no token.  When at most one row has that email, the first row
    is any row.  When the SELECT fails the answer is 500, and so it is
    when the secret is missing although the credentials are right. *)
Theorem loginUsuario_credentials (req : request) (w : world) :
  let email := field (body req) "email" in
  let contrasena := field (body req) "contraseña" in
  (next_fault w = false →
   ∀ secreto, getenv (cfg w) "KEY" = Js.Str secreto → secreto ≠ "" →
   ∃ r w', Auth.loginUsuario req w = (Ok r, w') ∧
     ((∃ u rest,
         candidatos email w = u :: rest ∧ leido (Db.u_contrasena u) = contrasena ∧
         status r = 200 ∧
         carries_token r
           (jwt_sign (Payload (leido (Db.u_id u)) (leido (Db.u_email u)))
                     secreto (S (clock w)) "8h"))
      ∨ ((¬ ∃ u rest, candidatos email w = u :: rest
                      ∧ leido (Db.u_contrasena u) = contrasena)
         ∧ r = Response 401 (mensaje "Credenciales incorrectas"))) ∧
     (length (candidatos email w) ≤ 1 →
      (status r = 200 ↔
       ∃ u, In u (Db.usuarios (db w))
            ∧ Db.sql_eq (Db.u_email u) (bind_value email) = true
            ∧ leido (Db.u_contrasena u) = contrasena))) ∧
  (next_fault w = true →
   ∃ w', Auth.loginUsuario req w
         = (Ok (Response 500 (mensaje "Error en el servidor")), w')) ∧
  (next_fault w = false → Js.falsy (getenv (cfg w) "KEY") = true →
   (∃ u rest, candidatos email w = u :: rest
              ∧ leido (Db.u_contrasena u) = contrasena) →
   ∃ w', Auth.loginUsuario req w
         = (Ok (Response 500 (mensaje "Error en el servidor")), w')).
Proof.
  intros email contrasena. split_and!.
  - intros E secreto Ek Hs. rewrite loginUsuario_answer by done.
    fold email contrasena.
    destruct (candidatos email w) as [|u us] eqn:Ec.
    { eexists _, _. split; [done|]. split.
      - right. split; [|done]. by intros (? & ? & ? & _).
      - intros _. simpl. split; [done|].
        intros (u & Hu & He & _).
        assert (In u (candidatos email w)) as Hin by (by apply filter_In).
        by rewrite Ec in Hin. }
    unfold Js.strict_ne, Js.strict_eq. case_bool_decide as Hpw; simpl.
    + unfold try_catch, mbind, M_bind, Auth.sign, respond, mret, M_ret.
      simpl. rewrite Ek. simpl. rewrite bool_decide_eq_false_2 by done. simpl.
      eexists _, _. split; [done|]. split.
      * left. exists u, us. split_and!; try done. by eexists.
      * intros _. simpl. split; [|done]. intros _. exists u.
        assert (In u (candidatos email w)) as Hin by (rewrite Ec; by left).
        apply filter_In in Hin as [? ?]. done.
    + eexists _, _. split; [done|]. split.
      * right. split; [|done]. intros (u' & rest & [= <- <-] & ?). done.
      * intros Hlen. simpl. split; [done|].
        intros (u' & Hu & He & Hp).
        assert (In u' (candidatos email w)) as Hin by (by apply filter_In).
        rewrite Ec in Hin. destruct us; simpl in Hlen; [|lia].
        destruct Hin as [->|[]]. done.
  - intros E. unfold Auth.loginUsuario, try_catch, mbind, M_bind.
    rewrite pool_query_fail by done. by eexists.
  - intros E Hk (u & rest & Ec & Hpw). rewrite loginUsuario_answer by done.
    fold email contrasena. rewrite Ec.
    unfold Js.strict_ne, Js.strict_eq. rewrite bool_decide_eq_true_2 by done.
    unfold try_catch, mbind, M_bind, Auth.sign. simpl. rewrite Hk.
    by eexists.
Qed.

End WithJwt.

(** C4 as worded fails: the row exists and the passwords are equal, but
    the SELECT fails and the answer is 500 rather than a token. *)
Lemma loginUsuario_not_always_401 :
  (∃ u, In u (Db.usuarios Sample.solo_ana)
        ∧ Db.u_email u = Some "ana@example.com"
        ∧ Db.u_contrasena u = Some "clave")
  ∧ fst (@Auth.loginUsuario Sample.toy_jwt Sample.login_ana
           (Sample.start Sample.conf Sample.solo_ana [true]))
    = Ok (Response 500 (mensaje "Error en el servidor")).
Proof. split; [exists Sample.ana; by repeat split; try left | done]. Qed.

(** The same request when nothing fails. *)
Example loginUsuario_ana :
  fst (@Auth.loginUsuario Sample.toy_jwt Sample.login_ana
         (Sample.start Sample.conf Sample.solo_ana []))
  = Ok (Response 200
          (Js.JObj [("mensaje", Js.jstr "Inicio de sesión exitoso");
                    ("usuario",
                     Js.JObj [("id", Js.jstr "u1"); ("nombre", Js.jstr "Ana");
                              ("email", Js.jstr "ana@example.com")]);
                    ("token", Js.jstr "jwt(u1,ana@example.com)/s3cret")])).
Proof. reflexivity. Qed.

End LoginFacts.

(** ** Facts about the store *)

Module DbFacts.
Import Db.

Lemma insert_sorted_In {A} (le : A → A → bool) x y l :
  In x (insert_sorted le y l) ↔ x = y ∨ In x l.
Proof.
  induction l as [|z l IH]; simpl; [naive_solver|].
  destruct (le y z); simpl; [naive_solver|]. rewrite IH. naive_solver.
Qed.

(** ORDER BY only rearranges. *)
Lemma sort_by_In {A} (le : A → A → bool) x l : In x (sort_by le l) ↔ In x l.
Proof.
  induction l as [|y l IH]; simpl; [done|].
  rewrite insert_sorted_In, IH. naive_solver.
Qed.

Lemma sql_eq_true a b : sql_eq a b = true ↔ ∃ s, a = Some s ∧ b = Some s.
Proof.
  destruct a as [x|], b as [y|]; simpl; try naive_solver.
  rewrite bool_decide_eq_true. naive_solver.
Qed.


Lemma sql_eq_sym a b : sql_eq a b = sql_eq b a.
Proof.
  destruct a as [x|], b as [y|]; simpl; try done.
  apply bool_decide_ext. naive_solver.
Qed.

Lemma sql_eq_refl a : is_Some a → sql_eq a a = true.
Proof. intros [x ->]. simpl. by apply bool_decide_eq_true. Qed.

(** [col] is a primary key of [t]: never NULL, never repeated. *)
Definition key {A} (col : A → sql_value) (t : list A) : Prop :=
  List.NoDup (map col t) ∧ Forall (λ x, is_Some (col x)) t.

Lemma key_cons {A} (col : A → sql_value) x t :
  key col (x :: t) → key col t ∧ is_Some (col x) ∧ ∀ y, In y t → col y ≠ col x.
Proof.
  intros [Hd Hs]. simpl in Hd. apply List.NoDup_cons_iff in Hd as [Hx Hd].
  apply Forall_cons_iff in Hs as [Hsx Hs]. split_and!; try done.
  intros y Hy E. apply Hx. rewrite <- E. by apply in_map.
Qed.

Lemma filter_none {A} (f : A → bool) t :
  (∀ y, In y t → f y = false) → List.filter f t = [].
Proof.
  induction t as [|z t IH]; simpl; [done|]. intros H.
  rewrite (H z) by by left. apply IH. intros y Hy. apply H. by right.
Qed.

(** Selecting on a primary key gives the one row that has it. *)
Lemma filter_key {A} (col : A → sql_value) t x :
  key col t → In x t → List.filter (λ y, sql_eq (col y) (col x)) t = [x].
Proof.
  induction t as [|z t IH]; simpl; [done|].
  intros Hk Hx. apply key_cons in Hk as (Hk & Hz & Hne).
  destruct Hx as [->|Hx].
  - rewrite sql_eq_refl by done. f_equal. apply filter_none.
    intros y Hy. apply not_true_is_false. rewrite sql_eq_true.
    intros (s & E1 & E2). apply (Hne y Hy). congruence.
  - assert (sql_eq (col z) (col x) = false) as ->.
    { apply not_true_is_false. rewrite sql_eq_true.
      intros (s & E1 & E2). apply (Hne x Hx). congruence. }
    by apply IH.
Qed.

Lemma key_NoDup {A} (col : A → sql_value) t : key col t → List.NoDup t.
Proof. intros [Hd _]. by apply List.NoDup_map_inv in Hd. Qed.

Section Grouping.
Context {K : Type} `{EqDecision K}.

Lemma group_count_same (k : K) (n : nat) {X} (ms : list X) :
  fold_left (λ acc (kb : K * bool), bump (fst kb) (if snd kb then 1 else 0) acc)
            (map (λ _, (k, true)) ms) [(k, n)]
  = [(k, n + length ms)].
Proof.
  revert n. induction ms as [|m ms IH]; intros n; simpl.
  - by rewrite Nat.add_0_r.
  - rewrite decide_True by done. rewrite IH. do 2 f_equal. lia.
Qed.

(** One group: its count is the number of lines. *)
Lemma group_count_one (k : K) {X} (m : X) (ms : list X) :
  group_count (map (λ _, (k, true)) (m :: ms)) = [(k, S (length ms))].
Proof. unfold group_count. simpl. by rewrite group_count_same. Qed.

End Grouping.

(** The relation rows that reference base row [bid]. *)
Definition referencias (bid : sql_value) (rels : list relacion) : list relacion :=
  List.filter (λ r2, sql_eq bid (r_base_id r2)) rels.

(** With primary keys, the relation-info query returns one line for an
    existing relation whose base row exists, and its count is the number
    of relation rows that reference the base row. *)
Lemma relacion_info_one {B K} `{EqDecision K} (b_id : B → sql_value)
    (k : relacion → B → K) rels bases r b :
  key r_id rels → key b_id bases → In r rels → In b bases →
  r_base_id r = b_id b →
  relacion_info b_id k rels bases (r_id r)
  = [(k r b, length (referencias (b_id b) rels))]
    ∧ 0 < length (referencias (b_id b) rels).
Proof.
  intros Hr Hb Hin Hib E. unfold relacion_info.
  rewrite (filter_key r_id rels r) by done.
  unfold join. simpl. rewrite app_nil_r, E.
  erewrite filter_ext; [|intros b'; apply sql_eq_sym].
  rewrite (filter_key b_id bases b) by done. simpl. rewrite app_nil_r.
  unfold left_join_counted. fold (referencias (b_id b) rels).
  assert (In r (referencias (b_id b) rels)) as Href.
  { apply filter_In. split; [done|]. rewrite <- E. apply sql_eq_refl.
    rewrite E. destruct Hb as [_ Hb]. rewrite Forall_forall in Hb.
    by apply Hb. }
  assert (map (λ r2, (k r b, bool_decide (is_Some (r_id r2))))
              (referencias (b_id b) rels)
          = map (λ _, (k r b, true)) (referencias (b_id b) rels)) as Em.
  { apply map_ext_in. intros r2 H2. apply filter_In in H2 as [H2 _].
    f_equal. apply bool_decide_eq_true. destruct Hr as [_ Hr].
    rewrite Forall_forall in Hr. by apply Hr. }
  destruct (referencias (b_id b) rels) as [|m ms] eqn:Er; [done|].
  rewrite Em, group_count_one. simpl. split; [done|lia].
Qed.

(** The deleted relation was the last reference to its base row. *)
Definition ultima (r : relacion) (rels : list relacion) : Prop :=
  ∀ r2, In r2 rels → r_base_id r2 = r_base_id r → r2 = r.

Lemma ultima_count rels r :
  key r_id rels → In r rels → is_Some (r_base_id r) →
  length (referencias (r_base_id r) rels) = 1 ↔ ultima r rels.
Proof.
  intros Hk Hin Hs.
  assert (In r (referencias (r_base_id r) rels)) as Hr
    by (apply filter_In; split; [done | by apply sql_eq_refl]).
  assert (List.NoDup (referencias (r_base_id r) rels)) as Hnd
    by (apply NoDup_filter; by apply key_NoDup in Hk).
  split.
  - intros Hl r2 H2 E2.
    assert (In r2 (referencias (r_base_id r) rels)) as Hr2.
    { apply filter_In. split; [done|]. rewrite E2. by apply sql_eq_refl. }
    destruct (referencias _ _) as [|x [|y l]]; simpl in *; try done.
    naive_solver.
  - intros Hu.
    destruct (referencias (r_base_id r) rels) as [|x [|y l]] eqn:Er; try done.
    exfalso.
    assert (x = r ∧ y = r) as [-> ->].
    { split; apply Hu.
      - eapply (proj1 (filter_In _ x rels)). unfold referencias in Er.
        rewrite Er. by left.
      - assert (In x (referencias (r_base_id r) rels)) as Hx
          by (rewrite Er; by left).
        apply filter_In in Hx as [_ Hx]. apply sql_eq_true in Hx.
        destruct Hx as (? & ? & ?). congruence.
      - eapply (proj1 (filter_In _ y rels)). unfold referencias in Er.
        rewrite Er. right. by left.
      - assert (In y (referencias (r_base_id r) rels)) as Hy
          by (rewrite Er; right; by left).
        apply filter_In in Hy as [_ Hy]. apply sql_eq_true in Hy.
        destruct Hy as (? & ? & ?). congruence. }
    apply List.NoDup_cons_iff in Hnd as [Hnd _]. apply Hnd. by left.
Qed.

End DbFacts.

(** ** agregarNota and the catalogue of templates *)

Module AvanceFacts.
Import Steps.

Ltac query :=
  match goal with
  | |- context [pool_query ?s ?v ?w] =>
      destruct (pool_query_cases s v w) as [-> | ->]
  end.















(** The casing aVance passes agregarNota, is stored, and is then missing
    from the catalogue. *)
Example aVance_stored_but_not_listed :
  status <$> answered (Notas.agregarNota Sample.nota_aVance
                         (Sample.start Sample.conf Sample.solo_ana [])) = Some 201
  ∧ map Db.pb_novedad
        (Db.plantillas_base
           (db (after (Notas.agregarNota Sample.nota_aVance
                         (Sample.start Sample.conf Sample.solo_ana [])))))
    = [Some "aVance"]
  ∧ answered (Notas.obtenerPlantillasDisponibles (Sample.solicitud [])
                (after (Notas.agregarNota Sample.nota_aVance
                          (Sample.start Sample.conf Sample.solo_ana []))))
    = Some (Response 200 (Js.JArr [])).
Proof. vm_compute. by repeat split. Qed.

End AvanceFacts.

(** ** registrarUsuario *)

Module RegistroFacts.
Import Steps.

(** [w'] has the users and the configuration of [w]. *)
Definition same_usuarios (w w' : world) : Prop :=
  Db.usuarios (db w') = Db.usuarios (db w) ∧ cfg w' = cfg w.

(** A computation that leaves the users alone, however it ends. *)
Definition keeps {A} (m : M A) : Prop := ∀ w, same_usuarios w (snd (m w)).

Definition writes_usuarios (s : Db.stmt) : bool :=
  match s with
  | Db.InsUsuario | Db.UpdContrasena => true
  | _ => false
  end.

Lemma exec_usuarios s a now d :
  writes_usuarios s = false → Db.usuarios (snd (Db.exec s a now d)) = Db.usuarios d.
Proof.
  destruct s; try discriminate; intros _; simpl; try done;
    by destruct (Db.delete_where _ _ _) || by destruct (Db.update_where _ _ _ _).
Qed.

Lemma keeps_ret {A} (a : A) : keeps (mret a).
Proof. by intros w. Qed.

Lemma keeps_throw {A} e : keeps (@throw A e).
Proof. by intros w. Qed.

Lemma keeps_bind {A B} (m : M A) (f : A → M B) :
  keeps m → (∀ a, keeps (f a)) → keeps (m ≫= f).
Proof.
  intros Hm Hf w. unfold mbind, M_bind. specialize (Hm w).
  destruct (m w) as [[a|e] w1]; simpl in *; [|done].
  specialize (Hf a w1). destruct Hm as [? ?], Hf as [? ?].
  split; congruence.
Qed.

Lemma keeps_query s values : writes_usuarios s = false → keeps (pool_query s values).
Proof.
  intros Hs w. destruct (pool_query_cases s values w) as [-> | ->]; [|done].
  split; [|done]. simpl. by rewrite exec_usuarios.
Qed.

Lemma keeps_uuid : keeps uuidv4.
Proof. by intros w. Qed.

Lemma keeps_first_row r : keeps (first_row r).
Proof. unfold first_row. destruct (rows r); [apply keeps_throw | apply keeps_ret]. Qed.

Lemma keeps_for_each {A} (l : list A) (f : A → M unit) :
  (∀ x, keeps (f x)) → keeps (for_each l f).
Proof.
  intros Hf. induction l as [|x l IH]; simpl; [apply keeps_ret|].
  apply keeps_bind; [apply Hf | by intros _].
Qed.

Create HintDb keeps.

#[local] Hint Resolve keeps_ret keeps_throw keeps_query keeps_uuid
  keeps_first_row : keeps.

Ltac keeps_steps :=
  repeat first
    [ apply keeps_bind; [|intros ?]
    | apply keeps_for_each; intros ?
    | match goal with |- keeps (if ?b then _ else _) => destruct b end
    | match goal with |- keeps (let '(_, _) := ?p in _) => destruct p end
    | solve [auto with keeps] ].

Lemma keeps_asignarPlantillas usuario_id :
  keeps (Auth.asignarPlantillasPorDefecto usuario_id).
Proof.
  unfold Auth.asignarPlantillasPorDefecto, Auth.crearPlantillasBasePorDefecto.
  keeps_steps.
Qed.

Lemma keeps_asignarAplicativos usuario_id :
  keeps (Auth.asignarAplicativosPorDefecto usuario_id).
Proof.
  unfold Auth.asignarAplicativosPorDefecto, Auth.crearAplicativosBasePorDefecto.
  keeps_steps.
Qed.

(** A failure inside the guarded block is swallowed. *)
Lemma swallowed (m : M unit) w :
  keeps m → ∃ w', try_catch m (λ _, mret tt) w = (Ok tt, w') ∧ same_usuarios w w'.
Proof.
  intros Hm. specialize (Hm w). unfold try_catch.
  destruct (m w) as [[[]|e] w1]; simpl in *; by eexists.
Qed.


Section WithJwt.
Context `{!JwtLib}.

(** The row registrarUsuario inserts. *)
Definition nuevo_usuario (req : request) (w : world) : Db.usuario :=
  Db.Usuario (Some ("uuid-" +:+ Js.decimal_nat (next_uuid w)))
             (bind_value (field (body req) "nombre"))
             (bind_value (field (body req) "email"))
             (bind_value (field (body req) "contraseña")).

Lemma existe_rows email w :
  length (rows (answer Db.SelUsuarioPorEmail [email] w))
  = length (LoginFacts.candidatos email w).
Proof. unfold answer, LoginFacts.candidatos. simpl. by rewrite !length_map. Qed.

(** C8. When the SELECT and the INSERT of registrarUsuario succeed and
    the e-mail is new, the user row is committed and the answer is 201
    with a signed token, whatever happens to the statements of the
    default assignment that follows: its failure is swallowed.  The
    registration is prevented only by a row with the same e-mail (400) or
    by a failure of the SELECT or of the INSERT (500); then the tables
    are as before. *)
Theorem registrarUsuario_survives_assignment (req : request) (w : world) :
  let email := field (body req) "email" in
  (next_fault w = false → LoginFacts.candidatos email w = [] →
   hd false (tl (faults w)) = false →
   ∀ secreto, getenv (cfg w) "KEY" = Js.Str secreto → secreto ≠ "" →
   ∃ o w',
     Auth.registrarUsuario req w = (Ok (Response 201 o), w')
     ∧ LoginFacts.carries_token (Response 201 o)
         (jwt_sign (Payload (Js.Str ("uuid-" +:+ Js.decimal_nat (next_uuid w)))
                            email) secreto (clock w') "8h")
     ∧ Db.usuarios (db w') = (Db.usuarios (db w) ++ [nuevo_usuario req w])%list) ∧
  (next_fault w = false → LoginFacts.candidatos email w ≠ [] →
   ∃ w', Auth.registrarUsuario req w
         = (Ok (Response 400 (mensaje "El correo ya está registrado")), w')
         ∧ db w' = db w) ∧
  (next_fault w = true →
   ∃ w', Auth.registrarUsuario req w
         = (Ok (Response 500 (mensaje "Error en el servidor")), w')
         ∧ db w' = db w) ∧
  (next_fault w = false → LoginFacts.candidatos email w = [] →
   hd false (tl (faults w)) = true →
   ∃ w', Auth.registrarUsuario req w
         = (Ok (Response 500 (mensaje "Error en el servidor")), w')
         ∧ db w' = db w).
Proof.
  intros email. split_and!.
  - intros E0 Hc E1 secreto Ek Hs. unfold Auth.registrarUsuario. fold email.
    set (id := "uuid-" +:+ Js.decimal_nat (next_uuid w)).
    destruct (swallowed
                (_ ← Auth.asignarPlantillasPorDefecto (Js.Str id);
                 Auth.asignarAplicativosPorDefecto (Js.Str id))
                (ran Db.InsUsuario
                   [Js.Str id; field (body req) "nombre"; email;
                    field (body req) "contraseña"]
                   (set_next_uuid (S (next_uuid w))
                      (ran Db.SelUsuarioPorEmail [email] w))))
      as (w4 & Eb & Hu & Hcfg).
    { apply keeps_bind; [apply keeps_asignarPlantillas|].
      intros _. apply keeps_asignarAplicativos. }
    eexists _, w4. split_and!.
    + erewrite try_ok; [reflexivity|].
      erewrite bind_ok; [|by apply pool_query_ok].
      rewrite existe_rows, Hc. cbn [length Nat.ltb Nat.leb].
      erewrite bind_ok; [|reflexivity].
      erewrite bind_ok; [|by apply pool_query_ok].
      erewrite bind_ok; [|exact Eb].
      erewrite bind_ok; [reflexivity|].
      unfold Auth.sign. rewrite Hcfg. simpl. rewrite Ek. simpl.
      rewrite bool_decide_eq_false_2 by done. reflexivity.
    + by eexists.
    + rewrite Hu. reflexivity.
  - intros E0 Hc. eexists. split.
    + unfold Auth.registrarUsuario. fold email.
      erewrite try_ok; [reflexivity|].
      erewrite bind_ok; [|by apply pool_query_ok].
      rewrite existe_rows. destruct (LoginFacts.candidatos email w); [done|].
      reflexivity.
    + reflexivity.
  - intros E0. eexists. split.
    + unfold Auth.registrarUsuario. fold email.
      erewrite try_throw; [reflexivity|].
      erewrite bind_throw; [reflexivity|]. by apply pool_query_fail.
    + reflexivity.
  - intros E0 Hc E1. eexists. split.
    + unfold Auth.registrarUsuario. fold email.
      erewrite try_throw; [reflexivity|].
      erewrite bind_ok; [|by apply pool_query_ok].
      rewrite existe_rows, Hc. cbn [length Nat.ltb Nat.leb].
      erewrite bind_ok; [|reflexivity].
      erewrite bind_throw; [reflexivity|]. by apply pool_query_fail.
    + reflexivity.
Qed.

End WithJwt.

(** The first statement of the default assignment fails: the user is
    registered all the same, with no template and no aplicativo. *)
Example registro_con_asignacion_fallida :
  status <$> answered (@Auth.registrarUsuario Sample.toy_jwt Sample.registro_luz
                         (Sample.start Sample.conf Sample.solo_ana [false; false; true]))
  = Some 201
  ∧ map Db.u_email
        (Db.usuarios
           (db (after (@Auth.registrarUsuario Sample.toy_jwt Sample.registro_luz
                         (Sample.start Sample.conf Sample.solo_ana
                                       [false; false; true])))))
    = [Some "ana@example.com"; Some "luz@example.com"]
  ∧ Db.notas_despacho_rel
      (db (after (@Auth.registrarUsuario Sample.toy_jwt Sample.registro_luz
                    (Sample.start Sample.conf Sample.solo_ana [false; false; true]))))
    = [].
Proof. vm_compute. by repeat split. Qed.

End RegistroFacts.

(** ** eliminarAplicativo and eliminarNota *)

Module BorradoFacts.
Import Steps DbFacts.

#[local] Arguments Db.relacion_info : simpl never.

Lemma blank_trim_start_from k s :
  Text.blank (Text.trim_start_from k s) = Text.blank_from k s.
Proof.
  revert k. induction s as [|a s IH]; intros k; [done|].
  cbn [Text.trim_start_from Text.blank_from].
  destruct k as [|k]; [|apply IH].
  destruct (Text.space_width (String a s)) as [|n] eqn:E; [|apply IH].
  unfold Text.blank. cbn [Text.blank_from]. by rewrite E.
Qed.

(** [s.trim()] is empty exactly for blank text. *)
Lemma trim_empty s : Text.trim s = "" ↔ Text.blank s = true.
Proof.
  change (Text.blank s) with (Text.blank_from 0 s).
  rewrite <- blank_trim_start_from. unfold Text.trim.
  change (Text.trim_start_from 0 s) with (Text.trim_start s).
  destruct (Text.trim_start s) as [|a t]; [done|].
  cbn [Text.trim_end]. by destruct (Text.blank (String a t)).
Qed.

(** A text column holds something other than white space. *)
Definition con_texto (v : Db.sql_value) : bool :=
  match v with
  | None => false
  | Some s => negb (Text.blank s)
  end.

Lemma truthy_opt_trim v :
  Js.truthy (Notas.opt_trim (LoginFacts.leido v)) = con_texto v.
Proof.
  destruct v as [s|]; simpl; [|done]. unfold Js.truthy. simpl. f_equal.
  destruct (Text.blank s) eqn:E.
  - apply bool_decide_eq_true. by apply trim_empty.
  - apply bool_decide_eq_false. rewrite trim_empty. by rewrite E.
Qed.

(** A template that holds nothing but a note of progress. *)
Definition pura (pb : Db.plantilla_base) : bool :=
  con_texto (Db.pb_nota_avances pb)
  && negb (con_texto (Db.pb_nota_publica pb))
  && negb (con_texto (Db.pb_nota_interna pb))
  && negb (con_texto (Db.pb_plantilla pb)).

(** A COUNT as the handler receives it converts back to its number. *)
Lemma count_to_number c n :
  Js.to_number (js_of_cell c (Db.CInt8 n)) = Some (Z.of_nat n).
Proof.
  simpl. destruct (int8_as_number c); simpl; [done|].
  unfold Js.decimal_nat. rewrite NilEmpty.usu. simpl. by rewrite Unsigned.of_to.
Qed.


(** *** eliminarAplicativo *)

Section Aplicativo.
Variables (w : world) (i : string) (r : Db.relacion) (b : Db.aplicativo_base).
Let rels := Db.aplicativos_rel (db w).
Let bases := Db.aplicativos_base (db w).
Hypothesis id_given : i ≠ "".
Hypothesis rels_key : key Db.r_id rels.
Hypothesis bases_key : key Db.ab_id bases.
Hypothesis r_in : In r rels.
Hypothesis r_is_i : Db.r_id r = Some i.
Hypothesis b_in : In b bases.
Hypothesis r_to_b : Db.r_base_id r = Db.ab_id b.
Hypothesis select_ok : next_fault w = false.
Hypothesis delete_ok : hd false (tl (faults w)) = false.

(** Is the base row taken for a personal one?  The count must be the
    number 1: a count that arrives as text is never strictly equal. *)
Definition es_personalizado : bool :=
  int8_as_number (cfg w) && (length (referencias (Db.ab_id b) rels) =? 1).

Definition info_aplicativo : record :=
  [("relacion_id", LoginFacts.leido (Db.r_id r));
   ("usuario_id", LoginFacts.leido (Db.r_usuario_id r));
   ("aplicativo_base_id", LoginFacts.leido (Db.r_base_id r));
   ("nombre", LoginFacts.leido (Db.ab_nombre b));
   ("total_usuarios_con_este_aplicativo",
    js_of_cell (cfg w) (Db.CInt8 (length (referencias (Db.ab_id b) rels))))].

Lemma relacionInfo_aplicativo :
  rows (answer Db.SelRelacionInfoAplicativo [Js.Str i] w) = [info_aplicativo].
Proof.
  unfold answer. simpl. change (Db.arg 0 [Some i]) with (Some i).
  rewrite <- r_is_i. fold rels bases.
  destruct (relacion_info_one Db.ab_id
              (λ r b, (Db.r_id r, Db.r_usuario_id r, Db.r_base_id r, Db.ab_nombre b))
              rels bases r b) as [-> _]; try done.
  simpl. unfold info_aplicativo. by rewrite !LoginFacts.leido_cell.
Qed.

Lemma strict_eq_count :
  Js.strict_eq (field info_aplicativo "total_usuarios_con_este_aplicativo") (Js.Num 1)
  = es_personalizado.
Proof.
  unfold field, info_aplicativo, es_personalizado, Js.strict_eq. simpl.
  destruct (int8_as_number (cfg w)); simpl.
  - destruct (_ =? 1) eqn:E.
    + apply Nat.eqb_eq in E as ->. by apply bool_decide_eq_true.
    + apply Nat.eqb_neq in E. apply bool_decide_eq_false. intros [= ?]. lia.
  - done.
Qed.


Variable req : request.
Hypothesis req_id : field (params req) "id" = Js.Str i.

(** Does the third statement, the DELETE on the base table, fail? *)
Definition tercera_falla : bool := hd false (tl (tl (faults w))).

Lemma eliminarAplicativo_run :
  ∃ res w',
    Aplicativos.eliminarAplicativo req w = (Ok res, w')
    ∧ Db.aplicativos_rel (db w')
      = List.filter (λ x, negb (Db.sql_eq (Db.r_id x) (Some i))) rels
    ∧ Db.aplicativos_base (db w')
      = (if es_personalizado && negb tercera_falla
         then List.filter (λ x, negb (Db.sql_eq (Db.ab_id x) (Db.ab_id b))) bases
         else bases)
    ∧ status res = (if es_personalizado && tercera_falla then 500 else 200)
    ∧ sql_log w'
      = (sql_log w
         ++ [Query (Db.text Db.SelRelacionInfoAplicativo) [Js.Str i];
             Query (Db.text Db.DelAplicativoRel) [Js.Str i]]
         ++ (if es_personalizado
             then [Query (Db.text Db.DelAplicativoBase)
                         [LoginFacts.leido (Db.r_base_id r)]]
             else []))%list.
Proof.
  unfold Aplicativos.eliminarAplicativo. rewrite req_id.
  assert (Js.falsy (Js.Str i) = false) as -> by (by apply bool_decide_eq_false).
  set (w1 := ran Db.SelRelacionInfoAplicativo [Js.Str i] w).
  set (w2 := ran Db.DelAplicativoRel [Js.Str i] w1).
  assert (rowCount (answer Db.DelAplicativoRel [Js.Str i] w1) = 1) as Ecount.
  { unfold answer. simpl. change (Db.arg 0 [Some i]) with (Some i).
    rewrite <- r_is_i. fold rels. by rewrite (filter_key Db.r_id rels r). }
  assert (Db.aplicativos_rel (db w2)
          = List.filter (λ x, negb (Db.sql_eq (Db.r_id x) (Some i))) rels) as Erel
    by done.
  assert (Db.aplicativos_base (db w2) = bases) as Ebase by done.
  assert (bind_value (field info_aplicativo "aplicativo_base_id") = Db.ab_id b) as Eb.
  { unfold field, info_aplicativo. simpl. rewrite r_to_b.
    destruct bases_key as [_ Hs]. rewrite Forall_forall in Hs.
    by destruct (Hs b b_in) as [x ->]. }
  destruct es_personalizado eqn:Ees; [destruct tercera_falla eqn:E3|].
  - eexists _, _. split_and!.
    + erewrite try_throw; [reflexivity|].
      erewrite bind_ok; [|by apply pool_query_ok].
      rewrite relacionInfo_aplicativo, strict_eq_count, Ees.
      erewrite bind_ok; [|by apply pool_query_ok].
      fold w1. rewrite Ecount. cbn [Nat.eqb].
      erewrite bind_throw; [reflexivity|].
      erewrite bind_throw; [reflexivity|].
      by apply pool_query_fail.
    + exact Erel.
    + exact Ebase.
    + done.
    + simpl. by rewrite <- !app_assoc.
  - eexists _, _. split_and!.
    + erewrite try_ok; [reflexivity|].
      erewrite bind_ok; [|by apply pool_query_ok].
      rewrite relacionInfo_aplicativo, strict_eq_count, Ees.
      erewrite bind_ok; [|by apply pool_query_ok].
      fold w1. rewrite Ecount. cbn [Nat.eqb].
      erewrite bind_ok; [reflexivity|].
      erewrite bind_ok; [reflexivity|].
      by apply pool_query_ok.
    + exact Erel.
    + simpl. change (Db.arg 0 [?x]) with x. rewrite Eb. reflexivity.
    + done.
    + simpl. by rewrite <- !app_assoc.
  - eexists _, _. split_and!.
    + erewrite try_ok; [reflexivity|].
      erewrite bind_ok; [|by apply pool_query_ok].
      rewrite relacionInfo_aplicativo, strict_eq_count, Ees.
      erewrite bind_ok; [|by apply pool_query_ok].
      fold w1. rewrite Ecount. cbn [Nat.eqb].
      erewrite bind_ok; [reflexivity|]. reflexivity.
    + exact Erel.
    + exact Ebase.
    + done.
    + simpl. by rewrite <- !app_assoc.
Qed.

End Aplicativo.


(** *** eliminarNota *)

Lemma truthy_or a b : Js.truthy (Js.or a b) = Js.truthy a || Js.truthy b.
Proof. unfold Js.or. by destruct (Js.truthy a) eqn:E. Qed.

Lemma truthy_and a b : Js.truthy (Notas.and a b) = Js.truthy a && Js.truthy b.
Proof. unfold Notas.and. by destruct (Js.truthy a) eqn:E. Qed.

Lemma truthy_not a : Js.truthy (Notas.not a) = negb (Js.truthy a).
Proof. unfold Notas.not, Js.truthy. simpl. by rewrite negb_involutive. Qed.

Section Nota.
Variables (w : world) (i : string) (r : Db.relacion) (b : Db.plantilla_base).
Let rels := Db.notas_despacho_rel (db w).
Let bases := Db.plantillas_base (db w).
Hypothesis id_given : i ≠ "".
Hypothesis rels_key : key Db.r_id rels.
Hypothesis bases_key : key Db.pb_id bases.
Hypothesis r_in : In r rels.
Hypothesis r_is_i : Db.r_id r = Some i.
Hypothesis b_in : In b bases.
Hypothesis r_to_b : Db.r_base_id r = Db.pb_id b.
Hypothesis select_ok : next_fault w = false.
Hypothesis delete_ok : hd false (tl (faults w)) = false.

(** Is the template taken for a personal one? *)
Definition es_personalizada : bool :=
  (length (referencias (Db.pb_id b) rels) <=? 1) || pura b.

Definition info_nota : record :=
  [("relacion_id", LoginFacts.leido (Db.r_id r));
   ("plantilla_id", LoginFacts.leido (Db.r_base_id r));
   ("novedad", LoginFacts.leido (Db.pb_novedad b));
   ("nota_publica", LoginFacts.leido (Db.pb_nota_publica b));
   ("nota_interna", LoginFacts.leido (Db.pb_nota_interna b));
   ("nota_avances", LoginFacts.leido (Db.pb_nota_avances b));
   ("plantilla", LoginFacts.leido (Db.pb_plantilla b));
   ("total_usuarios_con_esta_plantilla",
    js_of_cell (cfg w) (Db.CInt8 (length (referencias (Db.pb_id b) rels))))].

Lemma relacionInfo_nota :
  rows (answer Db.SelRelacionInfoNota [Js.Str i] w) = [info_nota].
Proof.
  unfold answer. simpl. change (Db.arg 0 [Some i]) with (Some i).
  rewrite <- r_is_i. fold rels bases.
  destruct (relacion_info_one Db.pb_id
              (λ r b, (Db.r_id r, Db.r_base_id r, Db.pb_novedad b,
                       Db.pb_nota_publica b, Db.pb_nota_interna b,
                       Db.pb_nota_avances b, Db.pb_plantilla b))
              rels bases r b) as [-> _]; try done.
  simpl. unfold info_nota. by rewrite !LoginFacts.leido_cell.
Qed.

Lemma truthy_personalizada :
  Js.truthy (Notas.esPlantillaPersonalizada info_nota) = es_personalizada.
Proof.
  unfold Notas.esPlantillaPersonalizada, Notas.esNotaAvancesPura, es_personalizada, pura.
  rewrite truthy_or, !truthy_and, !truthy_not.
  change (field info_nota "nota_avances") with (LoginFacts.leido (Db.pb_nota_avances b)).
  change (field info_nota "nota_publica") with (LoginFacts.leido (Db.pb_nota_publica b)).
  change (field info_nota "nota_interna") with (LoginFacts.leido (Db.pb_nota_interna b)).
  change (field info_nota "plantilla") with (LoginFacts.leido (Db.pb_plantilla b)).
  rewrite !truthy_opt_trim. f_equal.
  change (field info_nota "total_usuarios_con_esta_plantilla")
    with (js_of_cell (cfg w) (Db.CInt8 (length (referencias (Db.pb_id b) rels)))).
  unfold Js.le_num. rewrite count_to_number. unfold Js.truthy. simpl.
  rewrite negb_involutive.
  destruct (_ <=? 1) eqn:E.
  - apply Nat.leb_le in E. apply Z.leb_le. lia.
  - apply Nat.leb_gt in E. apply Z.leb_gt. lia.
Qed.

Variable req : request.
Hypothesis req_id : field (params req) "id" = Js.Str i.

Lemma eliminarNota_run :
  ∃ res w',
    Notas.eliminarNota req w = (Ok res, w')
    ∧ Db.notas_despacho_rel (db w')
      = List.filter (λ x, negb (Db.sql_eq (Db.r_id x) (Some i))) rels
    ∧ Db.plantillas_base (db w')
      = (if es_personalizada && negb (tercera_falla w)
         then List.filter (λ x, negb (Db.sql_eq (Db.pb_id x) (Db.pb_id b))) bases
         else bases)
    ∧ status res = (if es_personalizada && tercera_falla w then 500 else 200)
    ∧ sql_log w'
      = (sql_log w
         ++ [Query (Db.text Db.SelRelacionInfoNota) [Js.Str i];
             Query (Db.text Db.DelNotaRel) [Js.Str i]]
         ++ (if es_personalizada
             then [Query (Db.text Db.DelPlantillaBase)
                         [LoginFacts.leido (Db.r_base_id r)]]
             else []))%list.
Proof.
  unfold Notas.eliminarNota. rewrite req_id.
  assert (Js.falsy (Js.Str i) = false) as -> by (by apply bool_decide_eq_false).
  set (w1 := ran Db.SelRelacionInfoNota [Js.Str i] w).
  set (w2 := ran Db.DelNotaRel [Js.Str i] w1).
  assert (rowCount (answer Db.DelNotaRel [Js.Str i] w1) = 1) as Ecount.
  { unfold answer. simpl. change (Db.arg 0 [Some i]) with (Some i).
    rewrite <- r_is_i. fold rels. by rewrite (filter_key Db.r_id rels r). }
  assert (Db.notas_despacho_rel (db w2)
          = List.filter (λ x, negb (Db.sql_eq (Db.r_id x) (Some i))) rels) as Erel
    by done.
  assert (Db.plantillas_base (db w2) = bases) as Ebase by done.
  assert (bind_value (field info_nota "plantilla_id") = Db.pb_id b) as Eb.
  { unfold field, info_nota. simpl. rewrite r_to_b.
    destruct bases_key as [_ Hs]. rewrite Forall_forall in Hs.
    by destruct (Hs b b_in) as [x ->]. }
  destruct es_personalizada eqn:Ees; [destruct (tercera_falla w) eqn:E3|].
  - eexists _, _. split_and!.
    + erewrite try_throw; [reflexivity|].
      erewrite bind_ok; [|by apply pool_query_ok].
      rewrite relacionInfo_nota.
      erewrite bind_ok; [|by apply pool_query_ok].
      fold w1. rewrite Ecount, truthy_personalizada, Ees. cbn [Nat.eqb].
      erewrite bind_throw; [reflexivity|].
      erewrite bind_throw; [reflexivity|].
      by apply pool_query_fail.
    + exact Erel.
    + exact Ebase.
    + done.
    + simpl. by rewrite <- !app_assoc.
  - eexists _, _. split_and!.
    + erewrite try_ok; [reflexivity|].
      erewrite bind_ok; [|by apply pool_query_ok].
      rewrite relacionInfo_nota.
      erewrite bind_ok; [|by apply pool_query_ok].
      fold w1. rewrite Ecount, truthy_personalizada, Ees. cbn [Nat.eqb].
      erewrite bind_ok; [reflexivity|].
      erewrite bind_ok; [reflexivity|].
      by apply pool_query_ok.
    + exact Erel.
    + simpl. change (Db.arg 0 [?x]) with x. rewrite Eb. reflexivity.
    + done.
    + simpl. by rewrite <- !app_assoc.
  - eexists _, _. split_and!.
    + erewrite try_ok; [reflexivity|].
      erewrite bind_ok; [|by apply pool_query_ok].
      rewrite relacionInfo_nota.
      erewrite bind_ok; [|by apply pool_query_ok].
      fold w1. rewrite Ecount, truthy_personalizada, Ees. cbn [Nat.eqb].
      erewrite bind_ok; [reflexivity|]. reflexivity.
    + exact Erel.
    + exact Ebase.
    + done.
    + simpl. by rewrite <- !app_assoc.
Qed.

End Nota.


Lemma referencias_positive bid rels r :
  In r rels → Db.r_base_id r = bid → is_Some bid → 0 < length (referencias bid rels).
Proof.
  intros Hin E Hs.
  assert (In r (referencias bid rels)) as Hr
    by (apply filter_In; split; [done | rewrite E; by apply sql_eq_refl]).
  destruct (referencias bid rels); [done | simpl; lia].
Qed.

Lemma key_some {A} (col : A → Db.sql_value) t x : key col t → In x t → is_Some (col x).
Proof. intros [_ Hs] Hx. rewrite Forall_forall in Hs. by apply Hs. Qed.

Lemma deleted_row_gone {A} (col : A → Db.sql_value) t x :
  is_Some (col x) →
  ¬ In x (List.filter (λ y, negb (Db.sql_eq (col y) (col x))) t).
Proof.
  intros Hs Hin. apply filter_In in Hin as [_ Hin].
  by rewrite sql_eq_refl in Hin.
Qed.

(** C1, as the code has it.  When no statement fails:
    eliminarAplicativo, with a pool that delivers COUNT as a number,
    deletes the relation row and deletes the aplicativos_base row exactly
    when that relation was the last reference to it, leaving the base
    table unchanged otherwise; eliminarNota deletes the relation row and
    deletes the plantillas_base row exactly when that relation was the
    last reference or the template holds nothing but a note of progress,
    also when other relation rows still reference it, leaving the base
    table unchanged otherwise. *)
Theorem base_row_cleanup :
  (∀ w i r b req,
     i ≠ "" →
     key Db.r_id (Db.aplicativos_rel (db w)) →
     key Db.ab_id (Db.aplicativos_base (db w)) →
     In r (Db.aplicativos_rel (db w)) → Db.r_id r = Some i →
     In b (Db.aplicativos_base (db w)) → Db.r_base_id r = Db.ab_id b →
     faults w = [] → int8_as_number (cfg w) = true →
     field (params req) "id" = Js.Str i →
     ∃ res w',
       Aplicativos.eliminarAplicativo req w = (Ok res, w') ∧ status res = 200
       ∧ Db.aplicativos_rel (db w')
         = List.filter (λ x, negb (Db.sql_eq (Db.r_id x) (Some i)))
                       (Db.aplicativos_rel (db w))
       ∧ (ultima r (Db.aplicativos_rel (db w)) →
          ¬ In b (Db.aplicativos_base (db w'))
          ∧ Db.aplicativos_base (db w')
            = List.filter (λ x, negb (Db.sql_eq (Db.ab_id x) (Db.ab_id b)))
                          (Db.aplicativos_base (db w)))
       ∧ (¬ ultima r (Db.aplicativos_rel (db w)) →
          Db.aplicativos_base (db w') = Db.aplicativos_base (db w))) ∧
  (∀ w i r b req,
     i ≠ "" →
     key Db.r_id (Db.notas_despacho_rel (db w)) →
     key Db.pb_id (Db.plantillas_base (db w)) →
     In r (Db.notas_despacho_rel (db w)) → Db.r_id r = Some i →
     In b (Db.plantillas_base (db w)) → Db.r_base_id r = Db.pb_id b →
     faults w = [] →
     field (params req) "id" = Js.Str i →
     ∃ res w',
       Notas.eliminarNota req w = (Ok res, w') ∧ status res = 200
       ∧ Db.notas_despacho_rel (db w')
         = List.filter (λ x, negb (Db.sql_eq (Db.r_id x) (Some i)))
                       (Db.notas_despacho_rel (db w))
       ∧ (ultima r (Db.notas_despacho_rel (db w)) ∨ pura b = true →
          ¬ In b (Db.plantillas_base (db w'))
          ∧ Db.plantillas_base (db w')
            = List.filter (λ x, negb (Db.sql_eq (Db.pb_id x) (Db.pb_id b)))
                          (Db.plantillas_base (db w)))
       ∧ (¬ ultima r (Db.notas_despacho_rel (db w)) ∧ pura b = false →
          Db.plantillas_base (db w') = Db.plantillas_base (db w))).
Proof.
  split.
  - intros w i r b req Hi Hr Hb Hin Hid Hib Hrb Hf Hdrv Hreq.
    destruct (eliminarAplicativo_run w i r b Hi Hr Hb Hin Hid Hib Hrb)
      with (req := req) as (res & w' & E & Erel & Ebase & Est & _);
      [by apply faults_nil_next | by rewrite Hf | done |].
    assert (tercera_falla w = false) as E3 by (unfold tercera_falla; by rewrite Hf).
    rewrite E3, andb_false_r in Est. rewrite E3, andb_true_r in Ebase.
    unfold es_personalizado in Ebase. rewrite Hdrv in Ebase. simpl in Ebase.
    pose proof (key_some _ _ _ Hb Hib) as Hsb.
    assert (length (referencias (Db.ab_id b) (Db.aplicativos_rel (db w))) = 1
            ↔ ultima r (Db.aplicativos_rel (db w))) as Hu
      by (rewrite <- Hrb; apply ultima_count; try done; by rewrite Hrb).
    exists res, w'. split_and!; try done.
    + intros Hul. apply Hu, Nat.eqb_eq in Hul. rewrite Hul in Ebase.
      split; [|done]. rewrite Ebase. by apply deleted_row_gone.
    + intros Hnu. destruct (_ =? 1) eqn:En; [|done].
      apply Nat.eqb_eq, Hu in En. done.
  - intros w i r b req Hi Hr Hb Hin Hid Hib Hrb Hf Hreq.
    destruct (eliminarNota_run w i r b Hi Hr Hb Hin Hid Hib Hrb)
      with (req := req) as (res & w' & E & Erel & Ebase & Est & _);
      [by apply faults_nil_next | by rewrite Hf | done |].
    assert (tercera_falla w = false) as E3 by (unfold tercera_falla; by rewrite Hf).
    rewrite E3, andb_false_r in Est. rewrite E3, andb_true_r in Ebase.
    unfold es_personalizada in Ebase.
    pose proof (key_some _ _ _ Hb Hib) as Hsb.
    pose proof (referencias_positive _ _ _ Hin Hrb Hsb) as Hpos.
    assert (length (referencias (Db.pb_id b) (Db.notas_despacho_rel (db w))) = 1
            ↔ ultima r (Db.notas_despacho_rel (db w))) as Hu
      by (rewrite <- Hrb; apply ultima_count; try done; by rewrite Hrb).
    exists res, w'. split_and!; try done.
    + intros Hul.
      assert ((length (referencias (Db.pb_id b) (Db.notas_despacho_rel (db w))) <=? 1)
              || pura b = true) as Hes.
      { destruct Hul as [Hul| ->]; [|by rewrite orb_true_r].
        apply Hu in Hul. rewrite Hul. done. }
      rewrite Hes in Ebase. split; [|done]. rewrite Ebase.
      by apply deleted_row_gone.
    + intros [Hnu Hp]. rewrite Hp, orb_false_r in Ebase.
      destruct (_ <=? 1) eqn:En; [|done].
      apply Nat.leb_le in En. destruct Hnu. apply Hu. lia.
Qed.


(** C1 as worded fails for eliminarNota: seguimiento holds only a note
    of progress and is used by two users; deleting the first user's
    relation deletes the template although the relation n2 of the second
    user still references it. *)
Lemma eliminarNota_deletes_shared_template :
  status <$> answered (Notas.eliminarNota (Sample.con_id "n1")
                         (Sample.start Sample.conf Sample.compartido [])) = Some 200
  ∧ Db.plantillas_base Sample.compartido = [Sample.seguimiento]
  ∧ Db.notas_despacho_rel
      (db (after (Notas.eliminarNota (Sample.con_id "n1")
                    (Sample.start Sample.conf Sample.compartido []))))
    = [Sample.enlace "n2" "u2" "p1" 3]
  ∧ Db.plantillas_base
      (db (after (Notas.eliminarNota (Sample.con_id "n1")
                    (Sample.start Sample.conf Sample.compartido []))))
    = [].
Proof. vm_compute. by repeat split. Qed.

(** The shared aplicativo stays, the personal one goes. *)
Example eliminarAplicativo_samples :
  Db.aplicativos_base
    (db (after (Aplicativos.eliminarAplicativo (Sample.con_id "r1")
                  (Sample.start Sample.conf Sample.compartido []))))
  = [Sample.gmail]
  ∧ Db.aplicativos_base
      (db (after (Aplicativos.eliminarAplicativo (Sample.con_id "r1")
                    (Sample.start Sample.conf Sample.propio []))))
    = [].
Proof. vm_compute. by repeat split. Qed.

(** With the count delivered as text, as node-postgres does when the
    pool is not told otherwise, the strict comparison with the number 1
    is never true and the personal base row stays behind. *)
Lemma eliminarAplicativo_text_count :
  status <$> answered (Aplicativos.eliminarAplicativo (Sample.con_id "r1")
                         (Sample.start Sample.conf_text Sample.propio [])) = Some 200
  ∧ Db.aplicativos_rel
      (db (after (Aplicativos.eliminarAplicativo (Sample.con_id "r1")
                    (Sample.start Sample.conf_text Sample.propio []))))
    = []
  ∧ Db.aplicativos_base
      (db (after (Aplicativos.eliminarAplicativo (Sample.con_id "r1")
                    (Sample.start Sample.conf_text Sample.propio []))))
    = [Sample.gmail].
Proof. vm_compute. by repeat split. Qed.


(** The public note of this template is one no-break space, which
    [trim()] strips: the template counts as a pure note of progress and
    is deleted although a second user still references it. *)
Example eliminarNota_trims_no_break_space :
  pura Sample.casi_pura = true
  ∧ status <$> answered (Notas.eliminarNota (Sample.con_id "n1")
                           (Sample.start Sample.conf Sample.casi_pura_compartida []))
    = Some 200
  ∧ Db.notas_despacho_rel
      (db (after (Notas.eliminarNota (Sample.con_id "n1")
                    (Sample.start Sample.conf Sample.casi_pura_compartida []))))
    = [Sample.enlace "n2" "u2" "p1" 3]
  ∧ Db.plantillas_base
      (db (after (Notas.eliminarNota (Sample.con_id "n1")
                    (Sample.start Sample.conf Sample.casi_pura_compartida []))))
    = [].
Proof. vm_compute. by repeat split. Qed.

End BorradoFacts.

(** ** One relation row for each user and base row *)

Module ParFacts.
Import Steps DbFacts.

(** The pair a relation row links. *)
Definition par (r : Db.relacion) : Db.sql_value * Db.sql_value :=
  (Db.r_usuario_id r, Db.r_base_id r).

(** No pair of user and base row is linked twice. *)
Definition una_por_par (rels : list Db.relacion) : Prop := List.NoDup (map par rels).

Lemma truthy_binds v : Js.falsy v = false → is_Some (bind_value v).
Proof. destruct v; simpl; try done; intros _; by eexists. Qed.

Lemma NoDup_snoc {A} (l : list A) x :
  List.NoDup l → ¬ In x l → List.NoDup (l ++ [x]).
Proof.
  induction l as [|y l IH]; simpl; intros Hn Hx.
  - constructor; [by intros []|constructor].
  - apply List.NoDup_cons_iff in Hn as [Hy Hn]. constructor.
    + rewrite in_app_iff. intros [H|[H|[]]]; [done|]. apply Hx. by left.
    + apply IH; [done|]. intros H. apply Hx. by right.
Qed.

(** A pair for which the duplicate check finds nothing is new. *)
Lemma par_nuevo rels u b id now :
  is_Some u → is_Some b →
  List.filter (λ r, Db.sql_eq (Db.r_usuario_id r) u && Db.sql_eq (Db.r_base_id r) b)
              rels = [] →
  una_por_par rels → una_por_par (rels ++ [Db.Relacion id u b now]).
Proof.
  intros Hu Hb Hf Hn. unfold una_por_par. rewrite map_app. simpl.
  apply NoDup_snoc; [done|].
  intros Hp. apply in_map_iff in Hp as (r & Er & Hr).
  assert (In r []) as []. rewrite <- Hf. apply filter_In. split; [done|].
  injection Er as -> ->. by rewrite !sql_eq_refl.
Qed.

Lemma filter_rows_nil {A B} (f : A → B) (l : list A) :
  (0 <? length (map f l)) = false → l = [].
Proof. by destruct l. Qed.

(** asignarAplicativo never links a pair a second time, whatever fails. *)
Lemma asignarAplicativo_una_por_par req w :
  una_por_par (Db.aplicativos_rel (db w)) →
  una_por_par (Db.aplicativos_rel (db (after (Aplicativos.asignarAplicativo req w)))).
Proof.
  intros Hn. unfold after, Aplicativos.asignarAplicativo.
  destruct (Js.falsy (field (body req) "usuario_id")) eqn:Eu; [done|].
  destruct (Js.falsy (field (body req) "aplicativo_base_id")) eqn:Eb; [done|].
  cbn [orb]. unfold try_catch, mbind, M_bind.
  AvanceFacts.query; [|done].
  destruct (length _ =? 0); [done|].
  AvanceFacts.query; [|done].
  destruct (length _ =? 0); [done|].
  AvanceFacts.query; [|done].
  destruct (0 <? length _) eqn:El; [done|].
  unfold answer in El. simpl in El. rewrite length_map in El.
  unfold uuidv4 at 1.
  AvanceFacts.query; [|done]. simpl.
  apply par_nuevo; try done; try by apply truthy_binds.
  by destruct (List.filter _ _).
Qed.

(** asignarNota never links a pair a second time, whatever fails. *)
Lemma asignarNota_una_por_par req w :
  una_por_par (Db.notas_despacho_rel (db w)) →
  una_por_par (Db.notas_despacho_rel (db (after (Notas.asignarNota req w)))).
Proof.
  intros Hn. unfold after, Notas.asignarNota.
  destruct (Js.falsy (field (body req) "usuario_id")) eqn:Eu; [done|].
  destruct (Js.falsy (field (body req) "plantilla_id")) eqn:Eb; [done|].
  cbn [orb]. unfold try_catch, mbind, M_bind, promise_all.
  AvanceFacts.query; (AvanceFacts.query; (AvanceFacts.query; [|done]); try done);
    try done.
  destruct (length _ =? 0); [done|].
  destruct (length _ =? 0); [done|].
  destruct (0 <? length _) eqn:El; [done|].
  unfold answer in El. simpl in El. rewrite length_map in El.
  unfold uuidv4 at 1.
  AvanceFacts.query; [|done]. simpl.
  apply par_nuevo; try done; try by apply truthy_binds.
  by destruct (List.filter _ _).
Qed.

(** C2 fails on the maintenance route.  Ana already has gmail and
    seguimiento, each linked once; an authenticated call of
    asignar-contenido-defecto for her answers 200 and links both a second
    time. *)
Lemma asignarContenidoDefecto_duplicates :
  una_por_par (Db.aplicativos_rel Sample.propio)
  ∧ una_por_par (Db.notas_despacho_rel Sample.propio)
  ∧ status <$> answered (@Auth.ruta_asignar_contenido_defecto Sample.toy_jwt
                           Sample.contenido_para_ana
                           (Sample.start Sample.conf Sample.propio [])) = Some 200
  ∧ map par (Db.aplicativos_rel
               (db (after (@Auth.ruta_asignar_contenido_defecto Sample.toy_jwt
                             Sample.contenido_para_ana
                             (Sample.start Sample.conf Sample.propio [])))))
    = [(Some "u1", Some "a1"); (Some "u1", Some "a1")]
  ∧ map par (Db.notas_despacho_rel
               (db (after (@Auth.ruta_asignar_contenido_defecto Sample.toy_jwt
                             Sample.contenido_para_ana
                             (Sample.start Sample.conf Sample.propio [])))))
    = [(Some "u1", Some "p1"); (Some "u1", Some "p1")].
Proof.
  split_and!.
  - unfold una_por_par. simpl. constructor; [by intros []|constructor].
  - unfold una_por_par. simpl. constructor; [by intros []|constructor].
  - by vm_compute.
  - by vm_compute.
  - by vm_compute.
Qed.

End ParFacts.

(** ** The texts sent to the database *)

Module SqlFacts.
Import Steps.

(** The text of [q] is one of the statements [S]. *)
Definition de (S : list Db.stmt) (q : query) : Prop :=
  ∃ s, In s S ∧ q_text q = Db.text s.

(** Whatever [m] sends to the pool is among the statements [S]. *)
Definition emits {A} (S : list Db.stmt) (m : M A) : Prop :=
  ∀ w, ∃ l, sql_log (snd (m w)) = (sql_log w ++ l)%list ∧ Forall (de S) l.

Lemma emits_silent {A} S (m : M A) :
  (∀ w, sql_log (snd (m w)) = sql_log w) → emits S m.
Proof. intros H w. exists []. by rewrite app_nil_r. Qed.

Lemma emits_ret {A} S (a : A) : emits S (mret a).
Proof. by apply emits_silent. Qed.

Lemma emits_respond S n o : emits S (respond n o).
Proof. by apply emits_silent. Qed.

Lemma emits_throw {A} S e : emits S (@throw A e).
Proof. by apply emits_silent. Qed.

Lemma emits_uuid S : emits S uuidv4.
Proof. by apply emits_silent. Qed.

Lemma emits_first_row S r : emits S (first_row r).
Proof. unfold first_row. destruct (rows r); [apply emits_throw | apply emits_ret]. Qed.

Lemma emits_query S s values : In s S → emits S (pool_query s values).
Proof.
  intros Hs w. exists [Query (Db.text s) values]. split.
  - by destruct (pool_query_cases s values w) as [-> | ->].
  - constructor; [by exists s | constructor].
Qed.

Lemma emits_bind {A B} S (m : M A) (f : A → M B) :
  emits S m → (∀ a, emits S (f a)) → emits S (m ≫= f).
Proof.
  intros Hm Hf w. unfold mbind, M_bind. destruct (Hm w) as (l1 & E1 & H1).
  destruct (m w) as [[a|e] w1]; simpl in *; [|by exists l1].
  destruct (Hf a w1) as (l2 & E2 & H2). exists (l1 ++ l2)%list.
  split; [by rewrite E2, E1, app_assoc | by apply Forall_app].
Qed.

Lemma emits_try {A} S (m : M A) (h : error → M A) :
  emits S m → (∀ e, emits S (h e)) → emits S (try_catch m h).
Proof.
  intros Hm Hh w. unfold try_catch. destruct (Hm w) as (l1 & E1 & H1).
  destruct (m w) as [[a|e] w1]; simpl in *; [by exists l1|].
  destruct (Hh e w1) as (l2 & E2 & H2). exists (l1 ++ l2)%list.
  split; [by rewrite E2, E1, app_assoc | by apply Forall_app].
Qed.

Lemma emits_for_each {A} S (l : list A) (f : A → M unit) :
  (∀ x, emits S (f x)) → emits S (for_each l f).
Proof.
  intros Hf. induction l as [|x l IH]; simpl; [apply emits_ret|].
  apply emits_bind; [apply Hf | by intros _].
Qed.

Lemma emits_promise_all {A} S (ms : list (M A)) :
  Forall (emits S) ms → emits S (promise_all ms).
Proof.
  induction 1 as [|m ms Hm Hms IH]; intros w; simpl.
  - exists []. by rewrite app_nil_r.
  - destruct (Hm w) as (l1 & E1 & H1).
    destruct (m w) as [[a|e] w1]; simpl in *;
      destruct (IH w1) as (l2 & E2 & H2);
      exists (l1 ++ l2)%list;
      (split; [|by apply Forall_app]).
    + destruct (promise_all ms w1) as [[l|e] w2]; simpl in *;
        by rewrite E2, E1, app_assoc.
    + by rewrite E2, E1, app_assoc.
Qed.

Lemma emits_weaken {A} S S' (m : M A) :
  (∀ s, In s S → In s S') → emits S m → emits S' m.
Proof.
  intros Hs Hm w. destruct (Hm w) as (l & E & H). exists l. split; [done|].
  eapply Forall_impl; [|exact H]. intros q (s & Hin & Eq). exists s. auto.
Qed.

Create HintDb emits.

#[local] Hint Resolve emits_ret emits_respond emits_throw emits_uuid
  emits_first_row : emits.

Ltac emits_steps :=
  repeat first
    [ apply emits_try; [|intros ?]
    | apply emits_bind; [|intros ?]
    | apply emits_for_each; intros ?
    | apply emits_promise_all; repeat constructor
    | apply emits_query; simpl; tauto
    | match goal with |- emits _ (if ?b then _ else _) => destruct b end
    | match goal with |- emits _ (let '(_, _) := ?p in _) => destruct p end
    | match goal with |- emits _ (match ?x with _ => _ end) => destruct x end
    | solve [auto with emits] ].

Lemma emits_defecto_plantillas S usuario_id :
  (∀ s, In s Rutas.sentencias_defecto → In s S) →
  emits S (Auth.asignarPlantillasPorDefecto usuario_id).
Proof.
  intros HS. apply (emits_weaken Rutas.sentencias_defecto); [done|].
  unfold Auth.asignarPlantillasPorDefecto, Auth.crearPlantillasBasePorDefecto.
  emits_steps.
Qed.

Lemma emits_defecto_aplicativos S usuario_id :
  (∀ s, In s Rutas.sentencias_defecto → In s S) →
  emits S (Auth.asignarAplicativosPorDefecto usuario_id).
Proof.
  intros HS. apply (emits_weaken Rutas.sentencias_defecto); [done|].
  unfold Auth.asignarAplicativosPorDefecto, Auth.crearAplicativosBasePorDefecto.
  emits_steps.
Qed.

Section WithJwt.
Context `{!JwtLib}.

Lemma emits_sign S p : emits S (Auth.sign p).
Proof.
  apply emits_silent. intros w. unfold Auth.sign. by destruct (Js.falsy _).
Qed.

Lemma emits_protegida S handler req :
  (∀ req', emits S (handler req')) → emits S (Auth.protegida handler req).
Proof.
  intros Hh. unfold Auth.protegida. apply emits_bind.
  - apply emits_silent. intros w.
    by destruct (MiddlewareFacts.verificarToken_total req w) as (p & ->).
  - intros [r|req']; [apply emits_ret | apply Hh].
Qed.

(** Each handler sends only statements written in its body. *)
Lemma handler_emits ia h req : emits (Rutas.sentencias h) (Rutas.run ia h req).
Proof.
  destruct h; simpl.
  - unfold Aplicativos.obtenerAplicativos. emits_steps.
  - unfold Aplicativos.agregarAplicativo. emits_steps.
  - unfold Aplicativos.asignarAplicativo. emits_steps.
  - unfold Aplicativos.eliminarAplicativo. emits_steps.
  - unfold Aplicativos.obtenerAplicativosDisponibles. emits_steps.
  - unfold Auth.registrarUsuario.
    repeat first
      [ apply emits_defecto_plantillas; simpl; tauto
      | apply emits_defecto_aplicativos; simpl; tauto
      | apply emits_sign
      | apply emits_try; [|intros ?]
      | apply emits_bind; [|intros ?]
      | apply emits_query; simpl; tauto
      | match goal with |- emits _ (if ?b then _ else _) => destruct b end
      | solve [auto with emits] ].
  - unfold Auth.loginUsuario.
    repeat first [ apply emits_sign | progress emits_steps ].
  - apply emits_protegida. intros req'. unfold Auth.cambiarContrasena. emits_steps.
  - unfold Auth.recuperarContrasena. emits_steps.
  - apply emits_protegida. intros req'. unfold Auth.asignarContenidoDefecto.
    repeat first
      [ apply emits_defecto_plantillas; simpl; tauto
      | apply emits_defecto_aplicativos; simpl; tauto
      | apply emits_try; [|intros ?]
      | apply emits_bind; [|intros ?]
      | apply emits_query; simpl; tauto
      | match goal with |- emits _ (if ?b then _ else _) => destruct b end
      | solve [auto with emits] ].
  - unfold Notas.obtenerNotas. emits_steps.
  - unfold Notas.obtenerNotasAvances. emits_steps.
  - unfold Notas.agregarNota. emits_steps.
  - unfold Notas.asignarNota. emits_steps.
  - unfold Notas.modificarPlantilla. emits_steps.
  - unfold Notas.eliminarNota. emits_steps.
  - unfold Notas.limpiarNotaAvances. emits_steps.
  - unfold Notas.eliminarPlantillaAdicional. emits_steps.
  - unfold Notas.obtenerPlantillasDisponibles. emits_steps.
  - unfold Notas.limpiarPlantillasIncorrectas. emits_steps.
  - apply emits_silent. intros w. unfold Mail.enviarCorreo, try_catch.
    destruct (_ || _); [done|]. unfold mbind, M_bind, Mail.as_text. simpl.
    destruct (field (body req) "mensaje"); try done.
    unfold Mail.sendMail, fails_now. simpl. by destruct (next_fault _).
  - apply emits_silent. intros w. unfold Ai.mejorarTextoChatGPT.
    destruct (Js.falsy _); [done|]. unfold try_catch, mbind, M_bind.
    destruct (Js.strict_eq _ _); unfold Ai.generateContent, fails_now, next_fault;
      simpl; (destruct (hd false (faults w)); [done|]); by destruct (ai_answers w).
  - apply emits_silent. intros w. unfold Ai.extraerTextoImagen.
    destruct (_ || _); [done|]. unfold try_catch, mbind, M_bind.
    unfold Ai.generateContent, fails_now, next_fault; simpl.
    destruct (hd false (faults w)); [done|]. by destruct (ai_answers w).
Qed.

(** C6. For every handler and every two requests, in whatever state they
    arrive, each text sent to the database is one of the fixed statements
    written in the handler: the request decides which of them are sent
    and what values are bound, never what a text says. *)
Theorem sql_text_is_fixed (ia : Ai.loaded) (h : Rutas.handler)
    (req1 req2 : request) (w1 w2 : world) :
  ∃ l1 l2,
    sql_log (after (Rutas.run ia h req1 w1)) = (sql_log w1 ++ l1)%list
    ∧ sql_log (after (Rutas.run ia h req2 w2)) = (sql_log w2 ++ l2)%list
    ∧ ∀ q, In q (l1 ++ l2) → In (q_text q) (map Db.text (Rutas.sentencias h)).
Proof.
  destruct (handler_emits ia h req1 w1) as (l1 & E1 & H1).
  destruct (handler_emits ia h req2 w2) as (l2 & E2 & H2).
  exists l1, l2. split_and!; try done.
  intros q Hq. apply in_app_iff in Hq.
  rewrite Forall_forall in H1, H2.
  destruct Hq as [Hq|Hq]; [apply H1 in Hq | apply H2 in Hq];
    destruct Hq as (s & Hs & ->); by apply in_map.
Qed.

End WithJwt.
End SqlFacts.

(** ** Worked instances *)

Module Instancias.
Import DbFacts.

Lemma key_uno {A} (col : A → Db.sql_value) (x : A) : is_Some (col x) → key col [x].
Proof.
  intros Hs. split.
  - simpl. constructor; [by intros []|constructor].
  - by repeat constructor.
Defined.

Lemma key_dos {A} (col : A → Db.sql_value) (x y : A) :
  is_Some (col x) → is_Some (col y) → col x ≠ col y → key col [x; y].
Proof.
  intros Hx Hy Hne. split.
  - simpl. constructor; [intros [E|[]]; by apply Hne|].
    constructor; [by intros []|constructor].
  - by repeat constructor.
Defined.

Lemma ultima_uno (r : Db.relacion) : ultima r [r].
Proof. intros r2 [<-|[]] _. reflexivity. Defined.

(** Ana's only relation to gmail is deleted, and gmail with it; the same
    for her only relation to seguimiento.  A template that two users
    share and that holds a note of progress and, as public note, one
    no-break space is deleted with Ana's relation. *)
Lemma base_row_cleanup_witness :
  (∃ res w',
     Aplicativos.eliminarAplicativo (Sample.con_id "r1")
       (Sample.start Sample.conf Sample.propio []) = (Ok res, w')
     ∧ status res = 200 ∧ ¬ In Sample.gmail (Db.aplicativos_base (db w')))
  ∧ (∃ res w',
       Notas.eliminarNota (Sample.con_id "n1")
         (Sample.start Sample.conf Sample.propio []) = (Ok res, w')
       ∧ status res = 200 ∧ ¬ In Sample.seguimiento (Db.plantillas_base (db w')))
  ∧ (∃ res w',
       Notas.eliminarNota (Sample.con_id "n1")
         (Sample.start Sample.conf Sample.casi_pura_compartida []) = (Ok res, w')
       ∧ status res = 200
       ∧ Db.notas_despacho_rel (db w') = [Sample.enlace "n2" "u2" "p1" 3]
       ∧ Db.plantillas_base (db w') = []).
Proof.
  split_and!.
  - destruct (proj1 BorradoFacts.base_row_cleanup
                (Sample.start Sample.conf Sample.propio []) "r1"
                (Sample.enlace "r1" "u1" "a1" 0) Sample.gmail (Sample.con_id "r1"))
      as (res & w' & E & Es & _ & Hlast & _).
    + discriminate.
    + apply key_uno. by eexists.
    + apply key_uno. by eexists.
    + simpl. by left.
    + reflexivity.
    + simpl. by left.
    + reflexivity.
    + reflexivity.
    + reflexivity.
    + reflexivity.
    + exists res, w'. split; [exact E|]. split; [exact Es|].
      apply Hlast, ultima_uno.
  - destruct (proj2 BorradoFacts.base_row_cleanup
                (Sample.start Sample.conf Sample.propio []) "n1"
                (Sample.enlace "n1" "u1" "p1" 1) Sample.seguimiento
                (Sample.con_id "n1"))
      as (res & w' & E & Es & _ & Hlast & _).
    + discriminate.
    + apply key_uno. by eexists.
    + apply key_uno. by eexists.
    + simpl. by left.
    + reflexivity.
    + simpl. by left.
    + reflexivity.
    + reflexivity.
    + reflexivity.
    + exists res, w'. split; [exact E|]. split; [exact Es|].
      apply Hlast. left. apply ultima_uno.
  - destruct (proj2 BorradoFacts.base_row_cleanup
                (Sample.start Sample.conf Sample.casi_pura_compartida []) "n1"
                (Sample.enlace "n1" "u1" "p1" 1) Sample.casi_pura
                (Sample.con_id "n1"))
      as (res & w' & E & Es & Erel & Hlast & _).
    + discriminate.
    + apply key_dos; [by eexists | by eexists | discriminate].
    + apply key_uno. by eexists.
    + simpl. by left.
    + reflexivity.
    + simpl. by left.
    + reflexivity.
    + reflexivity.
    + reflexivity.
    + destruct (Hlast (or_intror eq_refl)) as [_ Eb].
      exists res, w'. split; [exact E|]. split; [exact Es|].
      rewrite Erel, Eb. by split.
Defined.


(** Ana logs in with her password; with another one she gets 401; when
    the SELECT fails she gets 500. *)
Lemma loginUsuario_credentials_witness :
  (∃ r w',
     @Auth.loginUsuario Sample.toy_jwt Sample.login_ana
       (Sample.start Sample.conf Sample.solo_ana []) = (Ok r, w')
     ∧ (status r = 200 ↔
        ∃ u, In u (Db.usuarios Sample.solo_ana)
             ∧ Db.sql_eq (Db.u_email u) (Some "ana@example.com") = true
             ∧ LoginFacts.leido (Db.u_contrasena u) = Js.Str "clave"))
  ∧ (∃ w',
       @Auth.loginUsuario Sample.toy_jwt Sample.login_ana
         (Sample.start Sample.conf Sample.solo_ana [true])
       = (Ok (Response 500 (mensaje "Error en el servidor")), w')).
Proof.
  split.
  - destruct (proj1 (@LoginFacts.loginUsuario_credentials Sample.toy_jwt
                       Sample.login_ana (Sample.start Sample.conf Sample.solo_ana []))
                eq_refl "s3cret" eq_refl)
      as (r & w' & E & _ & Huno).
    + discriminate.
    + exists r, w'. split; [exact E|]. apply Huno. simpl. lia.
  - apply (proj1 (proj2 (@LoginFacts.loginUsuario_credentials Sample.toy_jwt
                           Sample.login_ana
                           (Sample.start Sample.conf Sample.solo_ana [true])))).
    reflexivity.
Defined.

(** A valid bearer token passes, and cambiarContraseña then runs for the
    user of the token; an expired token is answered 401 and a forged one
    403. *)
Lemma verificarToken_gate_witness :
  (∃ req',
     @Auth.verificarToken Sample.toy_jwt (Sample.con_cabecera "Bearer valid")
       (Sample.start Sample.conf Sample.vacia [])
     = (Ok (Auth.Next req'), Sample.start Sample.conf Sample.vacia [])
     ∧ usuario req' = Some (Payload (Js.Str "u1") (Js.Str "ana@example.com"))
     ∧ @Auth.protegida Sample.toy_jwt Auth.cambiarContrasena
         (Sample.con_cabecera "Bearer valid") (Sample.start Sample.conf Sample.vacia [])
       = Auth.cambiarContrasena req' (Sample.start Sample.conf Sample.vacia []))
  ∧ (∃ o, @Auth.verificarToken Sample.toy_jwt (Sample.con_cabecera "bearer expired")
            (Sample.start Sample.conf Sample.vacia [])
          = (Ok (Auth.Answered (Response 401 o)), Sample.start Sample.conf Sample.vacia []))
  ∧ (∃ o, @Auth.verificarToken Sample.toy_jwt (Sample.con_cabecera "BEARER forged")
            (Sample.start Sample.conf Sample.vacia [])
          = (Ok (Auth.Answered (Response 403 o)), Sample.start Sample.conf Sample.vacia [])).
Proof.
  split_and!.
  - destruct (@MiddlewareFacts.verificarToken_gate Sample.toy_jwt
                Auth.cambiarContrasena (Sample.con_cabecera "Bearer valid")
                (Sample.start Sample.conf Sample.vacia []))
      as (_ & H & _).
    apply (H "Bearer valid" "Bearer" "valid" "s3cret"
             (Payload (Js.Str "u1") (Js.Str "ana@example.com")));
      try reflexivity; [by split | discriminate].
  - destruct (@MiddlewareFacts.verificarToken_gate Sample.toy_jwt
                Auth.cambiarContrasena (Sample.con_cabecera "bearer expired")
                (Sample.start Sample.conf Sample.vacia []))
      as (_ & _ & _ & _ & H & _).
    apply (H "bearer expired" "bearer" "expired" "s3cret"
             (Error "TokenExpiredError" "jwt expired"));
      try reflexivity; [by split | discriminate].
  - destruct (@MiddlewareFacts.verificarToken_gate Sample.toy_jwt
                Auth.cambiarContrasena (Sample.con_cabecera "BEARER forged")
                (Sample.start Sample.conf Sample.vacia []))
      as (_ & _ & _ & _ & H & _).
    apply (H "BEARER forged" "BEARER" "forged" "s3cret"
             (Error "JsonWebTokenError" "invalid signature"));
      try reflexivity; [by split | discriminate].
Defined.

Definition correo (texto : string) : request :=
  Sample.solicitud [("para", Js.Str "turno@example.com"); ("asunto", Js.Str "Cierre");
                    ("mensaje", Js.Str texto)].

(** A request without asunto is refused; a message with tags is sent as
    HTML with the tags stripped from the plain part; a message of two
    lines is sent with [<br>] between them; a number as mensaje is
    answered 500. *)
Lemma enviarCorreo_message_witness :
  (∃ o, Mail.enviarCorreo (Sample.solicitud [("para", Js.Str "turno@example.com")])
          (Sample.start Sample.conf Sample.vacia [])
        = (Ok (Response 400 o), Sample.start Sample.conf Sample.vacia []))
  ∧ (∃ r w' m,
       Mail.enviarCorreo (correo "<p>Cierre</p>")
         (Sample.start Sample.conf Sample.vacia []) = (Ok r, w')
       ∧ outbox w' = [m] ∧ m_html m = "<p>Cierre</p>" ∧ m_text m = "Cierre")
  ∧ (∃ r w' m,
       Mail.enviarCorreo (correo ("uno" +:+ String Text.line_feed "dos"))
         (Sample.start Sample.conf Sample.vacia []) = (Ok r, w')
       ∧ outbox w' = [m] ∧ m_html m = "uno<br>dos"
       ∧ m_text m = "uno" +:+ String Text.line_feed "dos")
  ∧ (∃ o, Mail.enviarCorreo
            (Sample.solicitud [("para", Js.Str "turno@example.com");
                               ("asunto", Js.Str "Cierre"); ("mensaje", Js.Num 5)])
            (Sample.start Sample.conf Sample.vacia [])
          = (Ok (Response 500 o), Sample.start Sample.conf Sample.vacia [])).
Proof.
  split_and!.
  - apply (proj1 (MailFacts.enviarCorreo_message
                    (Sample.solicitud [("para", Js.Str "turno@example.com")])
                    (Sample.start Sample.conf Sample.vacia []))).
    reflexivity.
  - destruct (proj1 (proj2 (MailFacts.enviarCorreo_message (correo "<p>Cierre</p>")
                              (Sample.start Sample.conf Sample.vacia [])))
                "<p>Cierre</p>" eq_refl eq_refl eq_refl)
      as (r & w' & m & E & Eo & _ & _ & _ & Hhtml & _).
    + discriminate.
    + destruct (Hhtml eq_refl) as (Eh & Et & _).
      exists r, w', m. split; [exact E|]. split; [exact Eo|]. split; [exact Eh|].
      rewrite Et. reflexivity.
  - destruct (proj1 (proj2 (MailFacts.enviarCorreo_message
                              (correo ("uno" +:+ String Text.line_feed "dos"))
                              (Sample.start Sample.conf Sample.vacia [])))
                ("uno" +:+ String Text.line_feed "dos") eq_refl eq_refl eq_refl)
      as (r & w' & m & E & Eo & _ & _ & _ & _ & Hplain).
    + discriminate.
    + destruct (Hplain eq_refl) as (Et & Eh & _).
      exists r, w', m. split; [exact E|]. split; [exact Eo|].
      split; [rewrite Eh; reflexivity | exact Et].
  - apply (proj2 (proj2 (MailFacts.enviarCorreo_message
                           (Sample.solicitud [("para", Js.Str "turno@example.com");
                                              ("asunto", Js.Str "Cierre");
                                              ("mensaje", Js.Num 5)])
                           (Sample.start Sample.conf Sample.vacia []))));
      try reflexivity.
    intros texto. discriminate.
Defined.

(** Luz registers although the default assignment fails at once. *)
Lemma registrarUsuario_survives_assignment_witness :
  ∃ o w',
    @Auth.registrarUsuario Sample.toy_jwt Sample.registro_luz
      (Sample.start Sample.conf Sample.solo_ana [false; false; true])
    = (Ok (Response 201 o), w')
    ∧ Db.usuarios (db w')
      = [Sample.ana;
         Db.Usuario (Some "uuid-0") (Some "Luz") (Some "luz@example.com") (Some "abc")].
Proof.
  destruct (proj1 (@RegistroFacts.registrarUsuario_survives_assignment Sample.toy_jwt
                     Sample.registro_luz
                     (Sample.start Sample.conf Sample.solo_ana [false; false; true]))
              eq_refl eq_refl eq_refl "s3cret" eq_refl)
    as (o & w' & E & _ & Eu).
  - discriminate.
  - exists o, w'. split; [exact E | exact Eu].
Defined.




(** Without the key the module does not load; with it, an empty request
    is answered 400. *)
Lemma aiController_needs_key_witness :
  (∃ e, Ai.load Sample.conf_sin_claves = Throw e)
  ∧ (∃ o, Ai.mejorarTextoChatGPT (Ai.Loaded "g-key") (Sample.solicitud [])
            (Sample.start Sample.conf Sample.vacia [])
          = (Ok (Response 400 o), Sample.start Sample.conf Sample.vacia [])).
Proof.
  split.
  - apply (proj1 (AiFacts.aiController_needs_key Sample.conf_sin_claves)).
    reflexivity.
  - destruct (proj2 (AiFacts.aiController_needs_key Sample.conf)
                (Ai.Loaded "g-key") eq_refl) as (_ & H).
    apply (proj1 (H (Sample.solicitud []) (Sample.start Sample.conf Sample.vacia []))).
    reflexivity.
Defined.

End Instancias.

(** ** Further properties of aplicativosController *)

Module AplicativosFacts.
Import Steps DbFacts.

(** asignarAplicativo answers 409 and leaves the tables as they are when
    the user, the base row and the relation all exist and no statement
    fails. *)
Theorem asignarAplicativo_conflict (req : request) (w : world) :
  let usuario_id := field (body req) "usuario_id" in
  let aplicativo_base_id := field (body req) "aplicativo_base_id" in
  Js.truthy usuario_id = true → Js.truthy aplicativo_base_id = true →
  faults w = [] →
  (∃ u, In u (Db.usuarios (db w))
        ∧ Db.sql_eq (Db.u_id u) (bind_value usuario_id) = true) →
  (∃ b, In b (Db.aplicativos_base (db w))
        ∧ Db.sql_eq (Db.ab_id b) (bind_value aplicativo_base_id) = true) →
  (∃ r, In r (Db.aplicativos_rel (db w))
        ∧ Db.sql_eq (Db.r_usuario_id r) (bind_value usuario_id) = true
        ∧ Db.sql_eq (Db.r_base_id r) (bind_value aplicativo_base_id) = true) →
  ∃ w', Aplicativos.asignarAplicativo req w
        = (Ok (Response 409 (mensaje "El aplicativo ya está agregado para este usuario")),
           w')
        ∧ db w' = db w.
Proof.
  intros usuario_id aplicativo_base_id Hu Hb Hf (u & Hui & Hue) (b & Hbi & Hbe)
    (r & Hri & Hr1 & Hr2).
  unfold Js.truthy in Hu, Hb. apply negb_true_iff in Hu, Hb.
  unfold Aplicativos.asignarAplicativo. fold usuario_id aplicativo_base_id.
  rewrite Hu, Hb. cbn [orb].
  eexists. split.
  - erewrite try_ok; [reflexivity|].
    erewrite bind_ok; [|by apply pool_query_ok, faults_nil_next].
    assert ((length (rows (answer Db.SelUsuarioPorId [usuario_id] w)) =? 0) = false) as ->.
    { unfold answer. simpl. rewrite !length_map. apply Nat.eqb_neq.
      assert (In u (List.filter (λ u, Db.sql_eq (Db.u_id u) (bind_value usuario_id))
                                (Db.usuarios (db w)))) as Hin by (by apply filter_In).
      by destruct (List.filter _ _). }
    erewrite bind_ok;
      [|apply pool_query_ok; unfold next_fault; simpl; by rewrite Hf].
    match goal with
    | |- context [length (rows ?a) =? 0] =>
        assert ((length (rows a) =? 0) = false) as ->
    end.
    { unfold answer. simpl. rewrite !length_map. apply Nat.eqb_neq.
      assert (In b (List.filter (λ b, Db.sql_eq (Db.ab_id b)
                                        (bind_value aplicativo_base_id))
                                (Db.aplicativos_base (db w)))) as Hin
        by (by apply filter_In).
      by destruct (List.filter _ _). }
    erewrite bind_ok;
      [|apply pool_query_ok; unfold next_fault; simpl; by rewrite Hf].
    match goal with
    | |- context [0 <? length (rows ?a)] =>
        assert ((0 <? length (rows a)) = true) as ->
    end.
    { unfold answer. simpl. rewrite !length_map. apply Nat.ltb_lt.
      assert (In r (List.filter
                      (λ r, Db.sql_eq (Db.r_usuario_id r) (bind_value usuario_id)
                            && Db.sql_eq (Db.r_base_id r) (bind_value aplicativo_base_id))
                      (Db.aplicativos_rel (db w)))) as Hin
        by (apply filter_In; by rewrite Hr1, Hr2).
      destruct (List.filter _ _); [done | simpl; lia]. }
    reflexivity.
  - simpl. by destruct (db w).
Qed.

(** The rows agregarAplicativo creates. *)
Definition base_creada (req : request) (w : world) : Db.aplicativo_base :=
  Db.AplicativoBase
    (Some ("uuid-" +:+ Js.decimal_nat (next_uuid w)))
    (bind_value (field (body req) "nombre"))
    (bind_value (Js.or (field (body req) "url") (Js.Str "")))
    (bind_value (Js.or (field (body req) "categoria") (Js.Str "Personalizado"))).

Definition relacion_creada (req : request) (w : world) : Db.relacion :=
  Db.Relacion
    (Some ("uuid-" +:+ Js.decimal_nat (S (next_uuid w))))
    (bind_value (field (body req) "usuario_id"))
    (Some ("uuid-" +:+ Js.decimal_nat (next_uuid w)))
    (S (S (clock w))).

Lemma usuario_encontrado usuario_id u w :
  In u (Db.usuarios (db w)) →
  Db.sql_eq (Db.u_id u) (bind_value usuario_id) = true →
  (length (rows (answer Db.SelUsuarioPorId [usuario_id] w)) =? 0) = false.
Proof.
  intros Hin He. unfold answer. simpl. rewrite !length_map. apply Nat.eqb_neq.
  assert (In u (List.filter (λ u, Db.sql_eq (Db.u_id u) (bind_value usuario_id))
                            (Db.usuarios (db w)))) as H by (by apply filter_In).
  by destruct (List.filter _ _).
Qed.

(** agregarAplicativo, for an existing user and with no failure, appends
    one base row, with an empty url and the category Personalizado where
    the request gives none, and one relation row that links the user to
    it; nothing else changes. *)
Theorem agregarAplicativo_creates (req : request) (w : world) :
  let usuario_id := field (body req) "usuario_id" in
  Js.truthy usuario_id = true → Js.truthy (field (body req) "nombre") = true →
  faults w = [] →
  (∃ u, In u (Db.usuarios (db w))
        ∧ Db.sql_eq (Db.u_id u) (bind_value usuario_id) = true) →
  ∃ o w',
    Aplicativos.agregarAplicativo req w = (Ok (Response 201 o), w')
    ∧ db w'
      = Db.Database (Db.usuarios (db w))
          (Db.aplicativos_base (db w) ++ [base_creada req w])
          (Db.aplicativos_rel (db w) ++ [relacion_creada req w])
          (Db.plantillas_base (db w)) (Db.notas_despacho_rel (db w)).
Proof.
  intros usuario_id Hu Hn Hf (u & Hui & Hue).
  unfold Js.truthy in Hu, Hn. apply negb_true_iff in Hu, Hn.
  unfold Aplicativos.agregarAplicativo. fold usuario_id. rewrite Hu, Hn. cbn [orb].
  eexists _, _. split.
  - erewrite try_ok; [reflexivity|].
    erewrite bind_ok; [|by apply pool_query_ok, faults_nil_next].
    rewrite (usuario_encontrado usuario_id u w) by done.
    erewrite bind_ok; [|reflexivity].
    erewrite bind_ok;
      [|apply pool_query_ok; unfold next_fault; simpl; by rewrite Hf].
    erewrite bind_ok; [|reflexivity].
    erewrite bind_ok;
      [|apply pool_query_ok; unfold next_fault; simpl; by rewrite Hf].
    reflexivity.
  - reflexivity.
Qed.

(** The two INSERTs of agregarAplicativo are not one unit: when the
    second fails, the answer is 500 and the new base row stays behind
    without any relation row. *)
Theorem agregarAplicativo_orphan (req : request) (w : world) :
  let usuario_id := field (body req) "usuario_id" in
  Js.truthy usuario_id = true → Js.truthy (field (body req) "nombre") = true →
  faults w = [false; false; true] →
  (∃ u, In u (Db.usuarios (db w))
        ∧ Db.sql_eq (Db.u_id u) (bind_value usuario_id) = true) →
  ∃ o w',
    Aplicativos.agregarAplicativo req w = (Ok (Response 500 o), w')
    ∧ Db.aplicativos_base (db w') = (Db.aplicativos_base (db w) ++ [base_creada req w])%list
    ∧ Db.aplicativos_rel (db w') = Db.aplicativos_rel (db w).
Proof.
  intros usuario_id Hu Hn Hf (u & Hui & Hue).
  unfold Js.truthy in Hu, Hn. apply negb_true_iff in Hu, Hn.
  unfold Aplicativos.agregarAplicativo. fold usuario_id. rewrite Hu, Hn. cbn [orb].
  eexists _, _. split_and!.
  - erewrite try_throw; [reflexivity|].
    erewrite bind_ok; [|apply pool_query_ok; unfold next_fault; by rewrite Hf].
    rewrite (usuario_encontrado usuario_id u w) by done.
    erewrite bind_ok; [|reflexivity].
    erewrite bind_ok;
      [|apply pool_query_ok; unfold next_fault; simpl; by rewrite Hf].
    erewrite bind_ok; [|reflexivity].
    erewrite bind_throw; [reflexivity|].
    apply pool_query_fail. unfold next_fault. simpl. by rewrite Hf.
  - reflexivity.
  - reflexivity.
Qed.

End AplicativosFacts.

(** ** Passwords and e-mail addresses *)

Module CuentaFacts.
Import Steps DbFacts.

(** What the UPDATE of the two password handlers does to a row. *)
Definition con_contrasena (email nueva : Db.sql_value) (u : Db.usuario) : Db.usuario :=
  if Db.sql_eq (Db.u_email u) email
  then Db.Usuario (Db.u_id u) (Db.u_nombre u) (Db.u_email u) nueva
  else u.

Lemma email_con_contrasena email nueva u :
  Db.u_email (con_contrasena email nueva u) = Db.u_email u.
Proof. unfold con_contrasena. by destruct (Db.sql_eq _ _). Qed.

Lemma filter_con_contrasena email nueva us :
  List.filter (λ u, Db.sql_eq (Db.u_email u) email) (map (con_contrasena email nueva) us)
  = map (con_contrasena email nueva)
        (List.filter (λ u, Db.sql_eq (Db.u_email u) email) us).
Proof.
  induction us as [|u us IH]; [done|].
  cbn [map List.filter]. rewrite email_con_contrasena.
  destruct (Db.sql_eq (Db.u_email u) email); cbn [map]; by rewrite IH.
Qed.

Section WithJwt.
Context `{!JwtLib}.

(** recuperarContraseña asks for no token and no current password:
    whoever names the e-mail of an existing user sets the password, and
    a login with the new password then succeeds. *)
Theorem recuperar_then_login (req entrada : request) (w : world)
    (e p secreto : string) :
  field (body req) "email" = Js.Str e → field (body req) "nueva" = Js.Str p →
  field (body entrada) "email" = Js.Str e →
  field (body entrada) "contraseña" = Js.Str p →
  faults w = [] →
  (∃ u, In u (Db.usuarios (db w)) ∧ Db.u_email u = Some e) →
  getenv (cfg w) "KEY" = Js.Str secreto → secreto ≠ "" →
  ∃ w1,
    Auth.recuperarContrasena req w
    = (Ok (Response 200 (mensaje "Contraseña cambiada correctamente")), w1)
    ∧ Db.usuarios (db w1) = map (con_contrasena (Some e) (Some p)) (Db.usuarios (db w))
    ∧ ∃ r w2, Auth.loginUsuario entrada w1 = (Ok r, w2) ∧ status r = 200.
Proof.
  intros Ee Ep Ee' Ep' Hf (u & Hin & Hu) Ek Hs.
  assert (In u (LoginFacts.candidatos (Js.Str e) w)) as Hc.
  { apply filter_In. split; [done|]. rewrite Hu. simpl.
    by apply bool_decide_eq_true. }
  set (w0 := ran Db.SelUsuarioPorEmail [Js.Str e] w).
  set (w1 := ran Db.UpdContrasena [Js.Str p; Js.Str e] w0).
  assert (Db.usuarios (db w1)
          = map (con_contrasena (Some e) (Some p)) (Db.usuarios (db w))) as Eus
    by done.
  exists w1. split_and!.
  - unfold Auth.recuperarContrasena. rewrite Ee, Ep.
    erewrite try_ok; [reflexivity|].
    erewrite bind_ok; [|by apply pool_query_ok, faults_nil_next].
    rewrite RegistroFacts.existe_rows.
    destruct (LoginFacts.candidatos (Js.Str e) w); [done|]. cbn [length Nat.eqb].
    erewrite bind_ok;
      [|apply pool_query_ok; unfold next_fault; simpl; by rewrite Hf].
    reflexivity.
  - exact Eus.
  - rewrite LoginFacts.loginUsuario_answer
      by (unfold next_fault; simpl; by rewrite Hf).
    rewrite Ee', Ep'.
    assert (LoginFacts.candidatos (Js.Str e) w1
            = map (con_contrasena (Some e) (Some p))
                  (LoginFacts.candidatos (Js.Str e) w)) as ->.
    { unfold LoginFacts.candidatos. rewrite Eus. apply filter_con_contrasena. }
    destruct (LoginFacts.candidatos (Js.Str e) w) as [|u0 us] eqn:Ec; [done|].
    assert (Db.sql_eq (Db.u_email u0) (Some e) = true) as E0.
    { assert (In u0 (LoginFacts.candidatos (Js.Str e) w)) as H0
        by (rewrite Ec; by left).
      by apply filter_In in H0 as [_ H0]. }
    simpl. unfold con_contrasena at 1. rewrite E0. simpl.
    unfold Js.strict_ne, Js.strict_eq. rewrite bool_decide_eq_true_2 by done.
    simpl. unfold try_catch, mbind, M_bind, Auth.sign. simpl. rewrite Ek. simpl.
    rewrite bool_decide_eq_false_2 by done. simpl. by eexists _, _.
Qed.

(** cambiarContraseña takes the e-mail from the token, not from the body.
    With the current password of the first row for that e-mail it sets
    the new password on every row with that e-mail and on no other;
    with another password, or with no such row, it answers 401 and
    changes nothing; without the middleware it throws. *)
Theorem cambiarContrasena_effect (req : request) (w : world) :
  let actual := field (body req) "actual" in
  let nueva := field (body req) "nueva" in
  (∀ tok u us,
     usuario req = Some tok → faults w = [] →
     LoginFacts.candidatos (p_email tok) w = u :: us →
     LoginFacts.leido (Db.u_contrasena u) = actual →
     ∃ w', Auth.cambiarContrasena req w
           = (Ok (Response 200 (mensaje "Contraseña actualizada correctamente")), w')
           ∧ Db.usuarios (db w')
             = map (con_contrasena (bind_value (p_email tok)) (bind_value nueva))
                   (Db.usuarios (db w))) ∧
  (∀ tok,
     usuario req = Some tok → next_fault w = false →
     (¬ ∃ u us, LoginFacts.candidatos (p_email tok) w = u :: us
                ∧ LoginFacts.leido (Db.u_contrasena u) = actual) →
     ∃ w', Auth.cambiarContrasena req w
           = (Ok (Response 401 (mensaje "Contraseña actual incorrecta")), w')
           ∧ db w' = db w) ∧
  (usuario req = None → Auth.cambiarContrasena req w = (Throw type_error, w)).
Proof.
  intros actual nueva. split_and!.
  - intros tok u us Et Hf Ec Hp. unfold Auth.cambiarContrasena. rewrite Et.
    fold actual nueva. eexists. split.
    + erewrite try_ok; [reflexivity|].
      erewrite bind_ok; [|by apply pool_query_ok, faults_nil_next].
      assert (rows (answer Db.SelContrasena [p_email tok] w)
              = map (λ u, [("contraseña", LoginFacts.leido (Db.u_contrasena u))])
                    (LoginFacts.candidatos (p_email tok) w)) as ->.
      { unfold answer, LoginFacts.candidatos. simpl. rewrite map_map.
        apply map_ext. intros x. simpl. by rewrite LoginFacts.leido_cell. }
      rewrite Ec. simpl.
      change (field [("contraseña", LoginFacts.leido (Db.u_contrasena u))] "contraseña")
        with (LoginFacts.leido (Db.u_contrasena u)).
      rewrite Hp. unfold Js.strict_ne, Js.strict_eq.
      rewrite bool_decide_eq_true_2 by done. simpl.
      erewrite bind_ok;
        [|apply pool_query_ok; unfold next_fault; simpl; by rewrite Hf].
      reflexivity.
    + reflexivity.
  - intros tok Et Hf Hno. unfold Auth.cambiarContrasena. rewrite Et.
    fold actual nueva. eexists. split.
    + erewrite try_ok; [reflexivity|].
      erewrite bind_ok; [|by apply pool_query_ok].
      assert (rows (answer Db.SelContrasena [p_email tok] w)
              = map (λ u, [("contraseña", LoginFacts.leido (Db.u_contrasena u))])
                    (LoginFacts.candidatos (p_email tok) w)) as ->.
      { unfold answer, LoginFacts.candidatos. simpl. rewrite map_map.
        apply map_ext. intros x. simpl. by rewrite LoginFacts.leido_cell. }
      destruct (LoginFacts.candidatos (p_email tok) w) as [|u us] eqn:Ec;
        [reflexivity|]. simpl.
      change (field [("contraseña", LoginFacts.leido (Db.u_contrasena u))] "contraseña")
        with (LoginFacts.leido (Db.u_contrasena u)).
      unfold Js.strict_ne, Js.strict_eq. case_bool_decide as Hp; [|reflexivity].
      destruct Hno. by exists u, us.
    + simpl. by destruct (db w).
  - intros En. unfold Auth.cambiarContrasena. by rewrite En.
Qed.

End WithJwt.

(** The e-mail addresses that are not NULL are pairwise different. *)
Definition emails_unicos (us : list Db.usuario) : Prop :=
  List.NoDup (omap Db.u_email us).

Lemma emails_sin e us :
  List.filter (λ u, Db.sql_eq (Db.u_email u) (Some e)) us = [] →
  ¬ In e (omap Db.u_email us).
Proof.
  induction us as [|u us IH]; simpl; [by intros _ []|].
  destruct (Db.sql_eq (Db.u_email u) (Some e)) eqn:E; [done|].
  intros Hf. destruct (Db.u_email u) as [e'|] eqn:Eu; simpl; [|by apply IH].
  intros [->|Hin]; [|by apply IH]. simpl in E.
  by rewrite bool_decide_eq_true_2 in E.
Qed.

(** With unique e-mail addresses a SELECT by e-mail returns at most one row. *)
Lemma emails_unicos_candidatos email w :
  emails_unicos (Db.usuarios (db w)) → length (LoginFacts.candidatos email w) ≤ 1.
Proof.
  unfold emails_unicos, LoginFacts.candidatos.
  induction (Db.usuarios (db w)) as [|u us IH]; simpl; [lia|].
  intros Hn. destruct (Db.sql_eq (Db.u_email u) (bind_value email)) eqn:E.
  - apply sql_eq_true in E as (e & Eu & Eb). rewrite Eu in Hn. simpl in Hn.
    apply List.NoDup_cons_iff in Hn as [Hnot Hn]. simpl.
    assert (List.filter (λ u, Db.sql_eq (Db.u_email u) (bind_value email)) us = [])
      as ->; [|simpl; lia].
    apply filter_none. intros y Hy. apply not_true_is_false.
    rewrite sql_eq_true. intros (e' & Ey & Eb'). apply Hnot.
    assert (e' = e) as -> by congruence.
    apply list_elem_of_In, list_elem_of_omap. exists y.
    split; [by apply list_elem_of_In | done].
  - apply IH. destruct (Db.u_email u); simpl in Hn; [|done].
    by apply List.NoDup_cons_iff in Hn as [_ Hn].
Qed.

Section WithJwt.
Context `{!JwtLib}.

Lemma sign_world p w : snd (Auth.sign p w) = w.
Proof. unfold Auth.sign. by destruct (Js.falsy _). Qed.

(** registrarUsuario keeps the e-mail addresses unique, whatever fails:
    its SELECT by e-mail stands in for a UNIQUE constraint. *)
Theorem registrarUsuario_emails_unicos (req : request) (w : world) :
  emails_unicos (Db.usuarios (db w)) →
  emails_unicos (Db.usuarios (db (after (Auth.registrarUsuario req w)))).
Proof.
  intros Hn. unfold after, Auth.registrarUsuario.
  set (email := field (body req) "email").
  destruct (pool_query_cases Db.SelUsuarioPorEmail [email] w) as [E0|E0].
  2:{ erewrite try_throw; [|erewrite bind_throw; [reflexivity|exact E0]]. done. }
  destruct (0 <? length (rows (answer Db.SelUsuarioPorEmail [email] w))) eqn:El.
  { erewrite try_ok; [|erewrite bind_ok; [|exact E0]; rewrite El; reflexivity].
    done. }
  assert (LoginFacts.candidatos email w = []) as Hc.
  { rewrite RegistroFacts.existe_rows in El.
    by destruct (LoginFacts.candidatos email w). }
  set (id := "uuid-" +:+ Js.decimal_nat (next_uuid w)).
  set (w1 := set_next_uuid (S (next_uuid w)) (ran Db.SelUsuarioPorEmail [email] w)).
  set (vals := [Js.Str id; field (body req) "nombre"; email;
                field (body req) "contraseña"]).
  destruct (pool_query_cases Db.InsUsuario vals w1) as [E1|E1].
  2:{ erewrite try_throw;
        [|erewrite bind_ok; [|exact E0]; rewrite El;
          erewrite bind_ok; [|reflexivity];
          erewrite bind_throw; [reflexivity|exact E1]].
      done. }
  destruct (RegistroFacts.swallowed
              (_ ← Auth.asignarPlantillasPorDefecto (Js.Str id);
               Auth.asignarAplicativosPorDefecto (Js.Str id))
              (ran Db.InsUsuario vals w1))
    as (w4 & Eb & Hu & Hcfg).
  { apply RegistroFacts.keeps_bind; [apply RegistroFacts.keeps_asignarPlantillas|].
    intros _. apply RegistroFacts.keeps_asignarAplicativos. }
  assert (emails_unicos (Db.usuarios (db w4))) as Hfin.
  { rewrite Hu. simpl. unfold emails_unicos. rewrite omap_app. simpl.
    change (Db.arg 2 _) with (bind_value email).
    destruct (bind_value email) as [e|] eqn:Ee; simpl; [|by rewrite app_nil_r].
    apply ParFacts.NoDup_snoc; [done|]. apply emails_sin.
    unfold LoginFacts.candidatos in Hc. by rewrite Ee in Hc. }
  pose proof (sign_world (Payload (Js.Str id) email) w4) as Hsw.
  destruct (Auth.sign (Payload (Js.Str id) email) w4) as [[t|e] w5] eqn:Es;
    simpl in Hsw; subst w5.
  - erewrite try_ok;
      [|erewrite bind_ok; [|exact E0]; rewrite El;
        erewrite bind_ok; [|reflexivity];
        erewrite bind_ok; [|exact E1];
        erewrite bind_ok; [|exact Eb];
        erewrite bind_ok; [|exact Es]; reflexivity].
    exact Hfin.
  - erewrite try_throw;
      [|erewrite bind_ok; [|exact E0]; rewrite El;
        erewrite bind_ok; [|reflexivity];
        erewrite bind_ok; [|exact E1];
        erewrite bind_ok; [|exact Eb];
        erewrite bind_throw; [reflexivity|exact Es]].
    exact Hfin.
Qed.

End WithJwt.
End CuentaFacts.

(** ** Further properties of notasController *)

Module PlantillaFacts.
Import Steps DbFacts.

Lemma join_In {B} (b_id : B → Db.sql_value) rels bases r b :
  In (r, b) (Db.join b_id rels bases)
  ↔ In r rels ∧ In b bases ∧ Db.sql_eq (Db.r_base_id r) (b_id b) = true.
Proof.
  unfold Db.join. rewrite in_flat_map. split.
  - intros (r' & Hr & Hin). apply in_map_iff in Hin as (b' & [= -> ->] & Hb).
    apply filter_In in Hb as [Hb He]. done.
  - intros (Hr & Hb & He). exists r. split; [done|].
    apply in_map_iff. exists b. split; [done|]. by apply filter_In.
Qed.

Lemma plantilla_encontrada i pb w :
  In pb (Db.plantillas_base (db w)) → Db.pb_id pb = Some i →
  In pb (List.filter (λ b, Db.sql_eq (Db.pb_id b) (Some i)) (Db.plantillas_base (db w))).
Proof.
  intros Hin Hid. apply filter_In. split; [done|]. rewrite Hid. simpl.
  by apply bool_decide_eq_true.
Qed.

Lemma filter_negb_out {A} (col : A → Db.sql_value) v t x :
  is_Some v → In x (List.filter (λ y, negb (Db.sql_eq (col y) v)) t) → col x ≠ v.
Proof.
  intros Hs Hin E. apply filter_In in Hin as [_ Hin].
  by rewrite E, sql_eq_refl in Hin.
Qed.

(** eliminarPlantillaAdicional removes the template from everybody: when
    no statement fails, no relation row of any user and no base row with
    that id is left, and the other tables are as before.  When its last
    statement fails, the answer is 500 and every user has lost the
    relation while the template is still there. *)
Theorem eliminarPlantillaAdicional_cleans (req : request) (w : world) (i : string) :
  field (params req) "id" = Js.Str i → i ≠ "" →
  (∃ pb, In pb (Db.plantillas_base (db w)) ∧ Db.pb_id pb = Some i) →
  (faults w = [] →
   ∃ o w',
     Notas.eliminarPlantillaAdicional req w = (Ok (Response 200 o), w')
     ∧ db w'
       = Db.Database (Db.usuarios (db w)) (Db.aplicativos_base (db w))
           (Db.aplicativos_rel (db w))
           (List.filter (λ x, negb (Db.sql_eq (Db.pb_id x) (Some i)))
                        (Db.plantillas_base (db w)))
           (List.filter (λ x, negb (Db.sql_eq (Db.r_base_id x) (Some i)))
                        (Db.notas_despacho_rel (db w)))
     ∧ (∀ r, In r (Db.notas_despacho_rel (db w')) → Db.r_base_id r ≠ Some i)
     ∧ (∀ pb, In pb (Db.plantillas_base (db w')) → Db.pb_id pb ≠ Some i)) ∧
  (faults w = [false; false; true] →
   ∃ o w',
     Notas.eliminarPlantillaAdicional req w = (Ok (Response 500 o), w')
     ∧ (∀ r, In r (Db.notas_despacho_rel (db w')) → Db.r_base_id r ≠ Some i)
     ∧ Db.plantillas_base (db w') = Db.plantillas_base (db w)).
Proof.
  intros Hid Hi (pb & Hin & Hpb).
  assert (Js.falsy (Js.Str i) = false) as Hfa by (by apply bool_decide_eq_false).
  assert (∃ fila filas,
            rows (answer Db.SelPlantillaNombre [Js.Str i] w) = fila :: filas)
    as (fila & filas & Er).
  { unfold answer. simpl. change (Db.arg 0 [Some i]) with (Some i).
    pose proof (plantilla_encontrada i pb w Hin Hpb) as H.
    destruct (List.filter _ _); [done|]. simpl. by eexists _, _. }
  split; intros Hf.
  - eexists _, _. split_and!.
    + unfold Notas.eliminarPlantillaAdicional. rewrite Hid, Hfa.
      erewrite try_ok; [reflexivity|].
      erewrite bind_ok; [|by apply pool_query_ok, faults_nil_next].
      rewrite Er.
      erewrite bind_ok;
        [|apply pool_query_ok; unfold next_fault; simpl; by rewrite Hf].
      erewrite bind_ok;
        [|apply pool_query_ok; unfold next_fault; simpl; by rewrite Hf].
      reflexivity.
    + reflexivity.
    + intros r Hr. simpl in Hr. change (Db.arg 0 [Some i]) with (Some i) in Hr.
      by apply (filter_negb_out Db.r_base_id (Some i)) in Hr.
    + intros b Hb. simpl in Hb. change (Db.arg 0 [Some i]) with (Some i) in Hb.
      by apply (filter_negb_out Db.pb_id (Some i)) in Hb.
  - eexists _, _. split_and!.
    + unfold Notas.eliminarPlantillaAdicional. rewrite Hid, Hfa.
      erewrite try_throw; [reflexivity|].
      erewrite bind_ok; [|apply pool_query_ok; unfold next_fault; by rewrite Hf].
      rewrite Er.
      erewrite bind_ok;
        [|apply pool_query_ok; unfold next_fault; simpl; by rewrite Hf].
      erewrite bind_throw; [reflexivity|].
      apply pool_query_fail. unfold next_fault. simpl. by rewrite Hf.
    + intros r Hr. simpl in Hr. change (Db.arg 0 [Some i]) with (Some i) in Hr.
      by apply (filter_negb_out Db.r_base_id (Some i)) in Hr.
    + reflexivity.
Qed.

(** What limpiarNotaAvances does to a template. *)
Definition sin_avances (i : string) (b : Db.plantilla_base) : Db.plantilla_base :=
  if Db.sql_eq (Db.pb_id b) (Some i)
  then Db.PlantillaBase (Db.pb_id b) (Db.pb_novedad b) (Db.pb_nota_publica b)
                        (Db.pb_nota_interna b) None (Db.pb_plantilla b)
  else b.

Lemma sin_avances_id i b : Db.pb_id (sin_avances i b) = Db.pb_id b.
Proof. unfold sin_avances. by destruct (Db.sql_eq _ _). Qed.

(** limpiarNotaAvances clears the note of progress of the shared
    template, so for every user: afterwards obtenerNotasAvances lists no
    row of that template, whoever asks. *)
Theorem limpiarNotaAvances_hides (req consulta : request) (w : world) (i : string) :
  field (params req) "id" = Js.Str i → faults w = [] →
  (∃ pb, In pb (Db.plantillas_base (db w)) ∧ Db.pb_id pb = Some i) →
  ∃ w1,
    Notas.limpiarNotaAvances req w
    = (Ok (Response 200 (mensaje "Nota de avances eliminada correctamente")), w1)
    ∧ Db.plantillas_base (db w1) = map (sin_avances i) (Db.plantillas_base (db w))
    ∧ ∃ rs w2,
        Notas.obtenerNotasAvances consulta w1 = (Ok (Response 200 (rows_json rs)), w2)
        ∧ ∀ r, In r rs → field r "plantilla_id" ≠ Js.Str i.
Proof.
  intros Hid Hf (pb & Hin & Hpb).
  set (w1 := ran Db.UpdLimpiarAvances [Js.Str i] w).
  assert (Db.plantillas_base (db w1) = map (sin_avances i) (Db.plantillas_base (db w)))
    as Eb by done.
  assert (next_fault w1 = false) as Hf1 by (unfold next_fault; simpl; by rewrite Hf).
  assert (Notas.limpiarNotaAvances req w
          = (Ok (Response 200 (mensaje "Nota de avances eliminada correctamente")), w1))
    as E1.
  { unfold Notas.limpiarNotaAvances. rewrite Hid.
    erewrite try_ok; [reflexivity|].
    erewrite bind_ok; [|by apply pool_query_ok, faults_nil_next].
    assert ((rowCount (answer Db.UpdLimpiarAvances [Js.Str i] w) =? 0) = false) as ->.
    { unfold answer. simpl. change (Db.arg 0 [Some i]) with (Some i).
      pose proof (plantilla_encontrada i pb w Hin Hpb) as H.
      by destruct (List.filter _ _). }
    reflexivity. }
  clearbody w1. exists w1. split_and!; [exact E1 | exact Eb |].
  eexists _, _. split.
  - unfold Notas.obtenerNotasAvances.
    erewrite try_ok; [reflexivity|].
    erewrite bind_ok; [|by apply pool_query_ok].
    reflexivity.
  - intros r Hr. unfold answer in Hr. simpl in Hr.
    rewrite map_map in Hr. apply in_map_iff in Hr as ([rel b] & <- & Hrb).
    apply sort_by_In, filter_In in Hrb as [Hj Hav]. simpl in Hav.
    apply join_In in Hj as (_ & Hb & He).
    rewrite Eb in Hb. apply in_map_iff in Hb as (b0 & <- & Hb0).
    unfold field. simpl. rewrite LoginFacts.leido_cell. intros Eid.
    rewrite sin_avances_id in He.
    destruct (Db.r_base_id rel) as [x|] eqn:Ex; [|done].
    injection Eid as ->.
    unfold Db.has_avances, sin_avances in Hav.
    rewrite sql_eq_sym in He. by rewrite He in Hav.
Qed.

(** A relation row with its template, as obtenerNotas lists it. *)
Definition nota_listada (r : Db.relacion) (b : Db.plantilla_base) : record :=
  [("id", LoginFacts.leido (Db.r_id r));
   ("plantilla_id", LoginFacts.leido (Db.r_base_id r));
   ("novedad", LoginFacts.leido (Db.pb_novedad b));
   ("nota_publica", LoginFacts.leido (Db.pb_nota_publica b));
   ("nota_interna", LoginFacts.leido (Db.pb_nota_interna b));
   ("nota_avances", LoginFacts.leido (Db.pb_nota_avances b));
   ("plantilla", LoginFacts.leido (Db.pb_plantilla b));
   ("creado_en", Js.Num (Z.of_nat (Db.r_creado_en r)))].

(** obtenerNotas lists exactly the relation rows of the user whose
    template exists: a relation row whose template has been deleted
    stays in the table but is not shown. *)
Theorem obtenerNotas_lists_existing (req : request) (w : world) :
  next_fault w = false →
  ∃ rs w',
    Notas.obtenerNotas req w = (Ok (Response 200 (rows_json rs)), w')
    ∧ ∀ fila,
        In fila rs ↔
        ∃ r b,
          fila = nota_listada r b
          ∧ In r (Db.notas_despacho_rel (db w)) ∧ In b (Db.plantillas_base (db w))
          ∧ Db.sql_eq (Db.r_usuario_id r)
                      (bind_value (field (params req) "usuario_id")) = true
          ∧ Db.sql_eq (Db.r_base_id r) (Db.pb_id b) = true.
Proof.
  intros Hf. eexists _, _. split.
  - unfold Notas.obtenerNotas.
    erewrite try_ok; [reflexivity|].
    erewrite bind_ok; [|by apply pool_query_ok]. reflexivity.
  - intros fila. unfold answer. simpl. rewrite map_map, in_map_iff.
    change (Db.arg 0 _) with (bind_value (field (params req) "usuario_id")).
    assert (∀ p : Db.relacion * Db.plantilla_base,
              map (λ kc : string * Db.cell, (fst kc, js_of_cell (cfg w) (snd kc)))
                  [("id", Db.cell_of (Db.r_id (fst p)));
                   ("plantilla_id", Db.cell_of (Db.r_base_id (fst p)));
                   ("novedad", Db.cell_of (Db.pb_novedad (snd p)));
                   ("nota_publica", Db.cell_of (Db.pb_nota_publica (snd p)));
                   ("nota_interna", Db.cell_of (Db.pb_nota_interna (snd p)));
                   ("nota_avances", Db.cell_of (Db.pb_nota_avances (snd p)));
                   ("plantilla", Db.cell_of (Db.pb_plantilla (snd p)));
                   ("creado_en", Db.CTime (Db.r_creado_en (fst p)))]
              = nota_listada (fst p) (snd p)) as El.
    { intros p. unfold nota_listada. simpl. by rewrite !LoginFacts.leido_cell. }
    split.
    + intros ([r b] & <- & Hin). apply sort_by_In, join_In in Hin as (Hr & Hb & He).
      apply filter_In in Hr as [Hr Hu]. exists r, b. by rewrite El.
    + intros (r & b & -> & Hr & Hb & Hu & He). exists (r, b). split; [apply El|].
      apply sort_by_In, join_In. split_and!; try done. by apply filter_In.
Qed.

(** The row of modificarPlantilla after the UPDATE. *)
Definition modificada (req : request) (b : Db.plantilla_base) : Db.plantilla_base :=
  if Db.sql_eq (Db.pb_id b) (bind_value (field (params req) "id"))
  then Db.PlantillaBase (Db.pb_id b)
         (bind_value (field (body req) "novedad"))
         (bind_value (field (body req) "nota_publica"))
         (bind_value (field (body req) "nota_interna"))
         (bind_value (field (body req) "nota_avances"))
         (bind_value (field (body req) "plantilla"))
  else b.

(** modificarPlantilla replaces all five columns by what the body holds:
    a field the body leaves out becomes NULL, and the novedad is not
    checked against the names agregarNota refuses.  Without a row of
    that id it answers 404 and changes nothing. *)
Theorem modificarPlantilla_replaces (req : request) (w : world) :
  next_fault w = false →
  ((∃ b, In b (Db.plantillas_base (db w))
         ∧ Db.sql_eq (Db.pb_id b) (bind_value (field (params req) "id")) = true) →
   ∃ o w',
     Notas.modificarPlantilla req w = (Ok (Response 200 o), w')
     ∧ Db.plantillas_base (db w') = map (modificada req) (Db.plantillas_base (db w))
     ∧ ∀ b', In b' (Db.plantillas_base (db w')) →
             Db.sql_eq (Db.pb_id b') (bind_value (field (params req) "id")) = true →
             Db.pb_novedad b' = bind_value (field (body req) "novedad")
             ∧ (field (body req) "nota_avances" = Js.Undefined →
                Db.pb_nota_avances b' = None)) ∧
  ((∀ b, In b (Db.plantillas_base (db w)) →
         Db.sql_eq (Db.pb_id b) (bind_value (field (params req) "id")) = false) →
   ∃ o w',
     Notas.modificarPlantilla req w = (Ok (Response 404 o), w')
     ∧ Db.plantillas_base (db w') = Db.plantillas_base (db w)).
Proof.
  intros Hf.
  assert (∀ w', w' = ran Db.UpdPlantilla
                       [field (body req) "novedad"; field (body req) "nota_publica";
                        field (body req) "nota_interna"; field (body req) "nota_avances";
                        field (body req) "plantilla"; field (params req) "id"] w →
                Db.plantillas_base (db w')
                = map (modificada req) (Db.plantillas_base (db w))) as Emap.
  { intros w' ->. reflexivity. }
  split.
  - intros (b & Hin & He). eexists _, _. split_and!.
    + unfold Notas.modificarPlantilla.
      erewrite try_ok; [reflexivity|].
      erewrite bind_ok; [|by apply pool_query_ok].
      match goal with
      | |- context [rowCount ?a =? 0] => assert ((rowCount a =? 0) = false) as ->
      end.
      { unfold answer. simpl.
        change (Db.arg 5 _) with (bind_value (field (params req) "id")).
        assert (In b (List.filter
                        (λ x, Db.sql_eq (Db.pb_id x)
                                        (bind_value (field (params req) "id")))
                        (Db.plantillas_base (db w)))) as H by (by apply filter_In).
        by destruct (List.filter _ _). }
      reflexivity.
    + by apply Emap.
    + intros b' Hb' He'. rewrite (Emap _ eq_refl) in Hb'.
      apply in_map_iff in Hb' as (b0 & <- & Hb0).
      unfold modificada in *.
      destruct (Db.sql_eq (Db.pb_id b0) _) eqn:E0; simpl in *.
      * split; [done|]. by intros ->.
      * by rewrite E0 in He'.
  - intros Hno. eexists _, _. split.
    + unfold Notas.modificarPlantilla.
      erewrite try_ok; [reflexivity|].
      erewrite bind_ok; [|by apply pool_query_ok].
      match goal with
      | |- context [rowCount ?a =? 0] => assert ((rowCount a =? 0) = true) as ->
      end.
      { unfold answer. simpl.
        change (Db.arg 5 _) with (bind_value (field (params req) "id")).
        by rewrite filter_none. }
      reflexivity.
    + rewrite (Emap _ eq_refl). rewrite <- (map_id (Db.plantillas_base (db w))) at 2.
      apply map_ext_in. intros b Hb. unfold modificada. by rewrite Hno.
Qed.

End PlantillaFacts.

(** ** The default content *)

Module DefectoFacts.
Import Steps DbFacts.

Lemma count_positive c n :
  Js.gt_num (js_of_cell c (Db.CInt8 n)) 0 = negb (n =? 0).
Proof.
  unfold Js.gt_num. rewrite BorradoFacts.count_to_number.
  destruct n; simpl; [done|]. apply Z.ltb_lt. lia.
Qed.

(** On a table with rows a seeding utility sends its COUNT and nothing
    else. *)
Lemma aplicativos_ya_sembrados (w : world) :
  next_fault w = false → Db.aplicativos_base (db w) ≠ [] →
  ∃ w', Auth.crearAplicativosBasePorDefecto w = (Ok tt, w') ∧ db w' = db w
        ∧ sql_log w' = (sql_log w ++ [Query (Db.text Db.CountAplicativosBase) []])%list.
Proof.
  intros Hf Hne. eexists. split_and!.
  - unfold Auth.crearAplicativosBasePorDefecto.
    erewrite bind_ok; [|by apply pool_query_ok].
    erewrite bind_ok; [|reflexivity].
    change (field _ "count")
      with (js_of_cell (cfg w) (Db.CInt8 (length (Db.aplicativos_base (db w))))).
    rewrite count_positive.
    destruct (Db.aplicativos_base (db w)); [done|]. reflexivity.
  - simpl. by destruct (db w).
  - reflexivity.
Qed.

Lemma plantillas_ya_sembradas (w : world) :
  next_fault w = false → Db.plantillas_base (db w) ≠ [] →
  ∃ w', Auth.crearPlantillasBasePorDefecto w = (Ok tt, w') ∧ db w' = db w
        ∧ sql_log w' = (sql_log w ++ [Query (Db.text Db.CountPlantillasBase) []])%list.
Proof.
  intros Hf Hne. eexists. split_and!.
  - unfold Auth.crearPlantillasBasePorDefecto.
    erewrite bind_ok; [|by apply pool_query_ok].
    erewrite bind_ok; [|reflexivity].
    change (field _ "count")
      with (js_of_cell (cfg w) (Db.CInt8 (length (Db.plantillas_base (db w))))).
    rewrite count_positive.
    destruct (Db.plantillas_base (db w)); [done|]. reflexivity.
  - simpl. by destruct (db w).
  - reflexivity.
Qed.

(** The two seeding utilities insert the default rows only into an empty
    table, whichever way the pool delivers the COUNT: on a table with
    rows they send the COUNT and nothing else; on an empty table, when
    nothing fails, they insert the five aplicativos, respectively the
    three templates, of the source. *)
Theorem seeding_only_when_empty (w : world) :
  (next_fault w = false → Db.aplicativos_base (db w) ≠ [] →
   ∃ w', Auth.crearAplicativosBasePorDefecto w = (Ok tt, w') ∧ db w' = db w
         ∧ sql_log w' = (sql_log w ++ [Query (Db.text Db.CountAplicativosBase) []])%list) ∧
  (next_fault w = false → Db.plantillas_base (db w) ≠ [] →
   ∃ w', Auth.crearPlantillasBasePorDefecto w = (Ok tt, w') ∧ db w' = db w
         ∧ sql_log w' = (sql_log w ++ [Query (Db.text Db.CountPlantillasBase) []])%list) ∧
  (faults w = [] → Db.aplicativos_base (db w) = [] →
   ∃ w', Auth.crearAplicativosBasePorDefecto w = (Ok tt, w')
         ∧ map Db.ab_nombre (Db.aplicativos_base (db w'))
           = [Some "Gmail"; Some "Google Drive"; Some "Google Calendar";
              Some "Microsoft Office"; Some "WhatsApp Web"]
         ∧ next_uuid w' = next_uuid w + 5) ∧
  (faults w = [] → Db.plantillas_base (db w) = [] →
   ∃ w', Auth.crearPlantillasBasePorDefecto w = (Ok tt, w')
         ∧ map Db.pb_novedad (Db.plantillas_base (db w'))
           = [Some "Bienvenida"; Some "Nota General"; Some "Recordatorio"]
         ∧ next_uuid w' = next_uuid w + 3).
Proof.
  split_and!.
  - apply aplicativos_ya_sembrados.
  - apply plantillas_ya_sembradas.
  - intros Hf He. eexists. split_and!.
    + unfold Auth.crearAplicativosBasePorDefecto.
      erewrite bind_ok; [|by apply pool_query_ok, faults_nil_next].
      erewrite bind_ok; [|reflexivity].
      change (field _ "count")
        with (js_of_cell (cfg w) (Db.CInt8 (length (Db.aplicativos_base (db w))))).
      rewrite count_positive, He. cbn [length Nat.eqb negb].
      unfold Auth.aplicativosDefecto. cbn [for_each].
      repeat (erewrite bind_ok;
              [|erewrite bind_ok; [|reflexivity];
                erewrite bind_ok;
                  [|apply pool_query_ok; unfold next_fault; simpl; by rewrite Hf];
                reflexivity]).
      reflexivity.
    + simpl. by rewrite He.
    + simpl. lia.
  - intros Hf He. eexists. split_and!.
    + unfold Auth.crearPlantillasBasePorDefecto.
      erewrite bind_ok; [|by apply pool_query_ok, faults_nil_next].
      erewrite bind_ok; [|reflexivity].
      change (field _ "count")
        with (js_of_cell (cfg w) (Db.CInt8 (length (Db.plantillas_base (db w))))).
      rewrite count_positive, He. cbn [length Nat.eqb negb].
      unfold Auth.plantillasDefecto. cbn [for_each].
      repeat (erewrite bind_ok;
              [|erewrite bind_ok; [|reflexivity];
                erewrite bind_ok;
                  [|apply pool_query_ok; unfold next_fault; simpl; by rewrite Hf];
                reflexivity]).
      reflexivity.
    + simpl. by rewrite He.
    + simpl. lia.
Qed.

Lemma insert_sorted_perm {A} (le : A → A → bool) x l :
  Permutation (Db.insert_sorted le x l) (x :: l).
Proof.
  induction l as [|y l IH]; simpl; [done|].
  destruct (le x y); [done|]. rewrite IH. apply perm_swap.
Qed.

(** ORDER BY returns the rows it was given, each once. *)
Lemma sort_by_perm {A} (le : A → A → bool) l : Permutation (Db.sort_by le l) l.
Proof.
  induction l as [|x l IH]; simpl; [done|].
  rewrite insert_sorted_perm. by constructor.
Qed.

Section Loop.
Variables (s : Db.stmt) (tabla : Db.database → list Db.relacion).
Hypothesis exec_s :
  ∀ a now d,
    tabla (snd (Db.exec s a now d))
    = (tabla d ++ [Db.Relacion (Db.arg 0 a) (Db.arg 1 a) (Db.arg 2 a) now])%list.

(** The body of the two assignment loops. *)
Definition enlazar (usuario_id : Js.value) (fila : record) : M unit :=
  relacionId ← uuidv4;
  _ ← pool_query s [Js.Str relacionId; usuario_id; field fila "id"];
  mret tt.

(** The loop links the user to base rows that are pairwise different and
    not yet linked to the user: no pair is linked twice, wherever the
    loop stops. *)
Lemma loop_una_por_par usuario_id (filas : list record) :
  ∀ w,
    List.NoDup (map (λ f, bind_value (field f "id")) filas) →
    (∀ f, In f filas →
          ¬ In (bind_value usuario_id, bind_value (field f "id"))
               (map ParFacts.par (tabla (db w)))) →
    ParFacts.una_por_par (tabla (db w)) →
    ParFacts.una_por_par (tabla (db (snd (for_each filas (enlazar usuario_id) w)))).
Proof.
  induction filas as [|f fs IH]; intros w Hnd Hnew Hn; [done|].
  simpl in Hnd. apply List.NoDup_cons_iff in Hnd as [Hf Hnd].
  cbn [for_each]. unfold mbind at 1, M_bind at 1, enlazar at 1.
  unfold mbind at 1, M_bind at 1, uuidv4 at 1.
  unfold mbind at 1, M_bind at 1.
  set (w1 := set_next_uuid (S (next_uuid w)) w).
  set (vals := [Js.Str ("uuid-" +:+ Js.decimal_nat (next_uuid w)); usuario_id;
                field f "id"]).
  destruct (pool_query_cases s vals w1) as [-> | ->]; [|done].
  cbn [mret M_ret].
  assert (tabla (db (ran s vals w1))
          = (tabla (db w)
             ++ [Db.Relacion (Some ("uuid-" +:+ Js.decimal_nat (next_uuid w)))
                             (bind_value usuario_id) (bind_value (field f "id"))
                             (clock w)])%list) as Et.
  { unfold ran. simpl. rewrite exec_s. reflexivity. }
  apply IH; [done| |].
  - intros f' Hf' Hin. rewrite Et, map_app, in_app_iff in Hin.
    destruct Hin as [Hin|[Hin|[]]].
    + apply (Hnew f'); [by right | done].
    + apply Hf. injection Hin as Hin. rewrite Hin.
      apply (in_map (λ f, bind_value (field f "id")) fs f' Hf').
  - rewrite Et. unfold ParFacts.una_por_par. rewrite map_app.
    apply ParFacts.NoDup_snoc; [done|]. apply Hnew. by left.
Qed.

End Loop.

Lemma ids_filas {B} c (col : B → Db.sql_value) (l : list B) :
  map (λ f, bind_value (field f "id"))
      (map (map (λ kc : string * Db.cell, (fst kc, js_of_cell c (snd kc))))
           (map (λ b, Db.id_row (col b)) l))
  = map col l.
Proof.
  rewrite !map_map. apply map_ext. intros b. by destruct (col b).
Qed.

(** For a user without relation rows, and with base tables that are
    seeded and have their id as key, the default assignment links the
    user to each base row at most once, wherever it stops. *)
Theorem default_assignment_fresh_user (usuario_id : Js.value) (w : world) :
  (key Db.ab_id (Db.aplicativos_base (db w)) → Db.aplicativos_base (db w) ≠ [] →
   (∀ r, In r (Db.aplicativos_rel (db w)) → Db.r_usuario_id r ≠ bind_value usuario_id) →
   ParFacts.una_por_par (Db.aplicativos_rel (db w)) →
   ParFacts.una_por_par
     (Db.aplicativos_rel (db (after (Auth.asignarAplicativosPorDefecto usuario_id w))))) ∧
  (key Db.pb_id (Db.plantillas_base (db w)) → Db.plantillas_base (db w) ≠ [] →
   (∀ r, In r (Db.notas_despacho_rel (db w)) → Db.r_usuario_id r ≠ bind_value usuario_id) →
   ParFacts.una_por_par (Db.notas_despacho_rel (db w)) →
   ParFacts.una_por_par
     (Db.notas_despacho_rel (db (after (Auth.asignarPlantillasPorDefecto usuario_id w))))).
Proof.
  split.
  - intros [Hk _] Hne Hfresh Hn. unfold after, Auth.asignarAplicativosPorDefecto.
    destruct (next_fault w) eqn:F0.
    { erewrite bind_throw;
        [|unfold Auth.crearAplicativosBasePorDefecto;
          erewrite bind_throw; [reflexivity|by apply pool_query_fail]].
      exact Hn. }
    destruct (aplicativos_ya_sembrados w F0 Hne) as (w1 & E1 & Edb & _).
    erewrite bind_ok; [|exact E1].
    destruct (pool_query_cases Db.SelIdsAplicativosBase [] w1) as [E2|E2].
    2:{ erewrite bind_throw; [|exact E2]. simpl. by rewrite Edb. }
    erewrite bind_ok; [|exact E2].
    destruct (length _ =? 0); [simpl; by rewrite Edb|].
    apply (loop_una_por_par Db.InsAplicativoRel Db.aplicativos_rel).
    + intros a now d. reflexivity.
    + unfold answer. cbn [Db.exec fst Db.selected js_of_result rows Db.rows].
      rewrite ids_filas, Edb. eapply Permutation_NoDup; [|exact Hk].
      apply Permutation_map. symmetry. apply sort_by_perm.
    + intros f Hf Hin. apply in_map_iff in Hin as (r & Er & Hr).
      simpl in Hr. rewrite Edb in Hr.
      apply (Hfresh r); [exact Hr|]. by injection Er.
    + simpl. by rewrite Edb.
  - intros [Hk _] Hne Hfresh Hn. unfold after, Auth.asignarPlantillasPorDefecto.
    destruct (next_fault w) eqn:F0.
    { erewrite bind_throw;
        [|unfold Auth.crearPlantillasBasePorDefecto;
          erewrite bind_throw; [reflexivity|by apply pool_query_fail]].
      exact Hn. }
    destruct (plantillas_ya_sembradas w F0 Hne) as (w1 & E1 & Edb & _).
    erewrite bind_ok; [|exact E1].
    destruct (pool_query_cases Db.SelIdsPlantillasBase [] w1) as [E2|E2].
    2:{ erewrite bind_throw; [|exact E2]. simpl. by rewrite Edb. }
    erewrite bind_ok; [|exact E2].
    destruct (length _ =? 0); [simpl; by rewrite Edb|].
    apply (loop_una_por_par Db.InsNotaRel Db.notas_despacho_rel).
    + intros a now d. reflexivity.
    + unfold answer. cbn [Db.exec fst Db.selected js_of_result rows Db.rows].
      rewrite ids_filas, Edb. eapply Permutation_NoDup; [|exact Hk].
      apply Permutation_map. symmetry. apply sort_by_perm.
    + intros f Hf Hin. apply in_map_iff in Hin as (r & Er & Hr).
      simpl in Hr. rewrite Edb in Hr.
      apply (Hfresh r); [exact Hr|]. by injection Er.
    + simpl. by rewrite Edb.
Qed.

End DefectoFacts.

(** ** Further properties of mailController and aiController *)

Module ServiciosFacts.
Import Steps.

(** The variables verificarConfiguracion finds missing. *)
Definition faltantes (c : config) : list string :=
  List.filter (λ v, Js.falsy (getenv c v)) Mail.requiredEnvVars.

(** verificarConfiguracion answers 400, with the missing names in the
    order of its list, exactly when one of the four SMTP variables is
    unset or empty, and then does not touch the transport; SMTP_SECURE
    is not among them.  With the four present it answers 200 or 500 as
    the transport verifies or fails. *)
Theorem verificarConfiguracion_checks (req : request) (w : world) :
  (∀ v, In v (faltantes (cfg w)) ↔
        In v ["SMTP_HOST"; "SMTP_PORT"; "SMTP_USER"; "SMTP_PASS"]
        ∧ (Js.get v (env (cfg w)) = None ∨ Js.get v (env (cfg w)) = Some "")) ∧
  (faltantes (cfg w) ≠ [] →
   ∃ o, Mail.verificarConfiguracion req w
        = (Ok (Response 400
                 (Js.JObj [("success", Js.JVal (Js.Bool false)); ("message", o);
                           ("missingVariables",
                            Js.JArr (map Js.jstr (faltantes (cfg w))))])), w)) ∧
  (faltantes (cfg w) = [] →
   ∃ o w', Mail.verificarConfiguracion req w
           = (Ok (Response (if next_fault w then 500 else 200) o), w')).
Proof.
  split_and!.
  - intros v. unfold faltantes. rewrite filter_In. unfold getenv.
    split; intros [Hv Hf]; (split; [exact Hv|]).
    + destruct (Js.get v (env (cfg w))) as [x|]; [|by left]. right.
      simpl in Hf. apply bool_decide_eq_true in Hf. by rewrite Hf.
    + by destruct Hf as [-> | ->].
  - intros Hne. unfold Mail.verificarConfiguracion, try_catch, mbind, M_bind.
    fold (faltantes (cfg w)).
    destruct (faltantes (cfg w)); [done|]. by eexists.
  - intros He. unfold Mail.verificarConfiguracion, try_catch, mbind, M_bind.
    fold (faltantes (cfg w)). rewrite He. cbn [length Nat.ltb Nat.leb].
    unfold Mail.verify, fails_now. destruct (next_fault w); by eexists _, _.
Qed.

(** The text mejorarTextoChatGPT answers with. *)
Definition texto_mejorado (r : response) : option string :=
  match json_body r with
  | Js.JObj [("textoMejorado", Js.JVal (Js.Str t))] => Some t
  | _ => None
  end.

(** mejorarTextoChatGPT, given a texto, calls the service once, with the
    instructions of the corrector only for the modo corregir_ortografia
    and those of the editor for every other modo or none.  A failing
    service gives 500.  The fallback sentence is the answer when the
    reply has no text or an empty one; a reply of white space only is
    answered with an empty text. *)
Theorem mejorarTexto_modes (ia : Ai.loaded) (req : request) (w : world) :
  let texto := field (body req) "texto" in
  let modo := field (body req) "modo" in
  Js.truthy texto = true →
  (∃ r w' prompt,
     Ai.mejorarTextoChatGPT ia req w = (Ok r, w')
     ∧ ai_log w'
       = (ai_log w
          ++ [AiRequest (Ai.ai ia) Ai.model [TextPart prompt]
                (if Js.strict_eq modo (Js.Str "corregir_ortografia")
                 then Ai.corrector else Ai.redactor)])%list
     ∧ (next_fault w = true → status r = 500)
     ∧ (next_fault w = false →
        status r = 200
        ∧ match ai_answers w with
          | [] | None :: _ | Some EmptyString :: _ =>
              texto_mejorado r = Some (Text.trim "No se pudo generar una respuesta.")
          | Some s :: _ =>
              texto_mejorado r = Some (Text.trim s)
              ∧ (Text.blank s = true → texto_mejorado r = Some "")
          end)).
Proof.
  intros texto modo Ht. unfold Js.truthy in Ht. apply negb_true_iff in Ht.
  unfold Ai.mejorarTextoChatGPT. fold texto modo. rewrite Ht.
  unfold try_catch, mbind, M_bind, Ai.generateContent, fails_now.
  destruct (Js.strict_eq modo (Js.Str "corregir_ortografia"));
    cbn [fst snd];
    match goal with
    | |- context [next_fault (set_ai_log ?l w)] =>
        change (next_fault (set_ai_log l w)) with (next_fault w)
    end;
    destruct (next_fault w) eqn:Hf;
    try (eexists _, _, _; split_and!; [reflexivity|reflexivity|done|done]);
    match goal with
    | |- context [ai_answers (set_faults ?f (set_ai_log ?l w))] =>
        change (ai_answers (set_faults f (set_ai_log l w))) with (ai_answers w)
    end;
    destruct (ai_answers w) as [|[[|a s]|] rest];
    eexists _, _, _; (split_and!; [reflexivity|reflexivity|done|]);
    intros _; (split; [done|]); try done;
    (split; [done|]); intros Hb; unfold texto_mejorado; simpl; f_equal;
    by apply BorradoFacts.trim_empty.
Qed.

End ServiciosFacts.

(** ** limpiarPlantillasIncorrectas *)

Module PurgaFacts.
Import Steps DbFacts.

Section Keys.
Context {K : Type} `{EqDecision K}.

Lemma bump_keys (k k' : K) c acc :
  In k (map fst (Db.bump k' c acc)) ↔ k = k' ∨ In k (map fst acc).
Proof.
  induction acc as [|[k0 n] acc IH]; simpl; [naive_solver|].
  case_decide; simpl; [naive_solver|]. rewrite IH. naive_solver.
Qed.

Lemma fold_keys (k : K) l acc :
  In k (map fst (fold_left (λ acc (kb : K * bool),
                              Db.bump (fst kb) (if snd kb then 1 else 0) acc) l acc))
  ↔ In k (map fst acc) ∨ In k (map fst l).
Proof.
  revert acc. induction l as [|[k' b] l IH]; intros acc; simpl; [naive_solver|].
  rewrite IH, bump_keys. naive_solver.
Qed.

(** GROUP BY returns the keys of the lines it was given. *)
Lemma group_count_keys (k : K) l :
  In k (map fst (Db.group_count l)) ↔ In k (map fst l).
Proof. unfold Db.group_count. rewrite fold_keys. simpl. naive_solver. Qed.

End Keys.

Lemma left_join_keys {X} id (x : X) rels k :
  In k (map fst (Db.left_join_counted id x rels)) ↔ k = x.
Proof.
  unfold Db.left_join_counted.
  destruct (List.filter _ rels) as [|m ms]; simpl; [naive_solver|].
  rewrite map_map. simpl. split; [|by left].
  intros [->|Hin]; [done|]. by apply in_map_iff in Hin as (? & -> & _).
Qed.

(** A template with a name that upper-cases to AVANCE. *)
Definition incorrecta (b : Db.plantilla_base) : bool :=
  bool_decide (Db.upper_is_avance (Db.pb_novedad b) = Some true).

(** What is left of a table once the rows with one of the values [vs] in
    column [col] are deleted, one value after the other. *)
Definition purgada {A} (col : A → Db.sql_value) (vs : list Db.sql_value)
    (t : list A) : list A :=
  List.filter (λ x, forallb (λ v, negb (Db.sql_eq (col x) v)) vs) t.

Lemma filter_filter {A} (f g : A → bool) l :
  List.filter f (List.filter g l) = List.filter (λ x, g x && f x) l.
Proof.
  induction l as [|x l IH]; simpl; [done|].
  destruct (g x); simpl; [|done]. destruct (f x); by rewrite IH.
Qed.

Definition borrar (plantilla : record) : M unit :=
  _ ← pool_query Db.DelNotaRelPorPlantilla [field plantilla "id"];
  _ ← pool_query Db.DelPlantillaBase [field plantilla "id"];
  mret tt.

Lemma purge_loop (filas : list record) :
  ∀ w, faults w = [] →
  ∃ w',
    for_each filas borrar w = (Ok tt, w')
    ∧ Db.plantillas_base (db w')
      = purgada Db.pb_id (map (λ f, bind_value (field f "id")) filas)
                (Db.plantillas_base (db w))
    ∧ Db.notas_despacho_rel (db w')
      = purgada Db.r_base_id (map (λ f, bind_value (field f "id")) filas)
                (Db.notas_despacho_rel (db w)).
Proof.
  induction filas as [|f fs IH]; intros w Hf.
  - exists w. split_and!; [done| |]; unfold purgada; simpl;
      by rewrite filter_true.
  - set (w1 := ran Db.DelNotaRelPorPlantilla [field f "id"] w).
    set (w2 := ran Db.DelPlantillaBase [field f "id"] w1).
    destruct (IH w2) as (w' & E & Eb & Er); [by simpl; rewrite Hf|].
    exists w'. split_and!.
    + cbn [for_each]. erewrite bind_ok; [exact E|].
      unfold borrar.
      erewrite bind_ok; [|by apply pool_query_ok, faults_nil_next].
      erewrite bind_ok;
        [|apply pool_query_ok; unfold next_fault; simpl; by rewrite Hf].
      reflexivity.
    + rewrite Eb. unfold purgada. simpl.
      change (Db.arg 0 _) with (bind_value (field f "id")).
      apply filter_filter.
    + rewrite Er. unfold purgada. simpl.
      change (Db.arg 0 _) with (bind_value (field f "id")).
      apply filter_filter.
Qed.

Lemma purgada_In {A} (col : A → Db.sql_value) vs t x :
  In x (purgada col vs t) ↔ In x t ∧ ∀ v, In v vs → Db.sql_eq (col x) v = false.
Proof.
  unfold purgada. rewrite filter_In, forallb_forall.
  split; intros [Hx Hv]; (split; [done|]); intros v Hin.
  - by apply negb_true_iff, Hv.
  - apply negb_true_iff. by apply Hv.
Qed.

Lemma key_inj {A} (col : A → Db.sql_value) t x y :
  key col t → In x t → In y t → col x = col y → x = y.
Proof.
  intros [Hn _]. induction t as [|z t IH]; [done|].
  simpl in Hn. apply List.NoDup_cons_iff in Hn as [Hz Hn].
  intros [->|Hx] [->|Hy] E; try done.
  - destruct Hz. rewrite E. by apply in_map.
  - destruct Hz. rewrite <- E. by apply in_map.
  - by apply IH.
Qed.

(** The ids limpiarPlantillasIncorrectas walks through are those of the
    templates whose name upper-cases to AVANCE. *)
Lemma ids_incorrectas w v :
  In v (map (λ f, bind_value (field f "id"))
            (rows (answer Db.SelPlantillasIncorrectas [] w)))
  ↔ ∃ b, In b (Db.plantillas_base (db w)) ∧ incorrecta b = true ∧ Db.pb_id b = v.
Proof.
  unfold answer. cbn [Db.exec fst Db.selected js_of_result rows Db.rows].
  rewrite !map_map.
  assert (∀ g : (Db.sql_value * Db.sql_value) * nat,
            bind_value
              (field (map (λ kc : string * Db.cell, (fst kc, js_of_cell (cfg w) (snd kc)))
                          [("id", Db.cell_of (fst (fst g)));
                           ("novedad", Db.cell_of (snd (fst g)));
                           ("total_usuarios", Db.CInt8 (snd g))]) "id")
            = fst (fst g)) as Eg.
  { intros [[[x|] n] c]; reflexivity. }
  erewrite map_ext; [|exact Eg].
  rewrite <- (map_map fst fst), in_map_iff. split.
  - intros ([a n] & <- & Hin). apply group_count_keys in Hin.
    apply in_map_iff in Hin as ([k c] & Ek & Hin). simpl in Ek. subst k.
    apply in_flat_map in Hin as (b & Hb & Hin).
    apply filter_In in Hb as [Hb Hav].
    assert (In (a, n) (map fst (Db.left_join_counted (Db.pb_id b)
                                  (Db.pb_id b, Db.pb_novedad b)
                                  (Db.notas_despacho_rel (db w))))) as Hk
      by (apply in_map_iff; by exists ((a, n), c)).
    apply left_join_keys in Hk as [= -> ->]. by exists b.
  - intros (b & Hb & Hav & <-). exists (Db.pb_id b, Db.pb_novedad b). split; [done|].
    apply group_count_keys, in_map_iff.
    assert (In (Db.pb_id b, Db.pb_novedad b)
               (map fst (Db.left_join_counted (Db.pb_id b)
                           (Db.pb_id b, Db.pb_novedad b)
                           (Db.notas_despacho_rel (db w))))) as Hk
      by (by apply left_join_keys).
    apply in_map_iff in Hk as ([k c] & Ek & Hin). simpl in Ek. subst k.
    exists ((Db.pb_id b, Db.pb_novedad b), c). split; [done|].
    apply in_flat_map. exists b. split; [|done]. by apply filter_In.
Qed.

(** limpiarPlantillasIncorrectas, when nothing fails and the ids are a
    key of plantillas_base, leaves exactly the templates whose name does
    not upper-case to AVANCE, and exactly the relation rows that do not
    reference one of the removed templates: every user loses them. *)
Theorem limpiarPlantillasIncorrectas_purges (req : request) (w : world) :
  faults w = [] → key Db.pb_id (Db.plantillas_base (db w)) →
  ∃ o w',
    Notas.limpiarPlantillasIncorrectas req w = (Ok (Response 200 o), w')
    ∧ (∀ x, In x (Db.plantillas_base (db w'))
            ↔ In x (Db.plantillas_base (db w)) ∧ incorrecta x = false)
    ∧ (∀ r, In r (Db.notas_despacho_rel (db w'))
            ↔ In r (Db.notas_despacho_rel (db w))
              ∧ ∀ b, In b (Db.plantillas_base (db w)) → incorrecta b = true →
                     Db.sql_eq (Db.r_base_id r) (Db.pb_id b) = false).
Proof.
  intros Hf Hk.
  set (w1 := ran Db.SelPlantillasIncorrectas [] w).
  set (filas := rows (answer Db.SelPlantillasIncorrectas [] w)).
  destruct (purge_loop filas w1) as (w2 & E & Eb & Er); [by simpl; rewrite Hf|].
  change (Db.plantillas_base (db w1)) with (Db.plantillas_base (db w)) in Eb.
  change (Db.notas_despacho_rel (db w1)) with (Db.notas_despacho_rel (db w)) in Er.
  assert (∀ x, In x (purgada Db.pb_id (map (λ f, bind_value (field f "id")) filas)
                             (Db.plantillas_base (db w)))
               ↔ In x (Db.plantillas_base (db w)) ∧ incorrecta x = false) as Hbase.
  { intros x. rewrite purgada_In. split; intros [Hx Hv]; (split; [done|]).
    - apply not_true_is_false. intros Hav.
      assert (Db.sql_eq (Db.pb_id x) (Db.pb_id x) = false) as Hno.
      { apply Hv, ids_incorrectas. by exists x. }
      rewrite sql_eq_refl in Hno; [done|].
      destruct Hk as [_ Hs]. by apply (proj1 (Forall_forall _ _) Hs x).
    - intros v Hin. apply ids_incorrectas in Hin as (b & Hb & Hav & <-).
      apply not_true_is_false. rewrite sql_eq_true. intros (s & E1 & E2).
      assert (x = b) as -> by (apply (key_inj Db.pb_id _ x b Hk); congruence).
      congruence. }
  assert (∀ r, In r (purgada Db.r_base_id (map (λ f, bind_value (field f "id")) filas)
                             (Db.notas_despacho_rel (db w)))
               ↔ In r (Db.notas_despacho_rel (db w))
                 ∧ ∀ b, In b (Db.plantillas_base (db w)) → incorrecta b = true →
                        Db.sql_eq (Db.r_base_id r) (Db.pb_id b) = false) as Hrel.
  { intros r. rewrite purgada_In. split; intros [Hr Hv]; (split; [done|]).
    - intros b Hb Hav. apply Hv, ids_incorrectas. by exists b.
    - intros v Hin. apply ids_incorrectas in Hin as (b & Hb & Hav & <-).
      by apply Hv. }
  destruct (length filas =? 0) eqn:El.
  - assert (filas = []) as Hnil by (destruct filas; [done|discriminate]).
    eexists _, w1. split_and!.
    + unfold Notas.limpiarPlantillasIncorrectas.
      erewrite try_ok; [reflexivity|].
      erewrite bind_ok; [|by apply pool_query_ok, faults_nil_next].
      fold filas. rewrite El. reflexivity.
    + intros x. rewrite <- Hbase. rewrite Hnil. unfold purgada. simpl.
      by rewrite filter_true.
    + intros r. rewrite <- Hrel. rewrite Hnil. unfold purgada. simpl.
      by rewrite filter_true.
  - eexists _, w2. split_and!.
    + unfold Notas.limpiarPlantillasIncorrectas.
      erewrite try_ok; [reflexivity|].
      erewrite bind_ok; [|by apply pool_query_ok, faults_nil_next].
      fold filas. rewrite El.
      erewrite bind_ok; [|exact E]. reflexivity.
    + intros x. by rewrite Eb.
    + intros r. by rewrite Er.
Qed.

(** A template as obtenerPlantillasDisponibles shows it. *)
Definition disponible (b : Db.plantilla_base) : record :=
  [("id", LoginFacts.leido (Db.pb_id b));
   ("novedad", LoginFacts.leido (Db.pb_novedad b));
   ("nota_publica", LoginFacts.leido (Db.pb_nota_publica b));
   ("nota_interna", LoginFacts.leido (Db.pb_nota_interna b));
   ("nota_avances", LoginFacts.leido (Db.pb_nota_avances b));
   ("plantilla", LoginFacts.leido (Db.pb_plantilla b))].

(** obtenerPlantillasDisponibles changes nothing and lists exactly the
    templates that have a name which does not upper-case to AVANCE: a
    template without a name is not listed, and limpiarPlantillasIncorrectas
    does not select it either. *)
Theorem obtenerPlantillasDisponibles_lists (req : request) (w : world) :
  next_fault w = false →
  ∃ rs w',
    Notas.obtenerPlantillasDisponibles req w = (Ok (Response 200 (rows_json rs)), w')
    ∧ db w' = db w
    ∧ (∀ fila,
         In fila rs ↔
         ∃ b s, In b (Db.plantillas_base (db w)) ∧ fila = disponible b
                ∧ Db.pb_novedad b = Some s ∧ Text.upper s ≠ "AVANCE")
    ∧ (∀ b, In b (Db.plantillas_base (db w)) → Db.pb_novedad b = None →
            incorrecta b = false ∧ ¬ In (disponible b) rs).
Proof.
  intros Hf.
  assert (∀ b, map (λ kc : string * Db.cell, (fst kc, js_of_cell (cfg w) (snd kc)))
                   (Db.plantilla_row b) = disponible b) as El.
  { intros b. unfold disponible, Db.plantilla_row. simpl.
    by rewrite !LoginFacts.leido_cell. }
  assert (∀ b, bool_decide (Db.upper_is_avance (Db.pb_novedad b) = Some false) = true
               ↔ ∃ s, Db.pb_novedad b = Some s ∧ Text.upper s ≠ "AVANCE") as Hnom.
  { intros b. rewrite bool_decide_eq_true. unfold Db.upper_is_avance.
    destruct (Db.pb_novedad b) as [s|]; [|split; [done|by intros (? & ? & _)]].
    split.
    - intros [= E]. apply bool_decide_eq_false in E. by exists s.
    - intros (s' & [= <-] & Hne). f_equal. by apply bool_decide_eq_false. }
  assert (∀ fila,
            In fila (rows (answer Db.SelPlantillasDisponibles [] w)) ↔
            ∃ b s, In b (Db.plantillas_base (db w)) ∧ fila = disponible b
                   ∧ Db.pb_novedad b = Some s ∧ Text.upper s ≠ "AVANCE") as Hrows.
  { intros fila. unfold answer.
    cbn [Db.exec fst Db.selected js_of_result rows Db.rows].
    rewrite map_map, in_map_iff. split.
    - intros (b & <- & Hin). apply sort_by_In, filter_In in Hin as [Hb Hn].
      apply Hnom in Hn as (s & Es & Hne). exists b, s. by rewrite El.
    - intros (b & s & Hb & -> & Es & Hne). exists b. split; [apply El|].
      apply sort_by_In, filter_In. split; [done|]. apply Hnom. by exists s. }
  eexists _, _. split_and!.
  - unfold Notas.obtenerPlantillasDisponibles.
    erewrite try_ok; [reflexivity|].
    erewrite bind_ok; [|by apply pool_query_ok]. reflexivity.
  - simpl. by destruct (db w).
  - exact Hrows.
  - intros b Hb Hn. split.
    + unfold incorrecta. rewrite Hn. reflexivity.
    + intros Hin. apply Hrows in Hin as (b' & s & _ & Ed & Es & _).
      unfold disponible in Ed. rewrite Hn, Es in Ed. discriminate.
Qed.

End PurgaFacts.

(** ** Worked instances of the further properties *)

Module Muestras.

Definition luz : Db.usuario :=
  Db.Usuario (Some "u2") (Some "Luz") (Some "luz@example.com") (Some "abc").

(** Ana uses gmail and seguimiento; Luz has nothing yet. *)
Definition dos_usuarios : Db.database :=
  Db.Database [Sample.ana; luz] [Sample.gmail] [Sample.enlace "r1" "u1" "a1" 0]
              [Sample.seguimiento] [Sample.enlace "n1" "u1" "p1" 1].

(** A template stored under the forbidden name, which Luz uses. *)
Definition avance : Db.plantilla_base :=
  Db.PlantillaBase (Some "p2") (Some "Avance") (Some "") (Some "") (Some "") (Some "").

Definition con_avance : Db.database :=
  Db.Database [Sample.ana; luz] [] []
              [Sample.seguimiento; avance]
              [Sample.enlace "n1" "u1" "p1" 1; Sample.enlace "n3" "u2" "p2" 2].

Definition de_usuario (id : string) : request :=
  Request [] [("usuario_id", Js.Str id)] [] None [] None.

Definition autenticada (b : record) (p : payload) : request :=
  Request b [] [] None [] (Some p).

Definition token_ana : payload := Payload (Js.Str "u1") (Js.Str "ana@example.com").

Definition conf_correo : config :=
  Config [("KEY", "s3cret"); ("SMTP_HOST", "smtp.example.com"); ("SMTP_PORT", "587");
          ("SMTP_USER", "siged@example.com"); ("SMTP_PASS", "pass")] true.

Definition con_respuesta (s : string) : world :=
  World Sample.conf Sample.vacia 0 0 [] [Some s] [] [] [].

(** An answer of the model that begins with a no-break space and ends
    with a blank and a line feed. *)
Definition respuesta_con_espacios : string :=
  Sample.nbsp +:+ "Hola. " +:+ String Text.line_feed "".

End Muestras.

Module InstanciasAdicionales.
Import DbFacts.

Lemma una_por_par_uno (r : Db.relacion) : ParFacts.una_por_par [r].
Proof. unfold ParFacts.una_por_par. simpl. constructor; [by intros []|constructor]. Defined.

(** Luz is given gmail: each pair of user and aplicativo still occurs once. *)
Lemma asignarAplicativo_una_por_par_witness :
  ParFacts.una_por_par
    (Db.aplicativos_rel
       (db (after (Aplicativos.asignarAplicativo
                     (Sample.solicitud [("usuario_id", Js.Str "u2");
                                        ("aplicativo_base_id", Js.Str "a1")])
                     (Sample.start Sample.conf Muestras.dos_usuarios []))))).
Proof. apply ParFacts.asignarAplicativo_una_por_par, una_por_par_uno. Defined.

(** Luz is given seguimiento. *)
Lemma asignarNota_una_por_par_witness :
  ParFacts.una_por_par
    (Db.notas_despacho_rel
       (db (after (Notas.asignarNota
                     (Sample.solicitud [("usuario_id", Js.Str "u2");
                                        ("plantilla_id", Js.Str "p1")])
                     (Sample.start Sample.conf Muestras.dos_usuarios []))))).
Proof. apply ParFacts.asignarNota_una_por_par, una_por_par_uno. Defined.

(** Ana already has gmail. *)
Lemma asignarAplicativo_conflict_witness :
  ∃ w', Aplicativos.asignarAplicativo
          (Sample.solicitud [("usuario_id", Js.Str "u1");
                             ("aplicativo_base_id", Js.Str "a1")])
          (Sample.start Sample.conf Sample.propio [])
        = (Ok (Response 409 (mensaje "El aplicativo ya está agregado para este usuario")),
           w')
        ∧ db w' = Sample.propio.
Proof.
  apply (AplicativosFacts.asignarAplicativo_conflict
           (Sample.solicitud [("usuario_id", Js.Str "u1");
                              ("aplicativo_base_id", Js.Str "a1")])
           (Sample.start Sample.conf Sample.propio []) eq_refl eq_refl eq_refl).
  - exists Sample.ana. split; [by left | reflexivity].
  - exists Sample.gmail. split; [by left | reflexivity].
  - exists (Sample.enlace "r1" "u1" "a1" 0). split; [by left | by split].
Defined.

Definition nuevo_aplicativo : request :=
  Sample.solicitud [("usuario_id", Js.Str "u1"); ("nombre", Js.Str "Drive");
                    ("url", Js.Str "https://drive.google.com");
                    ("categoria", Js.Str "Archivos")].

(** Ana adds Drive: one base row and one relation are appended. *)
Lemma agregarAplicativo_creates_witness :
  ∃ o w',
    Aplicativos.agregarAplicativo nuevo_aplicativo
      (Sample.start Sample.conf Sample.solo_ana []) = (Ok (Response 201 o), w')
    ∧ length (Db.aplicativos_base (db w')) = 1
    ∧ length (Db.aplicativos_rel (db w')) = 1.
Proof.
  destruct (AplicativosFacts.agregarAplicativo_creates nuevo_aplicativo
              (Sample.start Sample.conf Sample.solo_ana []) eq_refl eq_refl eq_refl)
    as (o & w' & E & Ed).
  - exists Sample.ana. split; [by left | reflexivity].
  - exists o, w'. split; [exact E|]. rewrite Ed. by split.
Defined.

(** The insert of the relation fails: Drive stays without a user. *)
Lemma agregarAplicativo_orphan_witness :
  ∃ o w',
    Aplicativos.agregarAplicativo nuevo_aplicativo
      (Sample.start Sample.conf Sample.solo_ana [false; false; true])
    = (Ok (Response 500 o), w')
    ∧ length (Db.aplicativos_base (db w')) = 1
    ∧ Db.aplicativos_rel (db w') = [].
Proof.
  destruct (AplicativosFacts.agregarAplicativo_orphan nuevo_aplicativo
              (Sample.start Sample.conf Sample.solo_ana [false; false; true])
              eq_refl eq_refl eq_refl)
    as (o & w' & E & Eb & Er).
  - exists Sample.ana. split; [by left | reflexivity].
  - exists o, w'. split; [exact E|]. rewrite Eb, Er. by split.
Defined.

(** Nobody has to be logged in as Ana to give her account the password
    otra and log in with it. *)
Lemma recuperar_then_login_witness :
  ∃ w1,
    Auth.recuperarContrasena
      (Sample.solicitud [("email", Js.Str "ana@example.com"); ("nueva", Js.Str "otra")])
      (Sample.start Sample.conf Sample.solo_ana [])
    = (Ok (Response 200 (mensaje "Contraseña cambiada correctamente")), w1)
    ∧ ∃ r w2,
        @Auth.loginUsuario Sample.toy_jwt
          (Sample.solicitud [("email", Js.Str "ana@example.com");
                             ("contraseña", Js.Str "otra")]) w1 = (Ok r, w2)
        ∧ status r = 200.
Proof.
  destruct (@CuentaFacts.recuperar_then_login Sample.toy_jwt
              (Sample.solicitud [("email", Js.Str "ana@example.com");
                                 ("nueva", Js.Str "otra")])
              (Sample.solicitud [("email", Js.Str "ana@example.com");
                                 ("contraseña", Js.Str "otra")])
              (Sample.start Sample.conf Sample.solo_ana [])
              "ana@example.com" "otra" "s3cret" eq_refl eq_refl eq_refl eq_refl eq_refl)
    as (w1 & E & _ & Hlogin).
  - exists Sample.ana. split; [by left | reflexivity].
  - reflexivity.
  - discriminate.
  - exists w1. split; [exact E | exact Hlogin].
Defined.

(** Ana changes her password with the right current one, is refused with
    a wrong one, and the handler throws without the middleware. *)
Lemma cambiarContrasena_effect_witness :
  (∃ w', Auth.cambiarContrasena
           (Muestras.autenticada [("actual", Js.Str "clave"); ("nueva", Js.Str "otra")]
                                 Muestras.token_ana)
           (Sample.start Sample.conf Sample.solo_ana [])
         = (Ok (Response 200 (mensaje "Contraseña actualizada correctamente")), w')
         ∧ map Db.u_contrasena (Db.usuarios (db w')) = [Some "otra"])
  ∧ (∃ w', Auth.cambiarContrasena
             (Muestras.autenticada [("actual", Js.Str "no"); ("nueva", Js.Str "otra")]
                                   Muestras.token_ana)
             (Sample.start Sample.conf Sample.solo_ana [])
           = (Ok (Response 401 (mensaje "Contraseña actual incorrecta")), w')
           ∧ db w' = Sample.solo_ana)
  ∧ Auth.cambiarContrasena
      (Sample.solicitud [("actual", Js.Str "clave"); ("nueva", Js.Str "otra")])
      (Sample.start Sample.conf Sample.solo_ana [])
    = (Throw type_error, Sample.start Sample.conf Sample.solo_ana []).
Proof.
  split_and!.
  - destruct (proj1 (CuentaFacts.cambiarContrasena_effect
                       (Muestras.autenticada
                          [("actual", Js.Str "clave"); ("nueva", Js.Str "otra")]
                          Muestras.token_ana)
                       (Sample.start Sample.conf Sample.solo_ana []))
                Muestras.token_ana Sample.ana [] eq_refl eq_refl eq_refl eq_refl)
      as (w' & E & Eu).
    exists w'. split; [exact E|]. rewrite Eu. reflexivity.
  - apply (proj1 (proj2 (CuentaFacts.cambiarContrasena_effect
                           (Muestras.autenticada
                              [("actual", Js.Str "no"); ("nueva", Js.Str "otra")]
                              Muestras.token_ana)
                           (Sample.start Sample.conf Sample.solo_ana [])))
             Muestras.token_ana eq_refl eq_refl).
    intros (u & us & Ec & El). injection Ec as <- _. discriminate.
  - apply (proj2 (proj2 (CuentaFacts.cambiarContrasena_effect
                           (Sample.solicitud
                              [("actual", Js.Str "clave"); ("nueva", Js.Str "otra")])
                           (Sample.start Sample.conf Sample.solo_ana [])))).
    reflexivity.
Defined.

(** Luz registers beside Ana: the addresses stay distinct. *)
Lemma registrarUsuario_emails_unicos_witness :
  CuentaFacts.emails_unicos
    (Db.usuarios
       (db (after (@Auth.registrarUsuario Sample.toy_jwt Sample.registro_luz
                     (Sample.start Sample.conf Sample.solo_ana []))))).
Proof.
  apply (@CuentaFacts.registrarUsuario_emails_unicos Sample.toy_jwt).
  unfold CuentaFacts.emails_unicos. simpl. constructor; [by intros []|constructor].
Defined.

(** seguimiento is removed for every user; when the second DELETE fails
    the template stays and Ana's relation to it is gone. *)
Lemma eliminarPlantillaAdicional_cleans_witness :
  (∃ o w',
     Notas.eliminarPlantillaAdicional (Sample.con_id "p1")
       (Sample.start Sample.conf Sample.compartido []) = (Ok (Response 200 o), w')
     ∧ Db.plantillas_base (db w') = [] ∧ Db.notas_despacho_rel (db w') = [])
  ∧ (∃ o w',
       Notas.eliminarPlantillaAdicional (Sample.con_id "p1")
         (Sample.start Sample.conf Sample.compartido [false; false; true])
       = (Ok (Response 500 o), w')
       ∧ Db.plantillas_base (db w') = [Sample.seguimiento]).
Proof.
  split.
  - destruct (PlantillaFacts.eliminarPlantillaAdicional_cleans (Sample.con_id "p1")
                (Sample.start Sample.conf Sample.compartido []) "p1" eq_refl)
      as [H _].
    + discriminate.
    + exists Sample.seguimiento. split; [by left | reflexivity].
    + destruct (H eq_refl) as (o & w' & E & Ed & _).
      exists o, w'. split; [exact E|]. rewrite Ed. by split.
  - destruct (PlantillaFacts.eliminarPlantillaAdicional_cleans (Sample.con_id "p1")
                (Sample.start Sample.conf Sample.compartido [false; false; true])
                "p1" eq_refl)
      as [_ H].
    + discriminate.
    + exists Sample.seguimiento. split; [by left | reflexivity].
    + destruct (H eq_refl) as (o & w' & E & _ & Eb).
      exists o, w'. split; [exact E | exact Eb].
Defined.

(** After the note of progress of seguimiento is cleared, Ana's list of
    notes of progress no longer shows it. *)
Lemma limpiarNotaAvances_hides_witness :
  ∃ w1,
    Notas.limpiarNotaAvances (Sample.con_id "p1")
      (Sample.start Sample.conf Sample.propio [])
    = (Ok (Response 200 (mensaje "Nota de avances eliminada correctamente")), w1)
    ∧ ∃ rs w2,
        Notas.obtenerNotasAvances (Muestras.de_usuario "u1") w1
        = (Ok (Response 200 (rows_json rs)), w2)
        ∧ ∀ r, In r rs → field r "plantilla_id" ≠ Js.Str "p1".
Proof.
  destruct (PlantillaFacts.limpiarNotaAvances_hides (Sample.con_id "p1")
              (Muestras.de_usuario "u1") (Sample.start Sample.conf Sample.propio [])
              "p1" eq_refl eq_refl)
    as (w1 & E & _ & H).
  - exists Sample.seguimiento. split; [by left | reflexivity].
  - exists w1. split; [exact E | exact H].
Defined.

(** Ana's list holds her relation to seguimiento. *)
Lemma obtenerNotas_lists_existing_witness :
  ∃ rs w',
    Notas.obtenerNotas (Muestras.de_usuario "u1")
      (Sample.start Sample.conf Sample.compartido []) = (Ok (Response 200 (rows_json rs)), w')
    ∧ In (PlantillaFacts.nota_listada (Sample.enlace "n1" "u1" "p1" 1) Sample.seguimiento)
         rs.
Proof.
  destruct (PlantillaFacts.obtenerNotas_lists_existing (Muestras.de_usuario "u1")
              (Sample.start Sample.conf Sample.compartido []) eq_refl)
    as (rs & w' & E & H).
  exists rs, w'. split; [exact E|]. apply H.
  exists (Sample.enlace "n1" "u1" "p1" 1), Sample.seguimiento.
  split_and!; [reflexivity | by left | by left | reflexivity | reflexivity].
Defined.

Definition renombrar (id : string) : request :=
  Request [("novedad", Js.Str "Cierre")] [("id", Js.Str id)] [] None [] None.

(** Renaming seguimiento without sending the other fields empties them;
    an unknown id is answered 404. *)
Lemma modificarPlantilla_replaces_witness :
  (∃ o w',
     Notas.modificarPlantilla (renombrar "p1")
       (Sample.start Sample.conf Sample.propio []) = (Ok (Response 200 o), w')
     ∧ map Db.pb_novedad (Db.plantillas_base (db w')) = [Some "Cierre"]
     ∧ map Db.pb_nota_avances (Db.plantillas_base (db w')) = [None])
  ∧ (∃ o w',
       Notas.modificarPlantilla (renombrar "zz")
         (Sample.start Sample.conf Sample.propio []) = (Ok (Response 404 o), w')
       ∧ Db.plantillas_base (db w') = [Sample.seguimiento]).
Proof.
  split.
  - destruct (proj1 (PlantillaFacts.modificarPlantilla_replaces (renombrar "p1")
                       (Sample.start Sample.conf Sample.propio []) eq_refl))
      as (o & w' & E & Eb & _).
    + exists Sample.seguimiento. split; [by left | reflexivity].
    + exists o, w'. split; [exact E|]. rewrite Eb. by split.
  - destruct (proj2 (PlantillaFacts.modificarPlantilla_replaces (renombrar "zz")
                       (Sample.start Sample.conf Sample.propio []) eq_refl))
      as (o & w' & E & Eb).
    + intros b [<-|[]]. reflexivity.
    + exists o, w'. split; [exact E | exact Eb].
Defined.

(** With gmail and seguimiento stored nothing is seeded; on empty tables
    the defaults are inserted. *)
Lemma seeding_only_when_empty_witness :
  (∃ w', Auth.crearAplicativosBasePorDefecto (Sample.start Sample.conf Sample.propio [])
         = (Ok tt, w') ∧ db w' = Sample.propio)
  ∧ (∃ w', Auth.crearPlantillasBasePorDefecto (Sample.start Sample.conf Sample.propio [])
           = (Ok tt, w') ∧ db w' = Sample.propio)
  ∧ (∃ w', Auth.crearAplicativosBasePorDefecto (Sample.start Sample.conf Sample.vacia [])
           = (Ok tt, w') ∧ length (Db.aplicativos_base (db w')) = 5)
  ∧ (∃ w', Auth.crearPlantillasBasePorDefecto (Sample.start Sample.conf Sample.vacia [])
           = (Ok tt, w') ∧ length (Db.plantillas_base (db w')) = 3).
Proof.
  pose proof (DefectoFacts.seeding_only_when_empty
                (Sample.start Sample.conf Sample.propio [])) as (H1 & H2 & _).
  pose proof (DefectoFacts.seeding_only_when_empty
                (Sample.start Sample.conf Sample.vacia [])) as (_ & _ & H3 & H4).
  split_and!.
  - destruct (H1 eq_refl) as (w' & E & Ed & _); [discriminate|]. by exists w'.
  - destruct (H2 eq_refl) as (w' & E & Ed & _); [discriminate|]. by exists w'.
  - destruct (H3 eq_refl eq_refl) as (w' & E & En & _). exists w'. split; [exact E|].
    rewrite <- (length_map Db.ab_nombre), En. reflexivity.
  - destruct (H4 eq_refl eq_refl) as (w' & E & En & _). exists w'. split; [exact E|].
    rewrite <- (length_map Db.pb_novedad), En. reflexivity.
Defined.

(** Luz, who has nothing yet, is given the defaults. *)
Lemma default_assignment_fresh_user_witness :
  ParFacts.una_por_par
    (Db.aplicativos_rel
       (db (after (Auth.asignarAplicativosPorDefecto (Js.Str "u2")
                     (Sample.start Sample.conf Muestras.dos_usuarios [])))))
  ∧ ParFacts.una_por_par
      (Db.notas_despacho_rel
         (db (after (Auth.asignarPlantillasPorDefecto (Js.Str "u2")
                       (Sample.start Sample.conf Muestras.dos_usuarios []))))).
Proof.
  split.
  - apply (proj1 (DefectoFacts.default_assignment_fresh_user (Js.Str "u2")
                    (Sample.start Sample.conf Muestras.dos_usuarios []))).
    + apply Instancias.key_uno. by eexists.
    + discriminate.
    + intros r [<-|[]]. discriminate.
    + apply una_por_par_uno.
  - apply (proj2 (DefectoFacts.default_assignment_fresh_user (Js.Str "u2")
                    (Sample.start Sample.conf Muestras.dos_usuarios []))).
    + apply Instancias.key_uno. by eexists.
    + discriminate.
    + intros r [<-|[]]. discriminate.
    + apply una_por_par_uno.
Defined.

(** Without SMTP_HOST, SMTP_PORT and SMTP_PASS the answer is 400 and
    names them; with the four variables the transport is verified. *)
Lemma verificarConfiguracion_checks_witness :
  (∃ o, Mail.verificarConfiguracion (Sample.solicitud [])
          (Sample.start Sample.conf Sample.vacia [])
        = (Ok (Response 400
                 (Js.JObj [("success", Js.JVal (Js.Bool false)); ("message", o);
                           ("missingVariables",
                            Js.JArr (map Js.jstr ["SMTP_HOST"; "SMTP_PORT"; "SMTP_PASS"]))])),
           Sample.start Sample.conf Sample.vacia []))
  ∧ (∃ o w', Mail.verificarConfiguracion (Sample.solicitud [])
               (Sample.start Muestras.conf_correo Sample.vacia [])
             = (Ok (Response 200 o), w'))
  ∧ (∃ o w', Mail.verificarConfiguracion (Sample.solicitud [])
               (Sample.start Muestras.conf_correo Sample.vacia [true])
             = (Ok (Response 500 o), w')).
Proof.
  split_and!.
  - apply (proj1 (proj2 (ServiciosFacts.verificarConfiguracion_checks
                           (Sample.solicitud [])
                           (Sample.start Sample.conf Sample.vacia [])))).
    discriminate.
  - apply (proj2 (proj2 (ServiciosFacts.verificarConfiguracion_checks
                           (Sample.solicitud [])
                           (Sample.start Muestras.conf_correo Sample.vacia [])))).
    reflexivity.
  - apply (proj2 (proj2 (ServiciosFacts.verificarConfiguracion_checks
                           (Sample.solicitud [])
                           (Sample.start Muestras.conf_correo Sample.vacia [true])))).
    reflexivity.
Defined.

Definition corregir (texto : string) : request :=
  Sample.solicitud [("texto", Js.Str texto); ("modo", Js.Str "corregir_ortografia")].

(** The corrector is asked, and its answer comes back trimmed of the
    no-break space before it and the blank and line feed after it. *)
Lemma mejorarTexto_modes_witness :
  ∃ r w' prompt,
    Ai.mejorarTextoChatGPT (Ai.Loaded "g-key") (corregir "ola")
      (Muestras.con_respuesta Muestras.respuesta_con_espacios) = (Ok r, w')
    ∧ ai_log w' = [AiRequest "g-key" Ai.model [TextPart prompt] Ai.corrector]
    ∧ status r = 200
    ∧ ServiciosFacts.texto_mejorado r = Some "Hola.".
Proof.
  destruct (ServiciosFacts.mejorarTexto_modes (Ai.Loaded "g-key") (corregir "ola")
              (Muestras.con_respuesta Muestras.respuesta_con_espacios) eq_refl)
    as (r & w' & prompt & E & El & _ & H).
  destruct (H eq_refl) as (Es & Et & _).
  exists r, w', prompt. split_and!; [exact E | exact El | exact Es | exact Et].
Defined.

(** Avance is purged together with Luz's relation to it; seguimiento and
    Ana's relation stay. *)
Lemma limpiarPlantillasIncorrectas_purges_witness :
  ∃ o w',
    Notas.limpiarPlantillasIncorrectas (Sample.solicitud [])
      (Sample.start Sample.conf Muestras.con_avance []) = (Ok (Response 200 o), w')
    ∧ In Sample.seguimiento (Db.plantillas_base (db w'))
    ∧ ¬ In Muestras.avance (Db.plantillas_base (db w'))
    ∧ ¬ In (Sample.enlace "n3" "u2" "p2" 2) (Db.notas_despacho_rel (db w')).
Proof.
  destruct (PurgaFacts.limpiarPlantillasIncorrectas_purges (Sample.solicitud [])
              (Sample.start Sample.conf Muestras.con_avance []) eq_refl)
    as (o & w' & E & Hb & Hr).
  - apply Instancias.key_dos; [by eexists | by eexists | discriminate].
  - exists o, w'. split_and!.
    + exact E.
    + apply Hb. split; [by left | reflexivity].
    + intros Hin. apply Hb in Hin as [_ Hno]. discriminate.
    + intros Hin. apply Hr in Hin as [_ Hno].
      specialize (Hno Muestras.avance (or_intror (or_introl eq_refl)) eq_refl).
      discriminate.
Defined.

(** Of seguimiento and Avance only seguimiento is offered. *)
Lemma obtenerPlantillasDisponibles_lists_witness :
  ∃ rs w',
    Notas.obtenerPlantillasDisponibles (Sample.solicitud [])
      (Sample.start Sample.conf Muestras.con_avance [])
    = (Ok (Response 200 (rows_json rs)), w')
    ∧ In (PurgaFacts.disponible Sample.seguimiento) rs
    ∧ ¬ In (PurgaFacts.disponible Muestras.avance) rs.
Proof.
  destruct (PurgaFacts.obtenerPlantillasDisponibles_lists (Sample.solicitud [])
              (Sample.start Sample.conf Muestras.con_avance []) eq_refl)
    as (rs & w' & E & _ & H & _).
  exists rs, w'. split_and!.
  - exact E.
  - apply H. exists Sample.seguimiento, "Seguimiento".
    split_and!; [by left | reflexivity | reflexivity | discriminate].
  - intros Hin. apply H in Hin as (b & s & Hb & Ed & Es & Hne).
    destruct Hb as [<-|[<-|[]]]; [discriminate Ed|].
    injection Es as <-. by apply Hne.
Defined.

End InstanciasAdicionales.
